(** * sftp-ws: the SFTP v3 client core, embedded in Rocq

    A shallow embedding of [lib/sftp-misc.ts] (flags translator, extension
    registry, attribute block) and of [lib/sftp-client.ts] (the
    [SftpClientCore] request multiplexer and protocol engine), together with
    the properties of the specification that were checked against them.

    Conventions of the embedding:
    - a JavaScript number that holds an integer is a [Z]; the bitwise
      operators go through [to_int32], as ECMAScript's ToInt32 does;
    - a [Buffer] is a list of bytes, each byte a [Z] in [0, 256);
    - a JavaScript string is a [string], one character per byte (the
      protocol strings of the client are ASCII identifiers and paths);
    - [undefined]/[null] in an optional position is [None];
    - a thrown [Error] is the [Throw] outcome, carrying the message. *)

From Stdlib Require Import ZArith Znumtheory String Ascii List Lia Bool.
From stdpp Require Import base option list sorting gmap strings.

Local Open Scope string_scope.
Local Open Scope list_scope.
Local Open Scope Z_scope.

(** ** Outcomes of code that may throw *)

Inductive result (A : Type) : Type :=
| Return (a : A)
| Throw (msg : string).
Arguments Return {A} a.
Arguments Throw {A} msg.

#[global] Instance result_ret : MRet result := fun A a => Return a.
#[global] Instance result_bind : MBind result := fun A B k r =>
  match r with
  | Return a => k a
  | Throw msg => Throw msg
  end.

(** ** JavaScript 32-bit integer operators *)

Module Js.

(** ECMAScript ToInt32 on an integral number. *)
Definition to_int32 (z : Z) : Z := (z + 2 ^ 31) mod 2 ^ 32 - 2 ^ 31.

(** [a & b], [a | b], [a ^ b] and [~a]. *)
Definition land (a b : Z) : Z := to_int32 (Z.land (to_int32 a) (to_int32 b)).
Definition lor (a b : Z) : Z := to_int32 (Z.lor (to_int32 a) (to_int32 b)).
Definition lxor (a b : Z) : Z := to_int32 (Z.lxor (to_int32 a) (to_int32 b)).
Definition lnot (a : Z) : Z := to_int32 (Z.lnot (to_int32 a)).

(** Truthiness of a number. *)
Definition truthy (z : Z) : bool := negb (z =? 0).

End Js.

(** ** Enumerations

    Modelled from the spec: [sftp-enums.ts] is not part of the sources at
    hand; the values are those of the specification's section 6. *)

Module SftpOpenFlags.
Definition READ : Z := 1.
Definition WRITE : Z := 2.
Definition APPEND : Z := 4.
Definition CREATE : Z := 8.
Definition TRUNC : Z := 16.
Definition EXCL : Z := 32.
Definition ALL : Z := 63.
End SftpOpenFlags.

Module SftpPacketType.
Definition INIT : Z := 1.
Definition VERSION : Z := 2.
Definition OPEN : Z := 3.
Definition CLOSE : Z := 4.
Definition READ : Z := 5.
Definition WRITE : Z := 6.
Definition LSTAT : Z := 7.
Definition FSTAT : Z := 8.
Definition SETSTAT : Z := 9.
Definition FSETSTAT : Z := 10.
Definition OPENDIR : Z := 11.
Definition READDIR : Z := 12.
Definition REMOVE : Z := 13.
Definition MKDIR : Z := 14.
Definition RMDIR : Z := 15.
Definition REALPATH : Z := 16.
Definition STAT : Z := 17.
Definition RENAME : Z := 18.
Definition READLINK : Z := 19.
Definition SYMLINK : Z := 20.
Definition STATUS : Z := 101.
Definition HANDLE : Z := 102.
Definition DATA : Z := 103.
Definition NAME : Z := 104.
Definition ATTRS : Z := 105.
Definition EXTENDED : Z := 200.
Definition EXTENDED_REPLY : Z := 201.
End SftpPacketType.

Module SftpStatusCode.
Definition OK : Z := 0.
Definition EOF : Z := 1.
Definition NO_SUCH_FILE : Z := 2.
Definition PERMISSION_DENIED : Z := 3.
Definition FAILURE : Z := 4.
Definition BAD_MESSAGE : Z := 5.
Definition NO_CONNECTION : Z := 6.
Definition CONNECTION_LOST : Z := 7.
Definition OP_UNSUPPORTED : Z := 8.
End SftpStatusCode.

(** ** SftpFlags: symbolic open modes and SFTP open-flag bits *)

Module SftpFlags.
Import SftpOpenFlags.

(** The argument of [toNumber] is declared a string, but the function tests
    [typeof flags === 'number'] first. *)
Inductive flags_arg : Type :=
| FlagsNum (n : Z)
| FlagsStr (s : string).

Definition toNumber (flags : flags_arg) : result Z :=
  match flags with
  | FlagsNum n => Return (Js.land n ALL)
  | FlagsStr s =>
    if String.eqb s "r" then Return READ
    else if String.eqb s "r+" then Return (Js.lor READ WRITE)
    else if String.eqb s "w" then Return (Js.lor (Js.lor WRITE CREATE) TRUNC)
    else if String.eqb s "w+" then
      Return (Js.lor (Js.lor (Js.lor WRITE CREATE) TRUNC) READ)
    else if String.eqb s "wx" || String.eqb s "xw" then
      Return (Js.lor (Js.lor WRITE CREATE) EXCL)
    else if String.eqb s "wx+" || String.eqb s "xw+" then
      Return (Js.lor (Js.lor (Js.lor WRITE CREATE) EXCL) READ)
    else if String.eqb s "a" then Return (Js.lor (Js.lor WRITE CREATE) APPEND)
    else if String.eqb s "a+" then
      Return (Js.lor (Js.lor (Js.lor WRITE CREATE) APPEND) READ)
    else if String.eqb s "ax" || String.eqb s "xa" then
      Return (Js.lor (Js.lor (Js.lor WRITE CREATE) APPEND) EXCL)
    else if String.eqb s "ax+" || String.eqb s "xa+" then
      Return (Js.lor (Js.lor (Js.lor (Js.lor WRITE CREATE) APPEND) EXCL) READ)
    else Throw ("Invalid flags '" +:+ s +:+ "'")
  end.

(** The four normalization steps of [fromNumber], after the initial mask. *)
Definition normalize (flags : Z) : Z :=
  let flags := Js.land flags ALL in
  (* 'truncate' does not apply when creating a new file *)
  let flags :=
    if negb (Js.land flags EXCL =? 0) then Js.land flags (Js.lxor ALL TRUNC)
    else flags in
  (* 'append' does not apply when truncating *)
  let flags :=
    if negb (Js.land flags TRUNC =? 0) then Js.land flags (Js.lxor ALL APPEND)
    else flags in
  (* 'read' or 'write' must be specified (or both) *)
  let flags :=
    if Js.land flags (Js.lor READ WRITE) =? 0 then Js.lor flags READ
    else flags in
  (* when not creating a new file, only 'read' or 'write' applies
     (and when creating a new file, 'write' is required) *)
  if Js.land flags CREATE =? 0 then Js.land flags (Js.lor READ WRITE)
  else Js.lor flags WRITE.

(** The [case] labels of the final [switch]. *)
Definition table_labels : list Z :=
  [1; 2; 3; 10; 11; 14; 15; 26; 27; 42; 43; 46; 47].

Definition table (flags : Z) : result (list string) :=
  match flags with
  | 1 => Return ["r"]
  | 2 | 3 => Return ["r+"]
  | 10 => Return ["wx"; "r+"]
  | 11 => Return ["wx+"; "r+"]
  | 14 => Return ["a"]
  | 15 => Return ["a+"]
  | 26 => Return ["w"]
  | 27 => Return ["w+"]
  | 42 => Return ["wx"]
  | 43 => Return ["wx+"]
  | 46 => Return ["ax"]
  | 47 => Return ["ax+"]
  | _ => (* this will never occur *) Throw "Unsupported flags"
  end.

Definition fromNumber (flags : Z) : result (list string) :=
  table (normalize flags).

End SftpFlags.

(** ** Packet reader and writer

    Modelled from the spec: [sftp-packet.ts] ([SftpPacket],
    [SftpPacketWriter], [SftpPacketReader]) is not part of the sources at
    hand.  The model follows sections 3, 4.1 and 6 of the specification:
    big-endian fields, a frame made of a 32-bit length prefix (not counting
    itself), a type byte and, except for INIT and VERSION, a 32-bit request
    id; writers fail on capacity exhaustion, readers fail with BAD_MESSAGE
    when a read would exceed the frame. *)

Module Packet.

Definition buffer : Type := list Z.

(** [n] bytes, most significant first, of the two's complement of [v]. *)
Fixpoint be (n : nat) (v : Z) : buffer :=
  match n with
  | O => []
  | S k => (v / 256 ^ Z.of_nat k) mod 256 :: be k v
  end.

Definition unbe (b : buffer) : Z := fold_left (fun acc x => acc * 256 + x) b 0.

(** Reinterpretation of an unsigned [bits]-bit value as a signed one. *)
Definition signed (bits : Z) (v : Z) : Z :=
  if v <? 2 ^ (bits - 1) then v else v - 2 ^ bits.

Definition bytes_of_string (s : string) : buffer :=
  map (fun a => Z.of_N (N_of_ascii a)) (list_ascii_of_string s).

Definition string_of_bytes (b : buffer) : string :=
  string_of_list_ascii (map (fun z => ascii_of_N (Z.to_N z)) b).

(** The [type] of a packet is a number, or the name of an extended
    request. *)
Inductive packet_type : Type :=
| TypeNum (n : Z)
| TypeName (name : string).

Definition is_handshake (t : packet_type) : bool :=
  match t with
  | TypeNum n => (n =? SftpPacketType.INIT) || (n =? SftpPacketType.VERSION)
  | TypeName _ => false
  end.

(** *** Writer *)

Record SftpPacketWriter : Type := mkWriter {
  w_type : option packet_type;
  w_id : option Z;
  w_capacity : Z;
  w_reserved : Z;      (* header bytes reserved by [start] *)
  w_bytes : buffer     (* fields written so far *)
}.

Definition new_writer (capacity : Z) : SftpPacketWriter :=
  mkWriter None None capacity 0 [].

Definition set_type (t : packet_type) (w : SftpPacketWriter) : SftpPacketWriter :=
  mkWriter (Some t) (w_id w) (w_capacity w) (w_reserved w) (w_bytes w).

Definition set_id (i : option Z) (w : SftpPacketWriter) : SftpPacketWriter :=
  mkWriter (w_type w) i (w_capacity w) (w_reserved w) (w_bytes w).

(** The frame header that [finish] emits: length prefix, type byte and,
    for non-handshake frames, the request id; an extended request carries
    its name next. *)
Definition header_tail (t : option packet_type) (i : option Z) : buffer :=
  match t with
  | Some (TypeNum n) =>
    if is_handshake (TypeNum n) then [n mod 256]
    else (n mod 256) :: be 4 (default 0 i)
  | Some (TypeName name) =>
    SftpPacketType.EXTENDED :: be 4 (default 0 i)
      ++ be 4 (Z.of_nat (String.length name)) ++ bytes_of_string name
  | None => 0 :: be 4 (default 0 i)
  end.

Definition start (w : SftpPacketWriter) : SftpPacketWriter :=
  mkWriter (w_type w) (w_id w) (w_capacity w)
    (4 + Z.of_nat (List.length (header_tail (w_type w) (w_id w)))) [].

Definition position (w : SftpPacketWriter) : Z :=
  w_reserved w + Z.of_nat (List.length (w_bytes w)).

Definition write_raw (b : buffer) (w : SftpPacketWriter) : result SftpPacketWriter :=
  if position w + Z.of_nat (List.length b) <=? w_capacity w then
    Return (mkWriter (w_type w) (w_id w) (w_capacity w) (w_reserved w)
              (w_bytes w ++ b))
  else Throw "Packet capacity exceeded".

Definition writeByte (v : Z) := write_raw (be 1 v).
Definition writeInt32 (v : Z) := write_raw (be 4 v).
Definition writeInt64 (v : Z) := write_raw (be 8 v).
Definition writeString (s : string) :=
  write_raw (be 4 (Z.of_nat (String.length s)) ++ bytes_of_string s).

(** [writeData(data)]: a length-prefixed byte string. *)
Definition writeData (data : buffer) :=
  write_raw (be 4 (Z.of_nat (List.length data)) ++ data).

(** [writeData(data, start, end)]: the same, for a slice of [data]. *)
Definition writeDataSlice (data : buffer) (from to : Z) :=
  writeData (take (Z.to_nat (to - from)) (drop (Z.to_nat from) data)).

(** The finished frame; its length is the back-patched prefix plus 4. *)
Definition finish (w : SftpPacketWriter) : buffer :=
  let rest := header_tail (w_type w) (w_id w) ++ w_bytes w in
  be 4 (Z.of_nat (List.length rest)) ++ rest.

(** *** Reader *)

Record SftpPacketReader : Type := mkReader {
  r_type : option Z;
  r_id : option Z;
  r_buffer : buffer;
  r_position : nat
}.

Definition r_length (r : SftpPacketReader) : nat := List.length (r_buffer r).

Definition remaining (r : SftpPacketReader) : nat := (r_length r - r_position r)%nat.

Definition advance (n : nat) (r : SftpPacketReader) : SftpPacketReader :=
  mkReader (r_type r) (r_id r) (r_buffer r) (r_position r + n)%nat.

Definition read_raw (n : nat) (r : SftpPacketReader)
  : result (buffer * SftpPacketReader) :=
  if (r_position r + n <=? r_length r)%nat then
    Return (take n (drop (r_position r) (r_buffer r)), advance n r)
  else Throw "BAD_MESSAGE".

Definition readByte (r : SftpPacketReader) : result (Z * SftpPacketReader) :=
  '(b, r) ← read_raw 1 r; Return (unbe b, r).

Definition readUint16 (r : SftpPacketReader) : result (Z * SftpPacketReader) :=
  '(b, r) ← read_raw 2 r; Return (unbe b, r).

Definition readUint32 (r : SftpPacketReader) : result (Z * SftpPacketReader) :=
  '(b, r) ← read_raw 4 r; Return (unbe b, r).

Definition readInt32 (r : SftpPacketReader) : result (Z * SftpPacketReader) :=
  '(b, r) ← read_raw 4 r; Return (signed 32 (unbe b), r).

Definition readInt64 (r : SftpPacketReader) : result (Z * SftpPacketReader) :=
  '(b, r) ← read_raw 8 r; Return (signed 64 (unbe b), r).

(** A length-prefixed byte string. *)
Definition read_prefixed (r : SftpPacketReader) : result (buffer * SftpPacketReader) :=
  '(n, r) ← readUint32 r; read_raw (Z.to_nat n) r.

Definition readString (r : SftpPacketReader) : result (string * SftpPacketReader) :=
  '(b, r) ← read_prefixed r; Return (string_of_bytes b, r).

Definition skipString (r : SftpPacketReader) : result SftpPacketReader :=
  '(_, r) ← read_prefixed r; Return r.

(** [readData(clone)]: a length-prefixed byte string.  The flag asks for a
    copy of the bytes instead of a view of the frame; the two are the same
    value.  (A HANDLE reply carries its handle this way: the handle given
    to [close] after [open] is the token alone, without its length.) *)
Definition readData (clone : bool) (r : SftpPacketReader)
  : result (buffer * SftpPacketReader) :=
  read_prefixed r.

(** [readStructuredData]: peels a length-prefixed inner frame and returns a
    reader scoped to it, together with the advanced outer reader. *)
Definition readStructuredData (r : SftpPacketReader)
  : result (SftpPacketReader * SftpPacketReader) :=
  '(b, r) ← read_prefixed r; Return (mkReader None None b 0, r).

(** [new SftpPacketReader(frame)]: skips the length prefix, reads the type
    and, for anything but INIT and VERSION, the request id. *)
Definition new_reader (frame : buffer) : result SftpPacketReader :=
  let r := mkReader None None frame 0 in
  '(_, r) ← readUint32 r;
  '(t, r) ← readByte r;
  if is_handshake (TypeNum t) then
    Return (mkReader (Some t) None (r_buffer r) (r_position r))
  else
    '(i, r) ← readInt32 r;
    Return (mkReader (Some t) (Some i) (r_buffer r) (r_position r)).

End Packet.

(** ** SftpExtensions: the extension registry *)

Module SftpExtensions.
Import Packet.

Definition POSIX_RENAME := "posix-rename@openssh.com".
Definition STATVFS := "statvfs@openssh.com".
Definition FSTATVFS := "fstatvfs@openssh.com".
Definition HARDLINK := "hardlink@openssh.com".
Definition FSYNC := "fsync@openssh.com".
Definition NEWLINE := "newline@sftp.ws".
Definition NEWLINE2 := "newline".
Definition NEWLINE3 := "newline@vandyke.com".
Definition CHARSET := "charset@sftp.ws".
Definition METADATA := "meta@sftp.ws".
Definition VERSIONS := "versions".
Definition VENDOR := "vendor-id".
Definition COPY_FILE := "copy-file".
Definition COPY_DATA := "copy-data".
Definition CHECK_FILE := "check-file".
Definition CHECK_FILE_HANDLE := "check-file-handle".
Definition CHECK_FILE_NAME := "check-file-name".
Definition SUPPORTED := "supported".
Definition SUPPORTED2 := "supported2".
Definition DEFAULT_FS_ATTRIBS := "default-fs-attribs@vandyke.com".
Definition SYMLINK_ORDER := "symlink-order@rjk.greenend.org.uk".
Definition LINK_ORDER := "link-order@rjk.greenend.org.uk".

(** The static initializer adds the own property ["_" + value] for every
    static string declared above it. *)
Definition registered : list string :=
  [POSIX_RENAME; STATVFS; FSTATVFS; HARDLINK; FSYNC; NEWLINE; NEWLINE2;
   NEWLINE3; CHARSET; METADATA; VERSIONS; VENDOR; COPY_FILE; COPY_DATA;
   CHECK_FILE; CHECK_FILE_HANDLE; CHECK_FILE_NAME; SUPPORTED; SUPPORTED2;
   DEFAULT_FS_ATTRIBS; SYMLINK_ORDER; LINK_ORDER].

(** [hasOwnProperty("_" + name)]: a registered name, or the initializer's
    own slot [_constructor]. *)
Definition isKnown (name : string) : bool :=
  existsb (String.eqb name) registered || String.eqb name "constructor".

(** [("," + values + ",").indexOf("," + value + ",") >= 0] *)
Definition contains (values : string) (value : string) : bool :=
  match String.index 0 ("," +:+ value +:+ ",") ("," +:+ values +:+ ",") with
  | Some _ => true
  | None => false
  end.

Definition write (writer : SftpPacketWriter) (name value : string)
  : result SftpPacketWriter :=
  writer ← writeString name writer;
  writeString value writer.

Record vendor_id : Type := mkVendor {
  vendorName : string;
  productName : string;
  productVersion : string;
  productBuild : Z
}.

Record supported : Type := mkSupported {
  supportedAttributeMask : Z;
  supportedAttributeBits : Z;
  supportedOpenFlags : Z;
  supportedAccessMask : Z;
  maxReadSize : Z;
  supportedOpenBlockVector : option Z;
  supportedBlockVector : option Z;
  attribExtensionsNames : option (list string);
  extensionsNames : list string
}.

Record default_fs_attribs : Type := mkDefaultFsAttribs {
  casePreserved : bool;
  caseSensitive : bool;
  illegalCharacters : string;
  reservedNames : list string
}.

(** What [read] returns ([any] in the source). *)
Inductive ext_value : Type :=
| ExtString (s : string)
| ExtData (b : buffer)
| ExtVendor (v : vendor_id)
| ExtSupported (s : supported)
| ExtDefaultFsAttribs (d : default_fs_attribs).

(** [count] strings in a row:
    [while (--count >= 0) names.push(reader.readString())]. *)
Fixpoint read_strings (count : nat) (reader : SftpPacketReader)
  : result (list string * SftpPacketReader) :=
  match count with
  | O => Return ([], reader)
  | S count =>
    '(name, reader) ← readString reader;
    '(names, reader) ← read_strings count reader;
    Return (name :: names, reader)
  end.

(** [while (extensionCount !== 0 && reader.position < reader.length)].
    Every round consumes at least the four bytes of a length prefix, so
    the bytes that remain bound the number of rounds. *)
Fixpoint read_extension_names (fuel : nat) (extensionCount : Z)
    (reader : SftpPacketReader) : result (list string * SftpPacketReader) :=
  match fuel with
  | O => Return ([], reader)
  | S fuel =>
    if negb (extensionCount =? 0) && (r_position reader <? r_length reader)%nat
    then
      '(name, reader) ← readString reader;
      '(names, reader) ← read_extension_names fuel (extensionCount - 1) reader;
      Return (name :: names, reader)
    else Return ([], reader)
  end.

(** [read(reader, name)]; the second component is [reader] after the
    call. *)
Definition read (reader : SftpPacketReader) (name : string)
  : result (ext_value * SftpPacketReader) :=
  if String.eqb name VENDOR then
    '(inner, reader) ← readStructuredData reader;
    '(vendorName, inner) ← readString inner;
    '(productName, inner) ← readString inner;
    '(productVersion, inner) ← readString inner;
    '(productBuild, inner) ← readInt64 inner;
    Return (ExtVendor (mkVendor vendorName productName productVersion
                         productBuild), reader)
  else if String.eqb name NEWLINE3 then
    '(inner, reader) ← readStructuredData reader;
    '(s, inner) ← readString inner;
    Return (ExtString s, reader)
  else if String.eqb name SUPPORTED || String.eqb name SUPPORTED2 then
    '(inner, reader) ← readStructuredData reader;
    '(attributeMask, inner) ← readUint32 inner;
    '(attributeBits, inner) ← readUint32 inner;
    '(openFlags, inner) ← readUint32 inner;
    '(accessMask, inner) ← readUint32 inner;
    '(maxRead, inner) ← readUint32 inner;
    '(v2, extensionCount, inner) ←
      (if String.eqb name SUPPORTED2 then
         '(openBlockVector, inner) ← readUint16 inner;
         '(blockVector, inner) ← readUint16 inner;
         '(attribExtensionCount, inner) ← readUint32 inner;
         '(attribNames, inner) ←
           read_strings (Z.to_nat attribExtensionCount) inner;
         '(extensionCount, inner) ← readUint32 inner;
         Return (Some (openBlockVector, blockVector, attribNames),
                 extensionCount, inner)
       else Return (None, -1, inner));
    '(names, inner) ← read_extension_names (remaining inner) extensionCount inner;
    Return (ExtSupported
              (mkSupported attributeMask attributeBits openFlags accessMask
                 maxRead (fst ∘ fst <$> v2) (snd ∘ fst <$> v2) (snd <$> v2)
                 names), reader)
  else if String.eqb name DEFAULT_FS_ATTRIBS then
    '(inner, reader) ← readStructuredData reader;
    '(flags, inner) ← readUint32 inner;
    '(illegal, inner) ← readString inner;
    '(count, inner) ← readUint32 inner;
    '(names, inner) ← read_strings (Z.to_nat count) inner;
    Return (ExtDefaultFsAttribs
              (mkDefaultFsAttribs (negb (Js.land flags 1 =? 0))
                 (negb (Js.land flags 2 =? 0)) illegal names), reader)
  else if isKnown name then
    '(s, reader) ← readString reader; Return (ExtString s, reader)
  else
    '(b, reader) ← readData true reader; Return (ExtData b, reader).

(** String coercion of a looked-up extension value, as performed by
    [+] on strings. *)
Definition to_string (v : option ext_value) : string :=
  match v with
  | None => "undefined"
  | Some (ExtString s) => s
  | Some (ExtData b) => string_of_bytes b
  | Some _ => "[object Object]"
  end.

End SftpExtensions.


(** ** SftpStatus: the status reply

    The writer's [id] is set by the caller before [write]. *)

Module SftpStatus.
Import Packet.

Definition write (response : SftpPacketWriter) (code : Z) (message : string)
  : result SftpPacketWriter :=
  let response := set_type (TypeNum SftpPacketType.STATUS) response in
  let response := start response in
  response ← writeInt32 code response;
  response ← writeString message response;
  writeInt32 0 response.

Definition writeSuccess (response : SftpPacketWriter)
  : result SftpPacketWriter :=
  write response SftpStatusCode.OK "OK".

End SftpStatus.

(** ** SftpAttributes: the attribute block *)

Module SftpAttributeFlags.
Definition SIZE : Z := 0x00000001.
Definition UIDGID : Z := 0x00000002.
Definition PERMISSIONS : Z := 0x00000004.
Definition ACMODTIME : Z := 0x00000008.
Definition BASIC : Z := 0x0000000F.
Definition EXTENDED : Z := 0x80000000.
End SftpAttributeFlags.

(** Metadata values ([any] in the source).  [MetaJson] stands for any value
    that is not null, a boolean, a number or a string, identified by its
    JSON text. *)
Inductive meta_value : Type :=
| MetaNull
| MetaBool (b : bool)
| MetaNumber (n : Z)
| MetaString (s : string)
| MetaJson (text : string).

(** [IMetadata]: an object used as a map; keys in insertion order. *)
Definition IMetadata : Type := list (string * meta_value).

Fixpoint metadata_set (key : string) (value : meta_value) (metadata : IMetadata)
  : IMetadata :=
  match metadata with
  | [] => [(key, value)]
  | (k, v) :: rest =>
    if String.eqb k key then (k, value) :: rest
    else (k, v) :: metadata_set key value rest
  end.

Module Metadata.
Import Packet.

(** The body of the [for (var key in metadata)] loop of [writeMetadata],
    writing into the local packet [data]. *)
Fixpoint write_entries (metadata : IMetadata) (data : SftpPacketWriter)
  : result SftpPacketWriter :=
  match metadata with
  | [] => Return data
  | (key, value) :: rest =>
    data ← writeString key data;
    data ←
      match value with
      | MetaString s =>
        if String.eqb s "null" then writeByte 0 data
        else data ← writeByte 3 data; writeString s data
      | MetaBool b =>
        data ← writeByte 1 data; writeByte (if b then 1 else 0) data
      | MetaNumber n =>
        data ← writeByte 2 data; writeInt64 n data
      | MetaNull =>
        (* JSON.stringify(null) *)
        data ← writeByte 4 data; writeString "null" data
      | MetaJson text =>
        data ← writeByte 4 data; writeString text data
      end;
    write_entries rest data
  end.

(** [writeMetadata(writer, metadata)]: the entries go to a packet of its
    own, [data], which is dropped when the function returns; [writer] is
    never written to. *)
Definition writeMetadata (writer : SftpPacketWriter) (metadata : IMetadata)
  : result SftpPacketWriter :=
  _ ← write_entries metadata (new_writer 0x4000);
  Return writer.

(** The [while (data.position < data.length)] loop of [readMetadata].
    [None] is [undefined], the value of the function when the loop runs
    off the end of [data]; every round consumes at least four bytes. *)
Fixpoint read_entries (fuel : nat) (data : SftpPacketReader)
    (metadata : IMetadata) : result (option IMetadata) :=
  match fuel with
  | O => Return None
  | S fuel =>
    if (r_position data <? r_length data)%nat then
      '(key, data) ← readString data;
      if (String.length key =? 0)%nat then Return (Some metadata)
      else
        '(type, data) ← readByte data;
        match type with
        | 0 =>
          data ← skipString data;
          read_entries fuel data (metadata_set key MetaNull metadata)
        | 1 =>
          '(b, data) ← readByte data;
          read_entries fuel data
            (metadata_set key (MetaBool (negb (b =? 0))) metadata)
        | 2 =>
          '(n, data) ← readInt64 data;
          read_entries fuel data (metadata_set key (MetaNumber n) metadata)
        | 3 =>
          '(s, data) ← readString data;
          read_entries fuel data (metadata_set key (MetaString s) metadata)
        | 4 =>
          '(text, data) ← readData false data;
          (* JSON.parse(value) *)
          read_entries fuel data
            (metadata_set key (MetaJson (string_of_bytes text)) metadata)
        | _ =>
          data ← skipString data;
          read_entries fuel data metadata
        end
    else Return None
  end.

Definition readMetadata (reader : SftpPacketReader)
  : result (option IMetadata * SftpPacketReader) :=
  '(data, reader) ← readStructuredData reader;
  metadata ← read_entries (remaining data) data [];
  Return (metadata, reader).

End Metadata.

(** [IStats] of [fs-api.ts], as the attribute block uses it. *)
Record IStats : Type := mkStats {
  st_size : option Z;
  st_uid : option Z;
  st_gid : option Z;
  st_mode : option Z;
  st_atime : option Z;     (* a Date: milliseconds since the epoch *)
  st_mtime : option Z;
  st_nlink : option Z;
  st_metadata : option IMetadata
}.

Module SftpAttributes.
Import Packet SftpAttributeFlags.

Record SftpAttributes : Type := mkAttrs {
  flags : Z;
  size : option Z;
  uid : option Z;
  gid : option Z;
  mode : option Z;
  atime : option Z;      (* a Date: milliseconds since the epoch *)
  mtime : option Z;
  nlink : option Z;
  metadata : option IMetadata
}.

(** [new SftpAttributes()] *)
Definition empty : SftpAttributes :=
  mkAttrs 0 None None None None None None None None.

(** The [for (var i = 0; i < count; i++)] loop over the extended pairs. *)
Fixpoint read_extended (count : nat) (reader : SftpPacketReader)
    (metadata : option IMetadata)
  : result (option IMetadata * SftpPacketReader) :=
  match count with
  | O => Return (metadata, reader)
  | S count =>
    '(name, reader) ← readString reader;
    if String.eqb name SftpExtensions.METADATA then
      '(metadata, reader) ← Metadata.readMetadata reader;
      read_extended count reader metadata
    else
      reader ← skipString reader;
      read_extended count reader metadata
  end.

(** [new SftpAttributes(reader)] *)
Definition read (reader : SftpPacketReader)
  : result (SftpAttributes * SftpPacketReader) :=
  '(flags, reader) ← readUint32 reader;
  '(size, reader) ←
    (if Js.truthy (Js.land flags SIZE) then
       '(v, reader) ← readInt64 reader; Return (Some v, reader)
     else Return (None, reader));
  '(uid, gid, reader) ←
    (if Js.truthy (Js.land flags UIDGID) then
       '(u, reader) ← readInt32 reader;
       '(g, reader) ← readInt32 reader;
       Return (Some u, Some g, reader)
     else Return (None, None, reader));
  '(mode, reader) ←
    (if Js.truthy (Js.land flags PERMISSIONS) then
       '(v, reader) ← readUint32 reader; Return (Some v, reader)
     else Return (None, reader));
  '(atime, mtime, reader) ←
    (if Js.truthy (Js.land flags ACMODTIME) then
       '(a, reader) ← readUint32 reader;
       '(m, reader) ← readUint32 reader;
       Return (Some (1000 * a), Some (1000 * m), reader)
     else Return (None, None, reader));
  if Js.truthy (Js.land flags EXTENDED) then
    let this_flags := Js.land flags (Js.lnot EXTENDED) in
    '(count, reader) ← readInt32 reader;
    '(metadata, reader) ← read_extended (Z.to_nat count) reader None;
    Return (mkAttrs this_flags size uid gid mode atime mtime None metadata,
            reader)
  else
    Return (mkAttrs flags size uid gid mode atime mtime None None, reader).

(** A number field that was never assigned is written as 0. *)
Definition number (v : option Z) : Z := default 0 v.

(** [date.getTime() / 1000], truncated by the integer write; a missing
    date throws. *)
Definition seconds (date : option Z) : result Z :=
  match date with
  | Some ms => Return (Z.quot ms 1000)
  | None => Throw "Cannot read property 'getTime' of undefined"
  end.

Definition write (this : SftpAttributes) (response : SftpPacketWriter)
  : result SftpPacketWriter :=
  let flags := flags this in
  response ← writeInt32 flags response;
  response ←
    (if Js.truthy (Js.land flags SIZE) then
       writeInt64 (number (size this)) response
     else Return response);
  response ←
    (if Js.truthy (Js.land flags UIDGID) then
       response ← writeInt32 (number (uid this)) response;
       writeInt32 (number (gid this)) response
     else Return response);
  response ←
    (if Js.truthy (Js.land flags PERMISSIONS) then
       writeInt32 (number (mode this)) response
     else Return response);
  response ←
    (if Js.truthy (Js.land flags ACMODTIME) then
       a ← seconds (atime this);
       response ← writeInt32 a response;
       m ← seconds (mtime this);
       writeInt32 m response
     else Return response);
  if Js.truthy (Js.land flags EXTENDED) then
    match metadata this with
    | Some metadata =>
      response ← writeInt32 1 response;
      response ← writeString SftpExtensions.METADATA response;
      Metadata.writeMetadata response metadata
    | None => writeInt32 0 response
    end
  else Return response.

(** [from(stats)], on a freshly constructed record. *)
Definition from (stats : option IStats) : SftpAttributes :=
  match stats with
  | None => empty
  | Some stats =>
    let flags := 0 in
    let '(flags, size) :=
      match st_size stats with
      | Some v => (Js.lor flags SIZE, Some (Js.lor v 0))
      | None => (flags, None)
      end in
    let '(flags, uid, gid) :=
      if bool_decide (is_Some (st_uid stats) ∨ is_Some (st_gid stats)) then
        (Js.lor flags UIDGID, Some (Js.lor (number (st_uid stats)) 0),
         Some (Js.lor (number (st_gid stats)) 0))
      else (flags, None, None) in
    let '(flags, mode) :=
      match st_mode stats with
      | Some v => (Js.lor flags PERMISSIONS, Some (Js.lor v 0))
      | None => (flags, None)
      end in
    let '(flags, atime, mtime) :=
      if bool_decide (is_Some (st_atime stats) ∨ is_Some (st_mtime stats)) then
        (Js.lor flags ACMODTIME, st_atime stats, st_mtime stats)
      else (flags, None, None) in
    mkAttrs flags size uid gid mode atime mtime (st_nlink stats)
      (st_metadata stats)
  end.

(** The record without its [flags], as [parseAttribs] surfaces it. *)
Definition to_stats (this : SftpAttributes) : IStats :=
  mkStats (size this) (uid this) (gid this) (mode this) (atime this)
    (mtime this) (nlink this) (metadata this).

(** [decode(encode(x))]: [x] written to a fresh packet of the given
    capacity, and the bytes read back. *)
Definition encode (capacity : Z) (x : SftpAttributes) : result buffer :=
  w ← write x (new_writer capacity); Return (w_bytes w).

Definition decode (b : buffer) : result SftpAttributes :=
  '(x, _) ← read (mkReader None None b 0); Return x.

End SftpAttributes.

(** ** SftpClientCore: request multiplexer and protocol engine *)

Module Client.
Import Packet.

(** A caller's continuation and a channel are known by their identity. *)
Definition callback : Type := nat.
Definition channel : Type := nat.

(** [SftpHandle]: the server's token and the session that owns it.
    Sessions are told apart by their [_sessionId]. *)
Record SftpHandle : Type := mkHandle {
  _handle : buffer;
  _this : Z
}.

(** A [handle: any] argument: falsy, an object holding a [Buffer] under
    [_handle], or anything else. *)
Inductive js_handle : Type :=
| HandleMissing
| HandleToken (h : SftpHandle)
| HandleOther.

Record SftpCommandInfo : Type := mkInfo {
  command_name : string;
  path : option string;
  oldPath : option string;
  newPath : option string;
  targetPath : option string;
  linkPath : option string;
  handle : option js_handle;
  fromHandle : option js_handle;
  toHandle_ : option js_handle;
  rename_flags : option Z
}.

Definition info_of (name : string) : SftpCommandInfo :=
  mkInfo name None None None None None None None None None.
Definition info_path (name path : string) : SftpCommandInfo :=
  mkInfo name (Some path) None None None None None None None None.
Definition info_handle (name : string) (h : js_handle) : SftpCommandInfo :=
  mkInfo name None None None None None (Some h) None None None.

(** An [Error] built by [createError]. *)
Record SftpError : Type := mkError {
  message : string;
  errno : Z;
  code : string;
  nativeCode : Z;
  description : string;
  info : SftpCommandInfo
}.

Inductive js_error : Type :=
| SftpErr (e : SftpError)
| PlainErr (msg : string).     (* [new Error(msg)] *)

Record SftpItem : Type := mkItem {
  filename : string;
  longname : string;
  stats : SftpAttributes.SftpAttributes
}.

(** The values callbacks receive after the error. *)
Inductive js_value : Type :=
| VNull
| VFalse
| VNumber (n : Z)
| VString (s : string)
| VBuffer (b : buffer)
| VHandle (h : SftpHandle)
| VStats (s : IStats)
| VItems (l : list SftpItem).

(** One call [callback(err, args...)]. *)
Record invocation : Type := mkCall {
  target : callback;
  err : option js_error;
  args : list js_value
}.

(** The response parsers that [execute] parks, one constructor per
    function or closure passed as [responseParser]. *)
Inductive parser : Type :=
| ParseInit (host : channel) (info : SftpCommandInfo)
| ParseStatus
| ParseAttribs
| ParseHandle
| ParsePath
| ParseItems
| ParseHash
| ParseData (retries : Z) (h : buffer) (buf : option buffer)
    (offset length position : Z).

Record SftpRequest : Type := mkRequest {
  req_callback : callback;
  responseParser : parser;
  req_info : SftpCommandInfo
}.

(** The fields of [SftpClientCore] (logging left out).  [_requests] is a
    JavaScript array used as a table: the key of a numeric id is that
    number, the key of the [null] id of the handshake is [None]. *)
Record SftpClientCore : Type := mkCore {
  _sessionId : Z;
  _host : option channel;
  _id : option Z;
  _requests : gmap (option Z) SftpRequest;
  _ready : bool;
  _extensions : gmap string SftpExtensions.ext_value;
  _features : gmap string string;
  _maxReadBlockLength : Z;
  _maxWriteBlockLength : Z;
  _bytesReceived : Z;
  _bytesSent : Z
}.

(** [new SftpClientCore()], given the value of the session counter. *)
Definition new_core (sessionId : Z) : SftpClientCore :=
  mkCore sessionId None None ∅ false ∅ ∅ (256 * 1024) (32 * 1024) 0 0.

(** The object together with what it did to the outside: frames handed to
    [host.send], calls of [host.close], the [process.nextTick] queue and
    the callbacks invoked, each oldest first. *)
Record world : Type := mkWorld {
  core : SftpClientCore;
  sent : list (channel * buffer);
  closed : list (channel * option Z);
  ticks : list invocation;
  calls : list invocation
}.

Definition new_world (sessionId : Z) : world :=
  mkWorld (new_core sessionId) [] [] [] [].

Definition with_core (f : SftpClientCore -> SftpClientCore) (w : world) : world :=
  mkWorld (f (core w)) (sent w) (closed w) (ticks w) (calls w).

Definition set_host (v : option channel) (c : SftpClientCore) :=
  mkCore (_sessionId c) v (_id c) (_requests c) (_ready c) (_extensions c)
    (_features c) (_maxReadBlockLength c) (_maxWriteBlockLength c)
    (_bytesReceived c) (_bytesSent c).
Definition set_next_id (v : option Z) (c : SftpClientCore) :=
  mkCore (_sessionId c) (_host c) v (_requests c) (_ready c) (_extensions c)
    (_features c) (_maxReadBlockLength c) (_maxWriteBlockLength c)
    (_bytesReceived c) (_bytesSent c).
Definition set_requests (v : gmap (option Z) SftpRequest) (c : SftpClientCore) :=
  mkCore (_sessionId c) (_host c) (_id c) v (_ready c) (_extensions c)
    (_features c) (_maxReadBlockLength c) (_maxWriteBlockLength c)
    (_bytesReceived c) (_bytesSent c).
Definition set_ready (v : bool) (c : SftpClientCore) :=
  mkCore (_sessionId c) (_host c) (_id c) (_requests c) v (_extensions c)
    (_features c) (_maxReadBlockLength c) (_maxWriteBlockLength c)
    (_bytesReceived c) (_bytesSent c).
Definition set_extensions (v : gmap string SftpExtensions.ext_value)
    (c : SftpClientCore) :=
  mkCore (_sessionId c) (_host c) (_id c) (_requests c) (_ready c) v
    (_features c) (_maxReadBlockLength c) (_maxWriteBlockLength c)
    (_bytesReceived c) (_bytesSent c).
Definition set_features (v : gmap string string) (c : SftpClientCore) :=
  mkCore (_sessionId c) (_host c) (_id c) (_requests c) (_ready c)
    (_extensions c) v (_maxReadBlockLength c) (_maxWriteBlockLength c)
    (_bytesReceived c) (_bytesSent c).
Definition set_bytesReceived (v : Z) (c : SftpClientCore) :=
  mkCore (_sessionId c) (_host c) (_id c) (_requests c) (_ready c)
    (_extensions c) (_features c) (_maxReadBlockLength c)
    (_maxWriteBlockLength c) v (_bytesSent c).
Definition set_bytesSent (v : Z) (c : SftpClientCore) :=
  mkCore (_sessionId c) (_host c) (_id c) (_requests c) (_ready c)
    (_extensions c) (_features c) (_maxReadBlockLength c)
    (_maxWriteBlockLength c) (_bytesReceived c) v.

(** *** The monad of methods: state passing, with exceptions *)

Inductive outcome (A : Type) : Type :=
| Done (a : A) (w : world)
| Raise (msg : string) (w : world).
Arguments Done {A} a w.
Arguments Raise {A} msg w.

Definition M (A : Type) : Type := world -> outcome A.

#[global] Instance M_ret : MRet M := fun A a w => Done a w.
#[global] Instance M_bind : MBind M := fun A B k m w =>
  match m w with
  | Done a w => k a w
  | Raise msg w => Raise msg w
  end.

Definition throw {A} (msg : string) : M A := fun w => Raise msg w.
Definition this : M SftpClientCore := fun w => Done (core w) w.
Definition update (f : SftpClientCore -> SftpClientCore) : M unit :=
  fun w => Done tt (with_core f w).
Definition lift {A} (r : result A) : M A := fun w =>
  match r with
  | Return a => Done a w
  | Throw msg => Raise msg w
  end.

(** [host.send(packet)], [host.close(code)], [process.nextTick(...)] and a
    direct call of a callback. *)
Definition send (host : channel) (packet : buffer) : M unit := fun w =>
  Done tt (mkWorld (core w) (sent w ++ [(host, packet)]) (closed w) (ticks w)
             (calls w)).
Definition close_host (host : channel) (code : option Z) : M unit := fun w =>
  Done tt (mkWorld (core w) (sent w) (closed w ++ [(host, code)]) (ticks w)
             (calls w)).
Definition nextTick (c : invocation) : M unit := fun w =>
  Done tt (mkWorld (core w) (sent w) (closed w) (ticks w ++ [c]) (calls w)).
Definition invoke (c : invocation) : M unit := fun w =>
  Done tt (mkWorld (core w) (sent w) (closed w) (ticks w) (calls w ++ [c])).

(** The event loop running the deferred calls. *)
Definition run_ticks : M unit := fun w =>
  Done tt (mkWorld (core w) (sent w) (closed w) [] (calls w ++ ticks w)).

(** *** Helpers of the class *)

Definition hex_digit (d : Z) : string :=
  substring (Z.to_nat d) 1 "0123456789abcdef".

(** [b.toString(16)] for a byte. *)
Definition toString16 (b : Z) : string :=
  if b <? 16 then hex_digit b else hex_digit (b / 16) +:+ hex_digit (b mod 16).

(** [SftpHandle.toString] *)
Definition SftpHandle_toString (h : SftpHandle) : string :=
  fold_left
    (fun value b => (if b <? 16 then value +:+ "0" else value) +:+ toString16 b)
    (_handle h) "0x".

Definition createError (nativeCode : Z) (message : string)
    (info : SftpCommandInfo) : SftpError :=
  let '(code, errno) :=
    if nativeCode =? SftpStatusCode.EOF then ("EOF", 1)
    else if nativeCode =? SftpStatusCode.NO_SUCH_FILE then ("ENOENT", 34)
    else if nativeCode =? SftpStatusCode.PERMISSION_DENIED then ("EACCES", 3)
    else if (nativeCode =? SftpStatusCode.OK)
            || (nativeCode =? SftpStatusCode.FAILURE)
            || (nativeCode =? SftpStatusCode.BAD_MESSAGE) then ("EFAILURE", -2)
    else if nativeCode =? SftpStatusCode.NO_CONNECTION then ("ENOTCONN", 31)
    else if nativeCode =? SftpStatusCode.CONNECTION_LOST then ("ESHUTDOWN", 46)
    else if nativeCode =? SftpStatusCode.OP_UNSUPPORTED then ("ENOSYS", 35)
    else if nativeCode =? SftpStatusCode.BAD_MESSAGE then ("ESHUTDOWN", 46)
    else ("UNKNOWN", -1) in
  (* var arg = info.path || info.handle *)
  let arg :=
    match path info with
    | Some (String c p) => "'" +:+ String c p +:+ "'"
    | _ =>
      match handle info with
      | Some (HandleToken h) => SftpHandle_toString h
      | Some HandleOther => "[object Object]"
      | _ => ""
      end
    end in
  mkError (code +:+ ", " +:+ command_name info +:+ " " +:+ arg) errno code
    nativeCode message info.

(** [error['code'] = c; error['errno'] = n] *)
Definition with_code (c : string) (n : Z) (e : SftpError) : SftpError :=
  mkError (message e) n c (nativeCode e) (description e) (info e).

Definition fail_with (cb : callback) (e : SftpError) : invocation :=
  mkCall cb (Some (SftpErr e)) [].

(** [Buffer.slice(start, end)] and [source.copy(target, at, 0, n)] for
    non-negative arguments. *)
Definition slice (b : buffer) (from to : Z) : buffer :=
  take (Z.to_nat (to - from)) (drop (Z.to_nat from) b).

Definition copy_into (source target : buffer) (at_ n : Z) : buffer :=
  let chunk := take (Z.to_nat n) source in
  take (Z.to_nat at_) target ++ chunk
    ++ drop (Z.to_nat at_ + List.length chunk) target.

(** [s.indexOf(t)] *)
Definition indexOf (s t : string) : Z :=
  match String.index 0 t s with
  | Some i => Z.of_nat i
  | None => -1
  end.

(** The rewriting of a leading [~] in [checkPath]: [~/x] becomes [./x]
    and [~] alone becomes [.]. *)
Definition tilde (path : string) : string :=
  match path with
  | String "~" rest =>
    match rest with
    | String "/" _ => "." +:+ rest
    | EmptyString => "."
    | _ => path
    end
  | _ => path
  end.

(** *** Methods *)

Section Methods.

(** [RenameFlags.OVERWRITE] of [fs-api.ts] and [Path.check] of
    [fs-misc.ts]: not part of the sources at hand, and taken as
    parameters. *)
Context (OVERWRITE : Z) (Path_check : string -> string -> result string).

(** [type == SftpPacketType.INIT] holds of the number 1 only: the names that
    reach [getRequest] are extension names. *)
Definition getRequest (type : packet_type) : M SftpPacketWriter :=
  c ← this;
  let request := new_writer (_maxWriteBlockLength c + 1024) in
  let request := set_type type request in
  let request := set_id (_id c) request in
  _ ← (if match type with
          | TypeNum n => n =? SftpPacketType.INIT
          | TypeName _ => false
          end
       then
         match _id c with
         | Some _ => throw "Already initialized"
         | None => update (set_next_id (Some 1))
         end
       else
         update (set_next_id
                   (Some (Js.land (default 0 (_id c) + 1) 0xFFFFFFFF))));
  mret (start request).

Definition writeStats (packet : SftpPacketWriter) (attrs : option IStats)
  : M SftpPacketWriter :=
  let pattrs := SftpAttributes.from attrs in
  lift (SftpAttributes.write pattrs packet).

Definition execute (request : SftpPacketWriter) (cb : callback)
    (responseParser : parser) (info : SftpCommandInfo) : M unit :=
  c ← this;
  match _host c with
  | None =>
    nextTick (fail_with cb
                (createError SftpStatusCode.NO_CONNECTION "Not connected" info))
  | Some host =>
    match _requests c !! w_id request with
    | Some _ => throw "Duplicate request"
    | None =>
      let packet := finish request in
      _ ← send host packet;
      _ ← update (fun c =>
             set_bytesSent (_bytesSent c + Z.of_nat (List.length packet)) c);
      update (fun c =>
        set_requests
          (<[w_id request := mkRequest cb responseParser info]> (_requests c))
          c)
    end
  end.

Definition checkCallback (cb : option callback) : M callback :=
  match cb with
  | Some cb => mret cb
  | None => throw "Callback must be a function"
  end.

Definition toHandle (handle : js_handle) : M buffer :=
  c ← this;
  match handle with
  | HandleMissing => throw "Missing handle"
  | HandleToken h =>
    if _this h =? _sessionId c then mret (_handle h)
    else throw "Invalid handle"
  | HandleOther => throw "Invalid handle"
  end.

Definition checkBuffer (buf : option buffer) (offset length : Z) : M unit :=
  match buf with
  | None => throw "Invalid buffer"
  | Some b =>
    if offset <? 0 then throw "Invalid offset"
    else if length <? 0 then throw "Invalid length"
    else if offset + length >? Z.of_nat (List.length b) then
      throw "Offset or length is out of bands"
    else mret tt
  end.

Definition checkPath (path name : string) : M string :=
  path ← lift (Path_check path name);
  mret (tilde path).

(** The literal [0x7FFFFFFFFFFFFFFF] of [checkPosition] is not a double:
    JavaScript reads it as the nearest one, 2^63. *)
Definition MAX_POSITION : Z := 0x8000000000000000.

Definition checkPosition (position : Z) : M unit :=
  if (position <? 0) || (position >? MAX_POSITION) then
    throw "Invalid position"
  else mret tt.

(** The [command] argument: a packet type, the name of a feature, or
    [undefined]. *)
Inductive command_arg : Type :=
| CmdType (n : Z)
| CmdFeature (name : string)
| CmdUndefined.

Fixpoint write_strings (args : list string) (request : SftpPacketWriter)
  : result SftpPacketWriter :=
  match args with
  | [] => Return request
  | arg :: args => request ← writeString arg request; write_strings args request
  end.

Definition command (cmd : command_arg) (args : list string) (cb : callback)
    (responseParser : parser) (info : SftpCommandInfo) : M unit :=
  c ← this;
  (* if (typeof command !== "number") command = this._features[command] *)
  let cmd : option packet_type :=
    match cmd with
    | CmdType n => if n =? 0 then None else Some (TypeNum n)
    | CmdFeature name =>
      t ← _features c !! name;
      if String.eqb t "" then None else Some (TypeName t)
    | CmdUndefined =>
      t ← _features c !! "undefined";
      if String.eqb t "" then None else Some (TypeName t)
    end in
  match cmd with
  | None =>
    nextTick (fail_with cb
                (createError SftpStatusCode.OP_UNSUPPORTED
                   "Operation not supported" info))
  | Some type =>
    request ← getRequest type;
    request ← lift (write_strings args request);
    execute request cb responseParser info
  end.

(** **** Response parsers

    The response handed to a parser is the reader together with the [info]
    that [_process] attaches to it. *)

Definition has_type (response : SftpPacketReader) (t : Z) : bool :=
  match r_type response with
  | Some x => x =? t
  | None => false
  end.

Definition readStatus (response : SftpPacketReader) (info : SftpCommandInfo)
  : result (option SftpError * SftpPacketReader) :=
  '(nativeCode, response) ← readInt32 response;
  '(message, response) ← readString response;
  if nativeCode =? SftpStatusCode.OK then Return (None, response)
  else Return (Some (createError nativeCode message info), response).

Definition readItem (response : SftpPacketReader)
  : result (SftpItem * SftpPacketReader) :=
  '(filename, response) ← readString response;
  '(longname, response) ← readString response;
  '(stats, response) ← SftpAttributes.read response;
  Return (mkItem filename longname stats, response).

Fixpoint readItems (count : nat) (response : SftpPacketReader)
  : result (list SftpItem * SftpPacketReader) :=
  match count with
  | O => Return ([], response)
  | S count =>
    '(item, response) ← readItem response;
    '(items, response) ← readItems count response;
    Return (item :: items, response)
  end.

Definition checkResponse (response : SftpPacketReader) (info : SftpCommandInfo)
    (expectedType : Z) (cb : callback) : M (bool * SftpPacketReader) :=
  '(failed, response) ←
    (if has_type response SftpPacketType.STATUS then
       '(error, response) ← lift (readStatus response info);
       match error with
       | Some e => _ ← invoke (fail_with cb e); mret (true, response)
       | None => mret (false, response)
       end
     else mret (false, response));
  if failed : bool then mret (false, response)
  else if negb (has_type response expectedType) then
    throw "Unexpected packet received"
  else mret (true, response).

Definition parseStatus (response : SftpPacketReader) (info : SftpCommandInfo)
    (cb : callback) : M unit :=
  '(ok, response) ← checkResponse response info SftpPacketType.STATUS cb;
  if ok : bool then invoke (mkCall cb None []) else mret tt.

Definition parseAttribs (response : SftpPacketReader) (info : SftpCommandInfo)
    (cb : callback) : M unit :=
  '(ok, response) ← checkResponse response info SftpPacketType.ATTRS cb;
  if ok : bool then
    '(attrs, response) ← lift (SftpAttributes.read response);
    (* delete attrs.flags *)
    invoke (mkCall cb None [VStats (SftpAttributes.to_stats attrs)])
  else mret tt.

Definition parseHandle (response : SftpPacketReader) (info : SftpCommandInfo)
    (cb : callback) : M unit :=
  '(ok, response) ← checkResponse response info SftpPacketType.HANDLE cb;
  if ok : bool then
    '(handle, response) ← lift (readData true response);
    c ← this;
    invoke (mkCall cb None [VHandle (mkHandle handle (_sessionId c))])
  else mret tt.

Definition parsePath (response : SftpPacketReader) (info : SftpCommandInfo)
    (cb : callback) : M unit :=
  '(ok, response) ← checkResponse response info SftpPacketType.NAME cb;
  if ok : bool then
    '(count, response) ← lift (readInt32 response);
    if negb (count =? 1) then throw "Invalid response"
    else
      '(path, response) ← lift (readString response);
      invoke (mkCall cb None [VString path])
  else mret tt.

Definition parseData (response : SftpPacketReader) (info : SftpCommandInfo)
    (cb : callback) (retries : Z) (h : buffer) (buf : option buffer)
    (offset length position : Z) : M unit :=
  '(finished, response) ←
    (if has_type response SftpPacketType.STATUS then
       '(error, response) ← lift (readStatus response info);
       match error with
       | Some e =>
         _ ← (if nativeCode e =? SftpStatusCode.EOF then
                let buf :=
                  match buf with
                  | Some b => slice b offset 0
                  | None => []
                  end in
                invoke (mkCall cb None [VBuffer buf; VNumber 0])
              else invoke (mkCall cb (Some (SftpErr e)) [VNull; VNumber 0]));
         mret (true, response)
       | None => mret (false, response)
       end
     else mret (false, response));
  if finished : bool then mret tt
  else
    '(data, response) ← lift (readData false response);
    if Z.of_nat (List.length data) >? length then throw "Received too much data"
    else
      let length := Z.of_nat (List.length data) in
      if length =? 0 then
        (* workaround for broken servers such as Globalscape 7.1.x that
           occasionally send empty data *)
        if retries >? 4 then
          let error :=
            createError SftpStatusCode.FAILURE "Unable to read data" info in
          let error := with_code "EIO" 55 error in
          invoke (mkCall cb (Some (SftpErr error)) [VNull; VNumber 0])
        else
          request ← getRequest (TypeNum SftpPacketType.READ);
          request ← lift (writeData h request);
          request ← lift (writeInt64 position request);
          request ← lift (writeInt32 length request);
          execute request cb
            (ParseData (retries + 1) h buf offset length position) info
      else
        let buf :=
          match buf with
          | None => data
          | Some b => copy_into data b offset length
          end in
        invoke (mkCall cb None [VBuffer buf; VNumber length]).

Definition parseItems (response : SftpPacketReader) (info : SftpCommandInfo)
    (cb : callback) : M unit :=
  '(finished, response) ←
    (if has_type response SftpPacketType.STATUS then
       '(error, response) ← lift (readStatus response info);
       match error with
       | Some e =>
         _ ← (if nativeCode e =? SftpStatusCode.EOF then
                invoke (mkCall cb None [VFalse])
              else invoke (mkCall cb (Some (SftpErr e)) [VNull]));
         mret (true, response)
       | None => mret (false, response)
       end
     else mret (false, response));
  if finished : bool then mret tt
  else if negb (has_type response SftpPacketType.NAME) then
    throw "Unexpected packet received"
  else
    '(count, response) ← lift (readInt32 response);
    '(items, response) ← lift (readItems (Z.to_nat count) response);
    invoke (mkCall cb None [VItems items]).

Definition parseHash (response : SftpPacketReader) (info : SftpCommandInfo)
    (cb : callback) : M unit :=
  '(ok, response) ← checkResponse response info SftpPacketType.EXTENDED_REPLY cb;
  if ok : bool then
    '(alg, response) ← lift (readString response);
    '(hashes, response) ← lift (readData false response);
    invoke (mkCall cb None [VBuffer hashes; VString alg])
  else mret tt.

(** The [while ((response.length - response.position) >= 4)] loop of the
    handshake.  [val] is the comma-joined value the loop computes for an
    [@openssh.com] name; the table receives [value].  Every round consumes at
    least four bytes, which bounds the number of rounds. *)
Fixpoint read_extensions (fuel : nat) (response : SftpPacketReader)
  : M SftpPacketReader :=
  match fuel with
  | O => mret response
  | S fuel =>
    if (4 <=? remaining response)%nat then
      '(extensionName, response) ← lift (readString response);
      '(value, response) ← lift (SftpExtensions.read response extensionName);
      c ← this;
      let val : option SftpExtensions.ext_value :=
        if indexOf extensionName "@openssh.com"
           =? Z.of_nat (String.length extensionName) - 12 then
          (* OpenSSH extensions may occur multiple times *)
          match _extensions c !! extensionName with
          | None => Some value
          | Some old =>
            Some (SftpExtensions.ExtString
                    (SftpExtensions.to_string (Some old) +:+ ","
                       +:+ SftpExtensions.to_string (Some value)))
          end
        else None in
      _ ← update (fun c =>
             set_extensions (<[extensionName := value]> (_extensions c)) c);
      read_extensions fuel response
    else mret response
  end.

(** The closure that [_init] parks for the VERSION packet. *)
Definition parseInit (host : channel) (info : SftpCommandInfo)
    (response : SftpPacketReader) (cb : callback) : M unit :=
  if negb (has_type response SftpPacketType.VERSION) then
    _ ← close_host host (Some 3002);
    invoke (mkCall cb (Some (PlainErr "Protocol violation")) [])
  else
    '(version, response) ← lift (readInt32 response);
    if negb (version =? 3) then
      _ ← close_host host (Some 3002);
      invoke (fail_with cb
                (createError SftpStatusCode.BAD_MESSAGE
                   "Unexpected protocol version" info))
    else
      response ← read_extensions (remaining response) response;
      c ← this;
      _ ← (if SftpExtensions.contains
                (SftpExtensions.to_string
                   (_extensions c !! SftpExtensions.HARDLINK)) "1"
           then update (fun c =>
                  set_features (<["LINK" := SftpExtensions.HARDLINK]> (_features c)) c)
           else mret tt);
      _ ← (if SftpExtensions.contains
                (SftpExtensions.to_string
                   (_extensions c !! SftpExtensions.POSIX_RENAME)) "1"
           then update (fun c =>
                  set_features
                    (<["POSIX_RENAME" := SftpExtensions.POSIX_RENAME]> (_features c)) c)
           else mret tt);
      _ ← update (fun c =>
             set_features
               (<["CHECK_FILE_HANDLE" := SftpExtensions.CHECK_FILE_HANDLE]>
                  (_features c)) c);
      _ ← update (fun c =>
             set_features (<["COPY_DATA" := SftpExtensions.COPY_DATA]> (_features c)) c);
      _ ← update (set_ready true);
      invoke (mkCall cb None []).

Definition run_parser (p : parser) (response : SftpPacketReader)
    (info : SftpCommandInfo) (cb : callback) : M unit :=
  match p with
  | ParseInit host init_info => parseInit host init_info response cb
  | ParseStatus => parseStatus response info cb
  | ParseAttribs => parseAttribs response info cb
  | ParseHandle => parseHandle response info cb
  | ParsePath => parsePath response info cb
  | ParseItems => parseItems response info cb
  | ParseHash => parseHash response info cb
  | ParseData retries h buf offset length position =>
    parseData response info cb retries h buf offset length position
  end.

(** **** Session life cycle *)

Definition _init (host : channel) (cb : callback) : M unit :=
  c ← this;
  match _host c with
  | Some _ => throw "Already bound"
  | None =>
    _ ← update (set_host (Some host));
    _ ← update (set_extensions ∅);
    request ← getRequest (TypeNum SftpPacketType.INIT);
    request ← lift (writeInt32 3 request);   (* SFTPv3 *)
    let info := info_of "init" in
    execute request cb (ParseInit host info) info
  end.

Definition _process (packet : buffer) : M unit :=
  _ ← update (fun c =>
         set_bytesReceived (_bytesReceived c + Z.of_nat (List.length packet)) c);
  response ← lift (new_reader packet);
  c ← this;
  match _requests c !! r_id response with
  | None => throw "Unknown response ID"
  | Some request =>
    _ ← update (fun c => set_requests (delete (r_id response) (_requests c)) c);
    run_parser (responseParser request) response (req_info request)
      (req_callback request)
  end.

(** [Array.prototype.forEach] visits the elements stored under array
    indices, the integers from 0 to 2^32 - 2, in ascending order; a property
    under any other key ([null], a negative number) is not an element. *)
Definition array_index (key : option Z) : option Z :=
  k ← key; if (0 <=? k) && (k <? 2 ^ 32 - 1) then Some k else None.

Definition index_le (a b : Z * SftpRequest) : Prop := a.1 <= b.1.

#[global] Instance index_le_dec (a b : Z * SftpRequest) : Decision (index_le a b) :=
  Z_le_dec a.1 b.1.

Definition array_elements (requests : gmap (option Z) SftpRequest)
  : list SftpRequest :=
  (merge_sort index_le
     (omap (fun e : option Z * SftpRequest => k ← array_index e.1; Some (k, e.2))
        (map_to_list requests))).*2.

Fixpoint fail_each (code : Z) (message : string) (requests : list SftpRequest)
  : M unit :=
  match requests with
  | [] => mret tt
  | request :: requests =>
    let error := createError code message (req_info request) in
    _ ← invoke (fail_with (req_callback request) error);
    fail_each code message requests
  end.

Definition failRequests (code : Z) (message : string) : M unit :=
  c ← this;
  let requests := _requests c in
  _ ← update (set_requests ∅);
  fail_each code message (array_elements requests).

Definition end_ : M unit :=
  c ← this;
  _ ← match _host c with
      | Some host => _ ← update (set_host None); close_host host None
      | None => mret tt
      end;
  failRequests SftpStatusCode.CONNECTION_LOST "Connection closed".

(** **** Operations *)

Definition open (path : string) (flags : SftpFlags.flags_arg)
    (attrs : option IStats) (cb : option callback) : M unit :=
  cb ← checkCallback cb;
  path ← checkPath path "path";
  request ← getRequest (TypeNum SftpPacketType.OPEN);
  request ← lift (writeString path request);
  pflags ← lift (SftpFlags.toNumber flags);
  request ← lift (writeInt32 pflags request);
  request ← writeStats request attrs;
  execute request cb ParseHandle (info_path "open" path).

Definition close (handle : js_handle) (cb : option callback) : M unit :=
  cb ← checkCallback cb;
  h ← toHandle handle;
  request ← getRequest (TypeNum SftpPacketType.CLOSE);
  request ← lift (writeData h request);
  execute request cb ParseStatus (info_handle "close" handle).

Definition read (handle : js_handle) (buf : option buffer)
    (offset length position : Z) (cb : option callback) : M unit :=
  cb ← checkCallback cb;
  h ← toHandle handle;
  _ ← match buf with
      | Some _ => checkBuffer buf offset length
      | None => mret tt
      end;
  _ ← checkPosition position;
  c ← this;
  (* make sure the length is within reasonable limits *)
  let length :=
    if length >? _maxReadBlockLength c then _maxReadBlockLength c else length in
  request ← getRequest (TypeNum SftpPacketType.READ);
  request ← lift (writeData h request);
  request ← lift (writeInt64 position request);
  request ← lift (writeInt32 length request);
  execute request cb (ParseData 0 h buf offset length position)
    (info_handle "read" handle).

Definition write (handle : js_handle) (buf : option buffer)
    (offset length position : Z) (cb : option callback) : M unit :=
  cb ← checkCallback cb;
  h ← toHandle handle;
  _ ← checkBuffer buf offset length;
  _ ← checkPosition position;
  c ← this;
  if length >? _maxWriteBlockLength c then
    throw "Length exceeds maximum allowed data block length"
  else
    request ← getRequest (TypeNum SftpPacketType.WRITE);
    request ← lift (writeData h request);
    request ← lift (writeInt64 position request);
    request ← lift (writeDataSlice (default [] buf) offset (offset + length) request);
    execute request cb ParseStatus (info_handle "write" handle).

Definition lstat (path : string) (cb : option callback) : M unit :=
  cb ← checkCallback cb;
  path ← checkPath path "path";
  command (CmdType SftpPacketType.LSTAT) [path] cb ParseAttribs
    (info_path "lstat" path).

Definition fstat (handle : js_handle) (cb : option callback) : M unit :=
  cb ← checkCallback cb;
  h ← toHandle handle;
  request ← getRequest (TypeNum SftpPacketType.FSTAT);
  request ← lift (writeData h request);
  execute request cb ParseAttribs (info_handle "fstat" handle).

Definition setstat (path : string) (attrs : option IStats)
    (cb : option callback) : M unit :=
  cb ← checkCallback cb;
  path ← checkPath path "path";
  request ← getRequest (TypeNum SftpPacketType.SETSTAT);
  request ← lift (writeString path request);
  request ← writeStats request attrs;
  execute request cb ParseStatus (info_path "setstat" path).

Definition fsetstat (handle : js_handle) (attrs : option IStats)
    (cb : option callback) : M unit :=
  cb ← checkCallback cb;
  h ← toHandle handle;
  request ← getRequest (TypeNum SftpPacketType.FSETSTAT);
  request ← lift (writeData h request);
  request ← writeStats request attrs;
  execute request cb ParseStatus (info_handle "fsetstat" handle).

Definition opendir (path : string) (cb : option callback) : M unit :=
  cb ← checkCallback cb;
  path ← checkPath path "path";
  command (CmdType SftpPacketType.OPENDIR) [path] cb ParseHandle
    (info_path "opendir" path).

Definition readdir (handle : js_handle) (cb : option callback) : M unit :=
  cb ← checkCallback cb;
  h ← toHandle handle;
  request ← getRequest (TypeNum SftpPacketType.READDIR);
  request ← lift (writeData h request);
  execute request cb ParseItems (info_handle "readdir" handle).

Definition unlink (path : string) (cb : option callback) : M unit :=
  cb ← checkCallback cb;
  path ← checkPath path "path";
  command (CmdType SftpPacketType.REMOVE) [path] cb ParseStatus
    (info_path "unlink" path).

Definition mkdir (path : string) (attrs : option IStats)
    (cb : option callback) : M unit :=
  cb ← checkCallback cb;
  path ← checkPath path "path";
  request ← getRequest (TypeNum SftpPacketType.MKDIR);
  request ← lift (writeString path request);
  request ← writeStats request attrs;
  execute request cb ParseStatus (info_path "mkdir" path).

Definition rmdir (path : string) (cb : option callback) : M unit :=
  cb ← checkCallback cb;
  path ← checkPath path "path";
  command (CmdType SftpPacketType.RMDIR) [path] cb ParseStatus
    (info_path "rmdir" path).

Definition realpath (path : string) (cb : option callback) : M unit :=
  cb ← checkCallback cb;
  path ← checkPath path "path";
  command (CmdType SftpPacketType.REALPATH) [path] cb ParsePath
    (info_path "realpath" path).

Definition stat (path : string) (cb : option callback) : M unit :=
  cb ← checkCallback cb;
  path ← checkPath path "path";
  command (CmdType SftpPacketType.STAT) [path] cb ParseAttribs
    (info_path "stat" path).

Definition rename_info (oldPath newPath : string) (flags : Z) : SftpCommandInfo :=
  mkInfo "rename" None (Some oldPath) (Some newPath) None None None None None
    (Some flags).

Definition rename (oldPath newPath : string) (flags : Z)
    (cb : option callback) : M unit :=
  cb ← checkCallback cb;
  oldPath ← checkPath oldPath "oldPath";
  newPath ← checkPath newPath "newPath";
  let info := rename_info oldPath newPath flags in
  cmd ←
    (if flags =? OVERWRITE then mret (CmdFeature "POSIX_RENAME")
     else if flags =? 0 then mret (CmdType SftpPacketType.RENAME)
     else
       _ ← nextTick (fail_with cb
                       (createError SftpStatusCode.OP_UNSUPPORTED
                          "Unsupported rename flags" info));
       (* break: [command] stays undefined *)
       mret CmdUndefined);
  command cmd [oldPath; newPath] cb ParseStatus info.

Definition readlink (path : string) (cb : option callback) : M unit :=
  cb ← checkCallback cb;
  path ← checkPath path "path";
  command (CmdType SftpPacketType.READLINK) [path] cb ParsePath
    (info_path "readlink" path).

Definition symlink (targetPath linkPath : string) (cb : option callback)
  : M unit :=
  cb ← checkCallback cb;
  targetPath ← checkPath targetPath "targetPath";
  linkPath ← checkPath linkPath "linkPath";
  command (CmdType SftpPacketType.SYMLINK) [targetPath; linkPath] cb ParseStatus
    (mkInfo "symlink" None None None (Some targetPath) (Some linkPath) None None
       None None).

Definition link (oldPath newPath : string) (cb : option callback) : M unit :=
  cb ← checkCallback cb;
  oldPath ← checkPath oldPath "oldPath";
  newPath ← checkPath newPath "newPath";
  command (CmdFeature "LINK") [oldPath; newPath] cb ParseStatus
    (mkInfo "link" None (Some oldPath) (Some newPath) None None None None None
       None).

Definition fcopy (fromHandle : js_handle) (fromPosition length : Z)
    (toHandle_ : js_handle) (toPosition : Z) (cb : option callback) : M unit :=
  cb ← checkCallback cb;
  fh ← toHandle fromHandle;
  th ← toHandle toHandle_;
  _ ← checkPosition fromPosition;
  _ ← checkPosition toPosition;
  request ← getRequest (TypeName SftpExtensions.COPY_DATA);
  request ← lift (writeData fh request);
  request ← lift (writeInt64 fromPosition request);
  request ← lift (writeInt64 length request);
  request ← lift (writeData th request);
  request ← lift (writeInt64 toPosition request);
  execute request cb ParseStatus
    (mkInfo "fcopy" None None None None None None (Some fromHandle)
       (Some toHandle_) None).

Definition fhash (handle : js_handle) (alg : string)
    (position length blockSize : Z) (cb : option callback) : M unit :=
  cb ← checkCallback cb;
  h ← toHandle handle;
  _ ← checkPosition position;
  request ← getRequest (TypeName SftpExtensions.CHECK_FILE_HANDLE);
  request ← lift (writeData h request);
  request ← lift (writeString alg request);
  request ← lift (writeInt64 position request);
  request ← lift (writeInt64 length request);
  request ← lift (writeInt32 blockSize request);
  execute request cb ParseHash (info_handle "fhash" handle).

End Methods.

End Client.

(** * Vocabulary of the properties

    The predicates, sample values and scenarios that the statements below
    are written with. *)

(** ** Ranges of the wire types *)

Definition int32 (z : Z) : Prop := - 2 ^ 31 <= z < 2 ^ 31.
Definition uint32 (z : Z) : Prop := 0 <= z < 2 ^ 32.
Definition int64 (z : Z) : Prop := - 2 ^ 63 <= z < 2 ^ 63.

Module FlagsSpec.
Import SftpFlags.

(** A bitmask lands in the table: its normal form is a label of the
    [switch], and [fromNumber] returns a non-empty list for it. *)
Definition lands_in_table (flags : Z) : bool :=
  existsb (Z.eqb (normalize flags)) table_labels
  && match fromNumber flags with
     | Return (_ :: _) => true
     | _ => false
     end.

(** A bitmask survives the round trip through its first canonical string. *)
Definition roundtrip_ok (n : Z) : bool :=
  (normalize n =? n)
  && match fromNumber n with
     | Return (first :: _) =>
       match toNumber (FlagsStr first) with
       | Return m => m =? n
       | Throw _ => false
       end
     | _ => false
     end.

End FlagsSpec.

Module CodecSpec.
Import Packet.

(** A reader whose unread bytes are [rest]. *)
Definition unread (r : SftpPacketReader) (rest : buffer) : Prop :=
  drop (r_position r) (r_buffer r) = rest /\ (r_position r <= r_length r)%nat.

(** A writer with [b] written after what it holds. *)
Definition append (b : buffer) (w : SftpPacketWriter) : SftpPacketWriter :=
  mkWriter (w_type w) (w_id w) (w_capacity w) (w_reserved w) (w_bytes w ++ b).

(** A length-prefixed string on the wire, and a frame around a body. *)
Definition wire_string (s : string) : buffer :=
  be 4 (Z.of_nat (String.length s)) ++ bytes_of_string s.

Definition frame (body : buffer) : buffer :=
  be 4 (Z.of_nat (List.length body)) ++ body.

(** A DATA packet for request [id]. *)
Definition data_frame (id : Z) (data : buffer) : buffer :=
  frame ([SftpPacketType.DATA] ++ be 4 id
         ++ be 4 (Z.of_nat (List.length data)) ++ data).

(** A READ request: handle, 64-bit position, 32-bit length. *)
Definition read_frame (id : Z) (h : buffer) (position length : Z) : buffer :=
  frame ([SftpPacketType.READ] ++ be 4 id
         ++ be 4 (Z.of_nat (List.length h)) ++ h
         ++ be 8 position ++ be 4 length).

(** The request id a frame carries, if it has one. *)
Definition request_id (frame : buffer) : option Z :=
  match new_reader frame with
  | Return reader => r_id reader
  | Throw _ => None
  end.

End CodecSpec.

Module AttributesSpec.
Import SftpAttributeFlags SftpAttributes.

(** A date the wire can carry: whole seconds, in 32 bits. *)
Definition whole_seconds (ms : Z) : Prop :=
  exists s, 0 <= s < 2 ^ 32 /\ ms = 1000 * s.

(** A field is present exactly when its flag is set, and then in range. *)
Definition gated (fl bit : Z) (in_range : Z -> Prop) (v : option Z) : Prop :=
  match v with
  | Some z => Js.truthy (Js.land fl bit) = true /\ in_range z
  | None => Js.truthy (Js.land fl bit) = false
  end.

(** The records of the round trip: flags in 32 bits, every optional field
    gated by its flag and within the range of its wire type, and neither
    [nlink] (which has no wire form) nor a metadata payload. *)
Record representable (x : SftpAttributes) : Prop := mkRepresentable {
  rep_flags : uint32 (flags x);
  rep_size : gated (flags x) SIZE int64 (size x);
  rep_uid : gated (flags x) UIDGID int32 (uid x);
  rep_gid : gated (flags x) UIDGID int32 (gid x);
  rep_mode : gated (flags x) PERMISSIONS uint32 (mode x);
  rep_atime : gated (flags x) ACMODTIME whole_seconds (atime x);
  rep_mtime : gated (flags x) ACMODTIME whole_seconds (mtime x);
  rep_nlink : nlink x = None;
  rep_metadata : metadata x = None
}.

(** What a consumer observes of [flags] after decoding: the EXTENDED bit is
    cleared. *)
Definition observed_flags (fl : Z) : Z :=
  if Js.truthy (Js.land fl EXTENDED) then Js.land fl (Js.lnot EXTENDED) else fl.

Definition observed (x : SftpAttributes) : SftpAttributes :=
  mkAttrs (observed_flags (flags x)) (size x) (uid x) (gid x) (mode x)
    (atime x) (mtime x) (nlink x) (metadata x).

(** A record whose only content is the EXTENDED flag. *)
Definition extended_only : SftpAttributes :=
  mkAttrs EXTENDED None None None None None None None None.

(** A record with size, mode, times and the EXTENDED flag. *)
Definition sample : SftpAttributes :=
  mkAttrs 0x8000000D (Some 5) None None (Some 33188) (Some 1000) (Some 2000)
    None None.

End AttributesSpec.

Module SessionSpec.
Import Packet CodecSpec Client.

(** A token of session 1, and one of another session. *)
Definition token : SftpHandle := mkHandle [171] 1.
Definition foreign : SftpHandle := mkHandle [171] 2.

(** A stand-in for [Path.check] in concrete runs: it rejects the empty
    path. *)
Definition nonempty_path (path name : string) : result string :=
  if String.eqb path "" then Throw ("Empty " +:+ name) else Return path.

Definition is_init (type : packet_type) : bool :=
  match type with
  | TypeNum n => n =? SftpPacketType.INIT
  | TypeName _ => false
  end.

(** The ids of consecutive requests. *)
Fixpoint allocate (types : list packet_type) : M (list (option Z)) :=
  match types with
  | [] => mret []
  | type :: types =>
    request ← getRequest type;
    ids ← allocate types;
    mret (w_id request :: ids)
  end.

(** The world after [_init host cb] on a new session. *)
Definition handshake_sent (sid : Z) (host : channel) (cb : callback) : world :=
  mkWorld
    (mkCore sid (Some host) (Some 1)
       {[ None := mkRequest cb (ParseInit host (info_of "init")) (info_of "init") ]}
       false ∅ ∅ (256 * 1024) (32 * 1024) 0 9)
    [(host, [0; 0; 0; 5; 1; 0; 0; 0; 3])] [] [] [].

(** [_init], then [open("/a", "r", null, cb)]. *)
Definition init_then_open : M unit :=
  _ ← _init 0%nat 0%nat;
  open nonempty_path "/a" (SftpFlags.FlagsStr "r") None (Some 1%nat).

(** A VERSION packet, version 3, advertising [hardlink@openssh.com] twice,
    with the values "1" and "2". *)
Definition version_reply : buffer :=
  frame ([SftpPacketType.VERSION] ++ be 4 3
         ++ wire_string SftpExtensions.HARDLINK ++ wire_string "1"
         ++ wire_string SftpExtensions.HARDLINK ++ wire_string "2").

Definition handshake : M unit :=
  _ ← _init 0%nat 0%nat; _process version_reply.

(** The names under which the handshake registers features. *)
Definition feature_names : list string :=
  ["LINK"; "POSIX_RENAME"; "CHECK_FILE_HANDLE"; "COPY_DATA"].

Definition features_known (c : SftpClientCore) : Prop :=
  forall name, is_Some (_features c !! name) -> In name feature_names.

(** A computation keeps the feature names known, whether it returns or
    throws. *)
Definition keeps {A} (m : M A) : Prop :=
  forall w, features_known (core w) ->
    match m w with
    | Done _ w' | Raise _ w' => features_known (core w')
    end.

Section Reachable.

Context (OVERWRITE : Z) (Path_check : string -> string -> result string).

(** What the outside does with a session: the handshake, the delivery of a
    packet, the teardown, and the operations of [IFilesystem]. *)
Inductive method : M unit -> Prop :=
| method_init host cb : method (_init host cb)
| method_process packet : method (_process packet)
| method_end : method end_
| method_open path flags attrs cb : method (open Path_check path flags attrs cb)
| method_close h cb : method (close h cb)
| method_read h buf offset length position cb :
    method (read h buf offset length position cb)
| method_write h buf offset length position cb :
    method (write h buf offset length position cb)
| method_lstat path cb : method (lstat Path_check path cb)
| method_fstat h cb : method (fstat h cb)
| method_setstat path attrs cb : method (setstat Path_check path attrs cb)
| method_fsetstat h attrs cb : method (fsetstat h attrs cb)
| method_opendir path cb : method (opendir Path_check path cb)
| method_readdir h cb : method (readdir h cb)
| method_unlink path cb : method (unlink Path_check path cb)
| method_mkdir path attrs cb : method (mkdir Path_check path attrs cb)
| method_rmdir path cb : method (rmdir Path_check path cb)
| method_realpath path cb : method (realpath Path_check path cb)
| method_stat path cb : method (stat Path_check path cb)
| method_rename oldPath newPath flags cb :
    method (rename OVERWRITE Path_check oldPath newPath flags cb)
| method_readlink path cb : method (readlink Path_check path cb)
| method_symlink targetPath linkPath cb :
    method (symlink Path_check targetPath linkPath cb)
| method_link oldPath newPath cb : method (link Path_check oldPath newPath cb)
| method_fcopy from fromPosition length to toPosition cb :
    method (fcopy from fromPosition length to toPosition cb)
| method_fhash h alg position length blockSize cb :
    method (fhash h alg position length blockSize cb).

(** The states of a session: a new object, then any sequence of calls,
    each returning or throwing, and of turns of the event loop. *)
Inductive reachable : world -> Prop :=
| reachable_new sid : reachable (new_world sid)
| reachable_done m w w' :
    reachable w -> method m -> m w = Done tt w' -> reachable w'
| reachable_raise m msg w w' :
    reachable w -> method m -> m w = Raise msg w' -> reachable w'
| reachable_ticks w w' :
    reachable w -> run_ticks w = Done tt w' -> reachable w'.

End Reachable.

End SessionSpec.

Module ReadSpec.
Import Packet CodecSpec Client SessionSpec.

(** The READ request as [read] and [parseData] build it. *)
Definition read_request (h : buffer) (pos id capacity length : Z)
  : SftpPacketWriter :=
  append (be 4 length)
    (append (be 8 pos)
       (append (be 4 (Z.of_nat (List.length h)) ++ h)
          (start (set_id (Some id)
                    (set_type (TypeNum SftpPacketType.READ)
                       (new_writer capacity)))))).

(** The continuation parked for a read by [read] and [parseData]. *)
Definition read_entry (cb : callback) (h : buffer) (buf : option buffer)
    (offset pos : Z) (info : SftpCommandInfo) (retries length : Z)
  : SftpRequest :=
  mkRequest cb (ParseData retries h buf offset length pos) info.

(** A bound session with a read parked under [id], [retries] retries made
    and [length] bytes asked for; [base] is the rest of the table, and the
    request fits the packets of the session. *)
Record parked (host : channel) (cb : callback) (h : buffer)
    (buf : option buffer) (offset pos : Z) (info : SftpCommandInfo)
    (base : gmap (option Z) SftpRequest) (id retries length : Z)
    (w : world) : Prop := mkParked {
  parked_host : _host (core w) = Some host;
  parked_next : _id (core w) = Some (Js.to_int32 (id + 1));
  parked_requests :
    _requests (core w)
    = <[Some id := read_entry cb h buf offset pos info retries length]> base;
  parked_fits :
    Z.of_nat (List.length h) + 25 <= _maxWriteBlockLength (core w) + 1024
}.

(** The error of an exhausted read. *)
Definition eio (info : SftpCommandInfo) : SftpError :=
  with_code "EIO" 55
    (createError SftpStatusCode.FAILURE "Unable to read data" info).

(** What [read] accepts as buffer, offset and length. *)
Definition buffer_ok (buf : option buffer) (offset length : Z) : Prop :=
  match buf with
  | Some b =>
    0 <= offset /\ 0 <= length /\ offset + length <= Z.of_nat (List.length b)
  | None => True
  end.

(** The length [read] asks for. *)
Definition clamp (w : world) (length : Z) : Z :=
  if length >? _maxReadBlockLength (core w) then _maxReadBlockLength (core w)
  else length.

(** The id after [id], and the ids of [n] consecutive requests. *)
Definition next_id (id : Z) : Z := Js.to_int32 (id + 1).

Fixpoint ids_from (n : nat) (id : Z) : list Z :=
  match n with
  | O => []
  | S n => id :: ids_from n (next_id id)
  end.

Fixpoint last_id (n : nat) (id : Z) : Z :=
  match n with
  | O => id
  | S n => last_id n (next_id id)
  end.

(** The server answering each of the requests [ids], in turn, with a
    zero-byte DATA packet. *)
Fixpoint empty_replies (ids : list Z) : M unit :=
  match ids with
  | [] => mret tt
  | id :: ids => _ ← _process (data_frame id []); empty_replies ids
  end.

(** A session with one read parked under id 2, no retry made yet. *)
Definition one_read_parked : world :=
  mkWorld
    (mkCore 1 (Some 0%nat) (Some 3)
       (<[Some 2 := read_entry 1%nat [171] None 0 0 (info_of "read") 0 1024]> ∅)
       true ∅ ∅ (256 * 1024) (32 * 1024) 0 0)
    [] [] [] [].

(** A session with two reads in flight, under ids 1 and 2: the read under
    id 1 is not the request issued last. *)
Definition two_reads_parked : world :=
  mkWorld
    (mkCore 1 (Some 0%nat) (Some 3)
       (<[Some 1 := read_entry 1%nat [171] None 0 0 (info_of "read") 0 1024]>
          (<[Some 2 := read_entry 2%nat [171] None 0 4096 (info_of "read") 0
                         512]> ∅))
       true ∅ ∅ (256 * 1024) (32 * 1024) 0 0)
    [] [] [] [].

(** [_init], a read of 1024 bytes, and five zero-byte DATA replies, each to
    the READ sent last (ids 1 to 5). *)
Definition five_empty_replies : M unit :=
  _ ← _init 0%nat 0%nat;
  _ ← read (HandleToken token) None 0 1024 0 (Some 1%nat);
  empty_replies [1; 2; 3; 4; 5].

End ReadSpec.

(** * Vocabulary of further properties *)

Module ModeSpec.
Import SftpFlags.

(** A string is a mode that [toNumber] accepts. *)
Definition accepted (s : string) : bool :=
  match toNumber (FlagsStr s) with
  | Return _ => true
  | Throw _ => false
  end.

(** The strings [fromNumber] returns for a bitmask are accepted modes, and
    the first of them asks for every bit of the normalized bitmask and is
    the first string of its own bitmask. *)
Definition canonical_ok (flags : Z) : bool :=
  match fromNumber flags with
  | Return (first :: others) =>
    forallb accepted (first :: others)
    && match toNumber (FlagsStr first) with
       | Return m =>
         (Z.land m (normalize flags) =? normalize flags)
         && match fromNumber m with
            | Return (again :: _) => String.eqb again first
            | _ => false
            end
       | Throw _ => false
       end
  | _ => false
  end.

End ModeSpec.

Module ExtensionsSpec.

(** [items.join(",")] *)
Fixpoint join (items : list string) : string :=
  match items with
  | [] => ""
  | [item] => item
  | item :: rest => item +:+ "," +:+ join rest
  end.

(** A string without a comma. *)
Fixpoint comma_free (s : string) : bool :=
  match s with
  | EmptyString => true
  | String c s => negb (Ascii.eqb c ",") && comma_free s
  end.

(** The text that [contains] searches: every item between commas. *)
Fixpoint delimited (items : list string) : string :=
  match items with
  | [] => ","
  | item :: rest => "," +:+ item +:+ delimited rest
  end.

(** The known extensions whose value is one plain string: [read] decodes
    the others field by field. *)
Definition plain (name : string) : bool :=
  SftpExtensions.isKnown name
  && negb (existsb (String.eqb name)
             [SftpExtensions.VENDOR; SftpExtensions.NEWLINE3;
              SftpExtensions.SUPPORTED; SftpExtensions.SUPPORTED2;
              SftpExtensions.DEFAULT_FS_ATTRIBS]).

End ExtensionsSpec.

Module ReplySpec.
Import Packet CodecSpec Client.

(** The STATUS reply that a server builds with [SftpStatus.write] in a
    packet of the given capacity, for the request [id]. *)
Definition status_reply (capacity id code : Z) (message : string)
  : result buffer :=
  response ←
    SftpStatus.write (set_id (Some id) (new_writer capacity)) code message;
  Return (finish response).

(** The reply that [SftpStatus.writeSuccess] builds. *)
Definition success_reply (capacity id : Z) : result buffer :=
  response ←
    SftpStatus.writeSuccess (set_id (Some id) (new_writer capacity));
  Return (finish response).

(** A reply of a given type to the request [id]. *)
Definition reply_frame (type id : Z) (body : buffer) : buffer :=
  frame ([type] ++ be 4 id ++ body).

(** A VERSION packet. *)
Definition version_frame (version : Z) (extensions : buffer) : buffer :=
  frame ([SftpPacketType.VERSION] ++ be 4 version ++ extensions).

(** The parsers that operations park; [ParseInit] is the handshake's. *)
Definition of_operation (p : parser) : bool :=
  match p with
  | ParseInit _ _ => false
  | _ => true
  end.

(** The arguments that follow the error when a parser reports one. *)
Definition error_args (p : parser) : list js_value :=
  match p with
  | ParseData _ _ _ _ _ _ => [VNull; VNumber 0]
  | ParseItems => [VNull]
  | _ => []
  end.

(** The parsers with a meaning of their own for the EOF status. *)
Definition reads_to_end (p : parser) : bool :=
  match p with
  | ParseData _ _ _ _ _ _ | ParseItems => true
  | _ => false
  end.

(** The parsers that answer once: all but the read parser, which may send
    the request again. *)
Definition one_shot (p : parser) : bool :=
  match p with
  | ParseData _ _ _ _ _ _ => false
  | _ => true
  end.

(** The parsers that expect a reply other than STATUS. *)
Definition expects_reply (p : parser) : bool :=
  match p with
  | ParseAttribs | ParseHandle | ParsePath | ParseItems | ParseHash => true
  | _ => false
  end.

(** The state after [_process] has counted the packet and taken the
    request [key] out of the table. *)
Definition taken (key : option Z) (packet : buffer) (w : world) : world :=
  with_core
    (fun c => set_requests (delete key (_requests c)) c)
    (with_core
       (fun c => set_bytesReceived
                   (_bytesReceived c + Z.of_nat (List.length packet)) c)
       w).

(** ... and after one more call of a callback. *)
Definition called (c : invocation) (w : world) : world :=
  mkWorld (core w) (sent w) (closed w) (ticks w) (calls w ++ [c]).

(** A bound session, ready, with one request parked under id 1: its
    callback is 1, its parser [p]. *)
Definition awaiting (p : parser) : world :=
  mkWorld
    (mkCore 1 (Some 0%nat) (Some 2)
       {[ Some 1 := mkRequest 1%nat p (info_of "request") ]}
       true ∅ ∅ (256 * 1024) (32 * 1024) 0 0)
    [] [] [] [].

End ReplySpec.

Module InvariantSpec.
Import Packet Client.

(** A property of the state that a computation keeps, whether it returns
    or throws. *)
Definition preserved (P : world -> Prop) {A} (m : M A) : Prop :=
  forall w, P w ->
    match m w with
    | Done _ w' | Raise _ w' => P w'
    end.

Section Operations.

Context (OVERWRITE : Z) (Path_check : string -> string -> result string).

(** The operations of [IFilesystem] on a session. *)
Inductive operation : M unit -> Prop :=
| op_open path flags attrs cb : operation (open Path_check path flags attrs cb)
| op_close h cb : operation (close h cb)
| op_read h buf offset length position cb :
    operation (read h buf offset length position cb)
| op_write h buf offset length position cb :
    operation (write h buf offset length position cb)
| op_lstat path cb : operation (lstat Path_check path cb)
| op_fstat h cb : operation (fstat h cb)
| op_setstat path attrs cb : operation (setstat Path_check path attrs cb)
| op_fsetstat h attrs cb : operation (fsetstat h attrs cb)
| op_opendir path cb : operation (opendir Path_check path cb)
| op_readdir h cb : operation (readdir h cb)
| op_unlink path cb : operation (unlink Path_check path cb)
| op_mkdir path attrs cb : operation (mkdir Path_check path attrs cb)
| op_rmdir path cb : operation (rmdir Path_check path cb)
| op_realpath path cb : operation (realpath Path_check path cb)
| op_stat path cb : operation (stat Path_check path cb)
| op_rename oldPath newPath flags cb :
    operation (rename OVERWRITE Path_check oldPath newPath flags cb)
| op_readlink path cb : operation (readlink Path_check path cb)
| op_symlink targetPath linkPath cb :
    operation (symlink Path_check targetPath linkPath cb)
| op_link oldPath newPath cb :
    operation (link Path_check oldPath newPath cb)
| op_fcopy from fromPosition length to toPosition cb :
    operation (fcopy from fromPosition length to toPosition cb)
| op_fhash h alg position length blockSize cb :
    operation (fhash h alg position length blockSize cb).

End Operations.

(** The callbacks invoked so far are [c]. *)
Definition calls_are (c : list invocation) (w : world) : Prop := calls w = c.

(** A detached session that has sent [s] and holds the table [r]. *)
Definition detached (s : list (channel * buffer))
    (r : gmap (option Z) SftpRequest) (w : world) : Prop :=
  _host (core w) = None /\ sent w = s /\ _requests (core w) = r.

(** The bytes of the frames handed to the channels. *)
Definition bytes_out (frames : list (channel * buffer)) : Z :=
  fold_right (fun f n => Z.of_nat (List.length f.2) + n) 0 frames.

(** [_bytesSent] counts the bytes of the frames sent. *)
Definition sent_accounted (w : world) : Prop :=
  _bytesSent (core w) = bytes_out (sent w).

(** The table is [r]. *)
Definition requests_are (r : gmap (option Z) SftpRequest) (w : world) : Prop :=
  _requests (core w) = r.

End InvariantSpec.

Module HandshakeSpec.
Import Packet Client.

(** [w] is [w0] with another table of extensions. *)
Definition extended_from (w0 w : world) : Prop :=
  exists e, w = with_core (set_extensions e) w0.

(** The state after one more call of [host.close(code)]. *)
Definition hung_up (host : channel) (code : option Z) (w : world) : world :=
  mkWorld (core w) (sent w) (closed w ++ [(host, code)]) (ticks w) (calls w).

(** A session that has ended: [_init] and [end] on a new object. *)
Definition ended : world :=
  mkWorld
    (mkCore 1 None (Some 1) ∅ false ∅ ∅ (256 * 1024) (32 * 1024) 0 9)
    [(0%nat, [0; 0; 0; 5; 1; 0; 0; 0; 3])] [(0%nat, None)] [] [].

End HandshakeSpec.

Module OperationSpec.
Import Packet Client.

(** The state after [getRequest] has taken an id for anything but INIT. *)
Definition id_taken (w : world) : world :=
  with_core
    (fun c => set_next_id (Some (Js.land (default 0 (_id c) + 1) 0xFFFFFFFF)) c)
    w.

(** Arguments that [write] accepts, with a position of 63 bits. *)
Definition write_arguments_ok (w : world) (buf : option buffer)
    (offset length position : Z) : Prop :=
  exists b,
    buf = Some b
    /\ 0 <= offset /\ 0 <= length
    /\ offset + length <= Z.of_nat (List.length b)
    /\ 0 <= position <= 0x7FFFFFFFFFFFFFFF
    /\ length <= _maxWriteBlockLength (core w).


(** The state after one more deferred call. *)
Definition deferred (c : invocation) (w : world) : world :=
  mkWorld (core w) (sent w) (closed w) (ticks w ++ [c]) (calls w).

Definition link_info (oldPath newPath : string) : SftpCommandInfo :=
  mkInfo "link" None (Some oldPath) (Some newPath) None None None None None
    None.

(** The state after [execute] has sent [frame] to [host] and parked
    [request] under [id]. *)
Definition submitted (host : channel) (id : Z) (frame : buffer)
    (request : SftpRequest) (w : world) : world :=
  mkWorld
    (set_requests (<[Some id := request]> (_requests (core w)))
       (set_bytesSent (_bytesSent (core w) + Z.of_nat (List.length frame))
          (set_next_id (Some (Js.to_int32 (id + 1))) (core w))))
    (sent w ++ [(host, frame)]) (closed w) (ticks w) (calls w).

Section PathOperations.

Context (Path_check : string -> string -> result string).

(** The operations made of one path: the method, its packet type, its
    name and the parser of its reply. *)
Definition path_operations
  : list ((string -> option callback -> M unit) * Z * string * parser) :=
  [(lstat Path_check, SftpPacketType.LSTAT, "lstat", ParseAttribs);
   (opendir Path_check, SftpPacketType.OPENDIR, "opendir", ParseHandle);
   (unlink Path_check, SftpPacketType.REMOVE, "unlink", ParseStatus);
   (rmdir Path_check, SftpPacketType.RMDIR, "rmdir", ParseStatus);
   (realpath Path_check, SftpPacketType.REALPATH, "realpath", ParsePath);
   (stat Path_check, SftpPacketType.STAT, "stat", ParseAttribs);
   (readlink Path_check, SftpPacketType.READLINK, "readlink", ParsePath)].

End PathOperations.

End OperationSpec.

Module StatsSpec.
Import SftpAttributeFlags SftpAttributes AttributesSpec.

Definition present {A} (v : option A) : bool :=
  match v with
  | Some _ => true
  | None => false
  end.

(** The flags word that [from] computes: one basic bit for each group of
    fields given. *)
Definition stats_flags (stats : IStats) : Z :=
  (if present (st_size stats) then SIZE else 0)
  + (if present (st_uid stats) || present (st_gid stats) then UIDGID else 0)
  + (if present (st_mode stats) then PERMISSIONS else 0)
  + (if present (st_atime stats) || present (st_mtime stats) then ACMODTIME
     else 0).

(** The stats without the fields that [write] never looks at. *)
Definition basic_stats (stats : IStats) : IStats :=
  mkStats (st_size stats) (st_uid stats) (st_gid stats) (st_mode stats)
    (st_atime stats) (st_mtime stats) None None.

Definition within (P : Z -> Prop) (v : option Z) : Prop :=
  match v with
  | Some z => P z
  | None => True
  end.

(** Stats that the attribute block can carry as they are: numbers of 32
    bits (a mode is not negative), and both dates or none, in whole
    seconds. *)
Record sendable (stats : IStats) : Prop := mkSendable {
  send_size : within int32 (st_size stats);
  send_uid : within int32 (st_uid stats);
  send_gid : within int32 (st_gid stats);
  send_mode : within (fun m => 0 <= m < 2 ^ 31) (st_mode stats);
  send_atime : within whole_seconds (st_atime stats);
  send_mtime : within whole_seconds (st_mtime stats);
  send_dates : present (st_atime stats) = present (st_mtime stats)
}.

(** What the peer reads: the numbers given, and 0 for the one of [uid] and
    [gid] that was not. *)
Definition received (stats : IStats) : SftpAttributes :=
  let ids := present (st_uid stats) || present (st_gid stats) in
  mkAttrs (stats_flags stats) (st_size stats)
    (if ids then Some (default 0 (st_uid stats)) else None)
    (if ids then Some (default 0 (st_gid stats)) else None)
    (st_mode stats) (st_atime stats) (st_mtime stats) None None.

Definition stats_sample : IStats :=
  mkStats (Some 5) (Some 1000) None (Some 420) (Some 1000) (Some 2000)
    (Some 1) (Some [("k", MetaBool true)]).

End StatsSpec.

(** * Properties *)

(** ** The 32-bit operators *)

Module JsFacts.
Import Js.

Lemma to_int32_range (z : Z) : int32 (to_int32 z).
Proof.
  unfold int32, to_int32.
  pose proof (Z.mod_pos_bound (z + 2 ^ 31) (2 ^ 32)). lia.
Qed.

Lemma to_int32_id (z : Z) : int32 z -> to_int32 z = z.
Proof. unfold int32. intros H. unfold to_int32. rewrite Z.mod_small; lia. Qed.

Lemma to_int32_congr (z : Z) : to_int32 z mod 2 ^ 32 = z mod 2 ^ 32.
Proof. unfold to_int32. rewrite Zminus_mod_idemp_l. f_equal. lia. Qed.

Lemma to_int32_mod_eq (a b : Z) :
  a mod 2 ^ 32 = b mod 2 ^ 32 -> to_int32 a = to_int32 b.
Proof.
  intros H. unfold to_int32. now rewrite (Zplus_mod a), H, <- Zplus_mod.
Qed.

Lemma to_int32_succ (a : Z) : to_int32 (to_int32 a + 1) = to_int32 (a + 1).
Proof.
  apply to_int32_mod_eq.
  now rewrite (Zplus_mod (to_int32 a)), to_int32_congr, <- Zplus_mod.
Qed.

(** Masking with [2^n - 1], [n < 32], keeps the low [n] bits. *)
Lemma land_ones (z n : Z) : 0 <= n < 32 -> land z (Z.ones n) = z mod 2 ^ n.
Proof.
  intros Hn. unfold land.
  assert (Hpow : 0 < 2 ^ n <= 2 ^ 31).
  { split; [apply Z.pow_pos_nonneg; lia | apply Z.pow_le_mono_r; lia]. }
  assert (Hones : to_int32 (Z.ones n) = Z.ones n).
  { apply to_int32_id. unfold int32. rewrite Z.ones_equiv. lia. }
  rewrite Hones, Z.land_ones by lia.
  assert (Hdvd : (2 ^ n | 2 ^ 32)).
  { exists (2 ^ (32 - n)). rewrite <- Z.pow_add_r by lia. f_equal. lia. }
  rewrite <- (Z.mod_mod_divide (to_int32 z) (2 ^ 32) (2 ^ n) Hdvd).
  rewrite to_int32_congr, Z.mod_mod_divide by exact Hdvd.
  apply to_int32_id. unfold int32.
  pose proof (Z.mod_pos_bound z (2 ^ n)). lia.
Qed.

(** [(n + 1) & 0xFFFFFFFF] is [n + 1] wrapped to a signed 32-bit integer. *)
Lemma land_all_ones (z : Z) : land z 0xFFFFFFFF = to_int32 z.
Proof.
  unfold land. change (to_int32 0xFFFFFFFF) with (-1).
  rewrite Z.land_m1_r. apply to_int32_id, to_int32_range.
Qed.

End JsFacts.

(** ** The flags translator *)

Module SftpFlagsFacts.
Import SftpOpenFlags SftpFlags FlagsSpec.

Lemma normalize_mask (flags : Z) : normalize flags = normalize (flags mod 2 ^ 6).
Proof.
  unfold normalize. change ALL with (Z.ones 6).
  rewrite !(JsFacts.land_ones _ 6) by lia.
  now rewrite Zmod_mod.
Qed.

Lemma lands_in_table_low (m : Z) : 0 <= m < 64 -> lands_in_table m = true.
Proof.
  intros Hm.
  assert (Hall : forallb lands_in_table (map Z.of_nat (seq 0 64)) = true)
    by (vm_compute; reflexivity).
  rewrite forallb_forall in Hall. apply Hall.
  apply in_map_iff. exists (Z.to_nat m). split; [lia | apply in_seq; lia].
Qed.

Lemma lands_in_table_sound (flags : Z) :
  lands_in_table flags = true ->
  In (normalize flags) table_labels
  /\ (exists name names, fromNumber flags = Return (name :: names))
  /\ fromNumber flags <> Throw "Unsupported flags".
Proof.
  unfold lands_in_table. intros [Hin Htab]%andb_true_iff.
  apply existsb_exists in Hin as (label & Hin & ->%Z.eqb_eq).
  destruct (fromNumber flags) as [[|name names]|];
    [discriminate Htab | | discriminate Htab].
  split; [exact Hin | split; [now exists name, names | intros [=]]].
Qed.

Lemma lands_in_table_mask (flags : Z) :
  lands_in_table flags = lands_in_table (flags mod 2 ^ 6).
Proof. unfold lands_in_table, fromNumber. now rewrite <- normalize_mask. Qed.

(** C7.  For every input (in particular every 32-bit one) [fromNumber]
    depends on the six open-flag bits only, normalizes them to one of the
    labels of its [switch] (the twelve rows of the table, the row of "r+"
    standing under the two labels 2 and 3) and returns the non-empty list
    of strings tabulated for it; the trailing throw of "Unsupported flags"
    is never reached. *)
Theorem fromNumber_lands_in_table (flags : Z) :
  fromNumber flags = fromNumber (flags mod 2 ^ 6)
  /\ In (normalize flags) table_labels
  /\ (exists name names, fromNumber flags = Return (name :: names))
  /\ fromNumber flags <> Throw "Unsupported flags".
Proof.
  split; [unfold fromNumber; now rewrite <- normalize_mask|].
  apply lands_in_table_sound. rewrite lands_in_table_mask.
  apply lands_in_table_low. pose proof (Z.mod_pos_bound flags (2 ^ 6)). lia.
Qed.

Lemma roundtrip_ok_sound (n : Z) :
  roundtrip_ok n = true ->
  normalize n = n
  /\ exists first others,
       fromNumber n = Return (first :: others)
       /\ toNumber (FlagsStr first) = Return n.
Proof.
  unfold roundtrip_ok. intros [Hn H]%andb_true_iff.
  apply Z.eqb_eq in Hn. split; [exact Hn|].
  destruct (fromNumber n) as [[|first others]|]; try discriminate H.
  exists first, others. split; [reflexivity|].
  destruct (toNumber (FlagsStr first)); [|discriminate H].
  apply Z.eqb_eq in H. now subst.
Qed.

(** C8.  For every symbolic mode [s] that [toNumber] accepts, with bitmask
    [n]: [n] is already normalized, and [fromNumber n] returns a list whose
    first string [toNumber] maps back to [n]. *)
Theorem toNumber_fromNumber_toNumber (s : string) (n : Z) :
  toNumber (FlagsStr s) = Return n ->
  normalize n = n
  /\ exists first others,
       fromNumber n = Return (first :: others)
       /\ toNumber (FlagsStr first) = Return n.
Proof.
  unfold toNumber.
  repeat match goal with
  | |- context [String.eqb s ?lit] =>
    destruct (String.eqb s lit); cbn [orb];
    [ intros [= <-]; apply roundtrip_ok_sound; vm_compute; reflexivity | ]
  end.
  discriminate.
Qed.

Lemma toNumber_fromNumber_toNumber_witness :
  normalize 27 = 27
  /\ exists first others,
       fromNumber 27 = Return (first :: others)
       /\ toNumber (FlagsStr first) = Return 27.
Proof. exact (toNumber_fromNumber_toNumber "w+" 27 eq_refl). Defined.

End SftpFlagsFacts.

(** ** The packet codec *)

Module PacketFacts.
Import Packet CodecSpec.

Lemma length_be (n : nat) (v : Z) : List.length (be n v) = n.
Proof. induction n as [|n IH]; simpl; [reflexivity | now rewrite IH]. Qed.

Lemma fold_be (n : nat) (v acc : Z) :
  fold_left (fun acc x => acc * 256 + x) (be n v) acc
  = acc * 256 ^ Z.of_nat n + v mod 256 ^ Z.of_nat n.
Proof.
  revert acc. induction n as [|n IH]; intros acc.
  - simpl. rewrite Z.mod_1_r. lia.
  - cbn [be fold_left]. rewrite IH.
    replace (Z.of_nat (S n)) with (Z.of_nat n + 1) by lia.
    rewrite Z.pow_add_r, Z.pow_1_r by lia.
    assert (Hpos : 0 < 256 ^ Z.of_nat n) by (apply Z.pow_pos_nonneg; lia).
    rewrite (Z.rem_mul_r v (256 ^ Z.of_nat n) 256) by lia.
    lia.
Qed.

(** Reading back [n] big-endian bytes gives the value modulo [256^n]. *)
Lemma unbe_be (n : nat) (v : Z) : unbe (be n v) = v mod 256 ^ Z.of_nat n.
Proof. unfold unbe. rewrite fold_be. lia. Qed.

Lemma signed_mod (bits v : Z) :
  0 < bits -> - 2 ^ (bits - 1) <= v < 2 ^ (bits - 1) ->
  signed bits (v mod 2 ^ bits) = v.
Proof.
  intros Hbits Hv. unfold signed.
  assert (Hpow : 2 ^ bits = 2 * 2 ^ (bits - 1)).
  { rewrite <- Z.pow_succ_r by lia. f_equal. lia. }
  destruct (Z_lt_le_dec v 0) as [Hneg|Hpos].
  - assert (Hm : v mod 2 ^ bits = v + 2 ^ bits).
    { symmetry. apply (Z.mod_unique v (2 ^ bits) (-1)); lia. }
    rewrite Hm. destruct (Z.ltb_spec (v + 2 ^ bits) (2 ^ (bits - 1))); lia.
  - rewrite Z.mod_small by lia.
    destruct (Z.ltb_spec v (2 ^ (bits - 1))); lia.
Qed.

Lemma signed32_mod (v : Z) : int32 v -> signed 32 (v mod 2 ^ 32) = v.
Proof. intros H. apply signed_mod; [lia | exact H]. Qed.

Lemma signed64_mod (v : Z) : int64 v -> signed 64 (v mod 2 ^ 64) = v.
Proof. intros H. apply signed_mod; [lia | exact H]. Qed.

Lemma unread_fresh (t i : option Z) (b : buffer) : unread (mkReader t i b 0) b.
Proof. split; [reflexivity | simpl; lia]. Qed.

Lemma read_raw_unread (r : SftpPacketReader) (b rest : buffer) :
  unread r (b ++ rest) ->
  read_raw (List.length b) r = Return (b, advance (List.length b) r)
  /\ unread (advance (List.length b) r) rest.
Proof.
  intros [Hdrop Hpos]. unfold read_raw, unread, r_length in *.
  assert (Hlen : (List.length (r_buffer r) - r_position r
                  = List.length b + List.length rest)%nat).
  { rewrite <- length_drop, Hdrop. apply length_app. }
  destruct (Nat.leb_spec (r_position r + List.length b)
              (List.length (r_buffer r))) as [Hle|Hgt]; [|lia].
  rewrite Hdrop, take_app_length. cbn [advance r_buffer r_position].
  repeat split; [|lia].
  rewrite <- drop_drop, Hdrop. apply drop_app_length.
Qed.

Lemma readByte_unread (r : SftpPacketReader) (b : Z) (rest : buffer) :
  unread r ([b] ++ rest) ->
  readByte r = Return (b, advance 1 r) /\ unread (advance 1 r) rest.
Proof.
  intros H. destruct (read_raw_unread _ _ _ H) as [Hr Hu].
  cbn [List.length] in Hr, Hu. unfold readByte. rewrite Hr.
  cbn [mbind result_bind]. split; [|exact Hu]. do 2 f_equal.
Qed.

Lemma readUint32_unread (r : SftpPacketReader) (v : Z) (rest : buffer) :
  unread r (be 4 v ++ rest) ->
  readUint32 r = Return (v mod 2 ^ 32, advance 4 r) /\ unread (advance 4 r) rest.
Proof.
  intros H. destruct (read_raw_unread _ _ _ H) as [Hr Hu].
  rewrite length_be in Hr, Hu. unfold readUint32. rewrite Hr.
  cbn [mbind result_bind]. now rewrite unbe_be.
Qed.

Lemma readInt32_unread (r : SftpPacketReader) (v : Z) (rest : buffer) :
  unread r (be 4 v ++ rest) ->
  readInt32 r = Return (signed 32 (v mod 2 ^ 32), advance 4 r)
  /\ unread (advance 4 r) rest.
Proof.
  intros H. destruct (read_raw_unread _ _ _ H) as [Hr Hu].
  rewrite length_be in Hr, Hu. unfold readInt32. rewrite Hr.
  cbn [mbind result_bind]. now rewrite unbe_be.
Qed.

Lemma readInt64_unread (r : SftpPacketReader) (v : Z) (rest : buffer) :
  unread r (be 8 v ++ rest) ->
  readInt64 r = Return (signed 64 (v mod 2 ^ 64), advance 8 r)
  /\ unread (advance 8 r) rest.
Proof.
  intros H. destruct (read_raw_unread _ _ _ H) as [Hr Hu].
  rewrite length_be in Hr, Hu. unfold readInt64. rewrite Hr.
  cbn [mbind result_bind]. now rewrite unbe_be.
Qed.

(** A write that fits appends its bytes. *)
Lemma write_raw_fits (b : buffer) (w : SftpPacketWriter) :
  position w + Z.of_nat (List.length b) <= w_capacity w ->
  write_raw b w = Return (append b w).
Proof.
  intros H. unfold write_raw.
  destruct (Z.leb_spec (position w + Z.of_nat (List.length b)) (w_capacity w));
    [reflexivity | lia].
Qed.

Lemma position_append (b : buffer) (w : SftpPacketWriter) :
  position (append b w) = position w + Z.of_nat (List.length b).
Proof. unfold position, append. cbn. rewrite length_app. lia. Qed.

Lemma capacity_append (b : buffer) (w : SftpPacketWriter) :
  w_capacity (append b w) = w_capacity w.
Proof. reflexivity. Qed.

Lemma position_new (capacity : Z) : position (new_writer capacity) = 0.
Proof. reflexivity. Qed.

Lemma capacity_new (capacity : Z) : w_capacity (new_writer capacity) = capacity.
Proof. reflexivity. Qed.

(** Decoding the header of a DATA packet. *)
Lemma new_reader_data (id : Z) (data : buffer) :
  int32 id ->
  exists response,
    new_reader (data_frame id data) = Return response
    /\ r_type response = Some SftpPacketType.DATA
    /\ r_id response = Some id
    /\ unread response (be 4 (Z.of_nat (List.length data)) ++ data).
Proof.
  intros Hid. unfold new_reader, data_frame, frame.
  match goal with
  | |- context [mkReader None None ?b 0] =>
    pose proof (unread_fresh None None b) as Hun
  end.
  destruct (readUint32_unread _ _ _ Hun) as [-> Hun1]. cbn [mbind result_bind].
  destruct (readByte_unread _ _ _ Hun1) as [-> Hun2]. cbn [mbind result_bind].
  change (is_handshake (TypeNum SftpPacketType.DATA)) with false. cbn iota.
  destruct (readInt32_unread _ _ _ Hun2) as [-> Hun3]. cbn [mbind result_bind].
  rewrite signed32_mod by exact Hid.
  eexists. split; [reflexivity|]. split; [reflexivity|]. split; [reflexivity|].
  exact Hun3.
Qed.

Lemma readData_empty (response : SftpPacketReader) :
  unread response (be 4 (Z.of_nat (List.length (@nil Z))) ++ []) ->
  readData false response = Return ([], advance 0 (advance 4 response)).
Proof.
  intros Hun. unfold readData, read_prefixed.
  destruct (readUint32_unread _ _ _ Hun) as [-> Hun1]. cbn [mbind result_bind].
  change (Z.to_nat (Z.of_nat (List.length (@nil Z)) mod 2 ^ 32)) with 0%nat.
  destruct (read_raw_unread _ [] [] Hun1) as [E _]. exact E.
Qed.

End PacketFacts.

(** ** The attribute block *)

Module SftpAttributesFacts.
Import Packet CodecSpec PacketFacts SftpAttributeFlags SftpAttributes AttributesSpec.

Lemma clear_extended (fl : Z) : Js.land fl (Js.lnot EXTENDED) = fl mod 2 ^ 31.
Proof.
  change (Js.lnot EXTENDED) with (Z.ones 31). apply JsFacts.land_ones. lia.
Qed.

Lemma seconds_whole (ms : Z) :
  whole_seconds ms -> 1000 * (Z.quot ms 1000 mod 2 ^ 32) = ms.
Proof.
  intros (s & Hs & ->).
  assert (Hq : Z.quot (1000 * s) 1000 = s)
    by (rewrite (Z.mul_comm 1000 s); apply Z.quot_mul; lia).
  rewrite Hq, Z.mod_small; lia.
Qed.

Lemma observed_plain (x : SftpAttributes) :
  Js.truthy (Js.land (flags x) EXTENDED) = false -> observed x = x.
Proof. intros E. destruct x. unfold observed, observed_flags. now rewrite E. Qed.

Lemma observed_flags_mod (fl : Z) :
  Js.truthy (Js.land fl EXTENDED) = true -> observed_flags fl = fl mod 2 ^ 31.
Proof. intros E. unfold observed_flags. rewrite E. apply clear_extended. Qed.

Ltac write_step :=
  unfold writeInt32, writeInt64;
  rewrite write_raw_fits
    by (rewrite ?capacity_append, ?position_append, ?position_new,
          ?capacity_new, ?length_be; lia);
  cbn [mbind result_bind seconds].

Ltac read_with lemma r H :=
  let E := fresh "E" in
  let H' := fresh "H" in
  first [ destruct (lemma r _ _ H) as [E H']
        | rewrite <- (app_nil_r (be _ _)) in H;
          destruct (lemma r _ _ H) as [E H'] ];
  rewrite E; clear E H; rename H' into H;
  cbn [mbind result_bind].

Ltac read_step H :=
  lazymatch goal with
  | |- context [readUint32 ?r] => read_with readUint32_unread r H
  | |- context [readInt32 ?r] => read_with readInt32_unread r H
  | |- context [readInt64 ?r] => read_with readInt64_unread r H
  end.

Ltac use_tests :=
  repeat match goal with
  | E : Js.truthy _ = _ |- _ => rewrite E
  end.

(** The round trip, field by field: the writer lays the gated fields out in
    order, the reader takes them back with the same tests on the same
    flags. *)
Lemma decode_encode_observed (capacity : Z) (x : SftpAttributes) :
  representable x -> 36 <= capacity ->
  exists b, encode capacity x = Return b /\ decode b = Return (observed x).
Proof.
  destruct x as [fl sz u g m a t nl md].
  intros [Hfl Hsz Hu Hg Hm Ha Ht Hnl Hmd] Hcap.
  cbn [flags size uid gid mode atime mtime nlink metadata] in *. subst nl md.
  unfold gated in *.
  destruct sz as [sz|], u as [u|], g as [g|], m as [m|], a as [a|], t as [t|];
    repeat match goal with H : _ /\ _ |- _ => destruct H end;
    try congruence;
    destruct (Js.truthy (Js.land fl EXTENDED)) eqn:E5;
    unfold encode, write, observed, observed_flags;
    cbn [flags size uid gid mode atime mtime nlink metadata number seconds
         mbind result_bind];
    use_tests; cbn [mbind result_bind seconds];
    repeat write_step;
    (eexists; split; [reflexivity|]);
    unfold decode, read;
    cbn [w_bytes append new_writer app]; rewrite <- ?app_assoc;
    lazymatch goal with
    | |- context [mkReader None None ?b 0] =>
      pose proof (unread_fresh None None b) as Hunread
    end;
    read_step Hunread; rewrite (Z.mod_small fl) by exact Hfl;
    use_tests; cbn [mbind result_bind];
    repeat (read_step Hunread; use_tests; cbn [mbind result_bind]);
    change (Z.to_nat (signed 32 (0 mod 2 ^ 32))) with 0%nat;
    cbn [read_extended mbind result_bind];
    rewrite ?signed32_mod, ?signed64_mod, ?seconds_whole by assumption;
    rewrite ?Z.mod_small by assumption;
    reflexivity.
Qed.

(** C4, as stated, fails: the EXTENDED flag does not survive the round
    trip.  The record whose flags are EXTENDED alone is encoded as
    [80 00 00 00 00 00 00 00] and decoded as the empty record. *)
Lemma decode_encode_extended_counterexample :
  encode 1024 extended_only = Return [128; 0; 0; 0; 0; 0; 0; 0]
  /\ decode [128; 0; 0; 0; 0; 0; 0; 0] = Return empty
  /\ empty <> extended_only.
Proof.
  split; [vm_compute; reflexivity|].
  split; [vm_compute; reflexivity | intros [=]].
Qed.

(** C4, amended.  For every representable record without metadata,
    encoding succeeds in any packet of at least 36 bytes, and decoding the
    bytes yields the record again with the EXTENDED bit cleared from its
    flags: the record itself when that bit is not set. *)
Theorem decode_encode (capacity : Z) (x : SftpAttributes) :
  representable x -> 36 <= capacity ->
  exists b,
    encode capacity x = Return b
    /\ decode b = Return (observed x)
    /\ (Js.truthy (Js.land (flags x) EXTENDED) = false -> decode b = Return x).
Proof.
  intros Hx Hcap.
  destruct (decode_encode_observed capacity x Hx Hcap) as (b & Hb & Hd).
  exists b. split; [exact Hb | split; [exact Hd|]].
  intros E. now rewrite Hd, observed_plain.
Qed.

Lemma decode_encode_witness :
  exists b,
    encode 64 sample = Return b
    /\ decode b = Return (observed sample)
    /\ (Js.truthy (Js.land (flags sample) EXTENDED) = false
        -> decode b = Return sample).
Proof.
  apply (decode_encode 64 sample); [|lia].
  constructor;
    cbn [sample flags size uid gid mode atime mtime nlink metadata gated];
    try reflexivity;
    try (split; [vm_compute; reflexivity|]);
    try (unfold uint32, int64; lia).
  - exists 1. lia.
  - exists 2. lia.
Defined.

End SftpAttributesFacts.

(** ** The client core *)

Module ClientFacts.
Import Packet CodecSpec PacketFacts Client SessionSpec.

(** *** Running the monad *)

Lemma run_bind {A B} (m : M A) (k : A -> M B) (w : world) :
  (m ≫= k) w = match m w with
               | Done a w' => k a w'
               | Raise msg w' => Raise msg w'
               end.
Proof. reflexivity. Qed.

Lemma run_done {A B} (m : M A) (k : A -> M B) (w w' : world) (a : A) :
  m w = Done a w' -> (m ≫= k) w = k a w'.
Proof. intros H. now rewrite run_bind, H. Qed.

Lemma run_raise {A B} (m : M A) (k : A -> M B) (w w' : world) (msg : string) :
  m w = Raise msg w' -> (m ≫= k) w = Raise msg w'.
Proof. intros H. now rewrite run_bind, H. Qed.

Ltac pass_callback := rewrite run_bind; cbn [checkCallback mret M_ret].

(** *** Handles *)

Lemma toHandle_foreign (w : world) (h : SftpHandle) :
  _this h <> _sessionId (core w) ->
  toHandle (HandleToken h) w = Raise "Invalid handle" w.
Proof.
  intros Hne. unfold toHandle. rewrite run_bind. cbn [this].
  destruct (Z.eqb_spec (_this h) (_sessionId (core w)));
    [contradiction | reflexivity].
Qed.

Lemma toHandle_token (w : world) (h : SftpHandle) :
  toHandle (HandleToken h) w = Raise "Invalid handle" w
  \/ toHandle (HandleToken h) w = Done (_handle h) w.
Proof.
  unfold toHandle. rewrite run_bind. cbn [this].
  destruct (_this h =? _sessionId (core w)); [right | left]; reflexivity.
Qed.

Ltac reject_handle Hne :=
  pass_callback; apply run_raise, toHandle_foreign, Hne.

(** C6.  Each of the eight operations that take a handle, called with a
    function as callback and a handle token whose owner is not this session,
    throws "Invalid handle" at once: the world is the one before the call,
    so no request id was taken, no packet built and nothing sent.  For
    [fcopy] the foreign token may be either of its two handles. *)
Theorem foreign_handle_rejected (w : world) (h : SftpHandle) (cb : callback) :
  _this h <> _sessionId (core w) ->
  close (HandleToken h) (Some cb) w = Raise "Invalid handle" w
  /\ (forall buf offset length position,
        read (HandleToken h) buf offset length position (Some cb) w
        = Raise "Invalid handle" w)
  /\ (forall buf offset length position,
        write (HandleToken h) buf offset length position (Some cb) w
        = Raise "Invalid handle" w)
  /\ fstat (HandleToken h) (Some cb) w = Raise "Invalid handle" w
  /\ (forall attrs,
        fsetstat (HandleToken h) attrs (Some cb) w = Raise "Invalid handle" w)
  /\ readdir (HandleToken h) (Some cb) w = Raise "Invalid handle" w
  /\ (forall fromPosition length to toPosition,
        fcopy (HandleToken h) fromPosition length to toPosition (Some cb) w
        = Raise "Invalid handle" w)
  /\ (forall from fromPosition length toPosition,
        fcopy (HandleToken from) fromPosition length (HandleToken h) toPosition
          (Some cb) w
        = Raise "Invalid handle" w)
  /\ (forall alg position length blockSize,
        fhash (HandleToken h) alg position length blockSize (Some cb) w
        = Raise "Invalid handle" w).
Proof.
  intros Hne.
  repeat split; intros;
    try (unfold close, read, write, fstat, fsetstat, readdir, fcopy, fhash;
         reject_handle Hne).
  unfold fcopy. pass_callback.
  destruct (toHandle_token w from) as [E|E].
  - now apply run_raise.
  - rewrite (run_done _ _ _ _ _ E). apply run_raise, toHandle_foreign, Hne.
Qed.

Lemma foreign_handle_rejected_witness :
  _this foreign <> _sessionId (core (new_world 1))
  /\ close (HandleToken foreign) (Some 0%nat) (new_world 1)
     = Raise "Invalid handle" (new_world 1).
Proof.
  assert (H : _this foreign <> _sessionId (core (new_world 1)))
    by (cbn; lia).
  split; [exact H|].
  exact (proj1 (foreign_handle_rejected (new_world 1) foreign 0%nat H)).
Defined.

(** *** An invariant: the names of the registered features *)

Lemma keeps_ret {A} (a : A) : keeps (mret a).
Proof. intros w H. exact H. Qed.

Lemma keeps_throw {A} (msg : string) : keeps (@throw A msg).
Proof. intros w H. exact H. Qed.

Lemma keeps_this : keeps this.
Proof. intros w H. exact H. Qed.

Lemma keeps_lift {A} (r : result A) : keeps (lift r).
Proof. intros w H. unfold lift. destruct r; exact H. Qed.

Lemma keeps_send (host : channel) (packet : buffer) : keeps (send host packet).
Proof. intros w H. exact H. Qed.

Lemma keeps_close_host (host : channel) (code : option Z) :
  keeps (close_host host code).
Proof. intros w H. exact H. Qed.

Lemma keeps_nextTick (c : invocation) : keeps (nextTick c).
Proof. intros w H. exact H. Qed.

Lemma keeps_invoke (c : invocation) : keeps (invoke c).
Proof. intros w H. exact H. Qed.

Lemma keeps_run_ticks : keeps run_ticks.
Proof. intros w H. exact H. Qed.

Lemma keeps_update (f : SftpClientCore -> SftpClientCore) :
  (forall c, features_known c -> features_known (f c)) -> keeps (update f).
Proof. intros Hf w H. apply Hf, H. Qed.

Lemma keeps_bind {A B} (m : M A) (k : A -> M B) :
  keeps m -> (forall a, keeps (k a)) -> keeps (m ≫= k).
Proof.
  intros Hm Hk w H. rewrite run_bind. specialize (Hm w H).
  destruct (m w) as [a w'|msg w']; [apply Hk, Hm | exact Hm].
Qed.

Lemma features_known_insert (name value : string) (c : SftpClientCore) :
  In name feature_names -> features_known c ->
  features_known (set_features (<[name := value]> (_features c)) c).
Proof.
  intros Hname Hc other. cbn [_features set_features].
  destruct (decide (name = other)) as [<-|Hne]; [intros _; exact Hname|].
  rewrite lookup_insert_ne by exact Hne. apply Hc.
Qed.

Create HintDb keeps discriminated.

#[local] Hint Resolve keeps_ret keeps_throw keeps_this keeps_lift keeps_send
  keeps_close_host keeps_nextTick keeps_invoke : keeps.

(** One step through the body of a method. *)
Ltac keeps_step :=
  cbv beta zeta;
  match goal with
  | |- keeps (match ?x with _ => _ end) => destruct x
  | |- keeps (update _) =>
    apply keeps_update; intros ? ?;
    first [assumption | apply features_known_insert; [cbn; tauto | assumption]]
  | |- keeps (mbind _ _) => apply keeps_bind; [|intros ?]
  | |- keeps _ => solve [auto with keeps]
  end.

Ltac keeps_all := repeat keeps_step.

Lemma keeps_getRequest (type : packet_type) : keeps (getRequest type).
Proof. unfold getRequest. keeps_all. Qed.

Lemma keeps_execute (request : SftpPacketWriter) (cb : callback) (p : parser)
    (info : SftpCommandInfo) :
  keeps (execute request cb p info).
Proof. unfold execute. keeps_all. Qed.

Lemma keeps_checkCallback (cb : option callback) : keeps (checkCallback cb).
Proof. unfold checkCallback. keeps_all. Qed.

Lemma keeps_toHandle (h : js_handle) : keeps (toHandle h).
Proof. unfold toHandle. keeps_all. Qed.

Lemma keeps_checkBuffer (buf : option buffer) (offset length : Z) :
  keeps (checkBuffer buf offset length).
Proof. unfold checkBuffer. keeps_all. Qed.

Lemma keeps_checkPath (pc : string -> string -> result string)
    (path name : string) :
  keeps (checkPath pc path name).
Proof. unfold checkPath. keeps_all. Qed.

Lemma keeps_checkPosition (position : Z) : keeps (checkPosition position).
Proof. unfold checkPosition. keeps_all. Qed.

Lemma keeps_writeStats (packet : SftpPacketWriter) (attrs : option IStats) :
  keeps (writeStats packet attrs).
Proof. unfold writeStats. keeps_all. Qed.

#[local] Hint Resolve keeps_getRequest keeps_execute keeps_checkCallback
  keeps_toHandle keeps_checkBuffer keeps_checkPath keeps_checkPosition
  keeps_writeStats : keeps.

Lemma keeps_command (cmd : command_arg) (args : list string) (cb : callback)
    (p : parser) (info : SftpCommandInfo) :
  keeps (command cmd args cb p info).
Proof. unfold command. keeps_all. Qed.

Lemma keeps_checkResponse (response : SftpPacketReader)
    (info : SftpCommandInfo) (expectedType : Z) (cb : callback) :
  keeps (checkResponse response info expectedType cb).
Proof. unfold checkResponse. keeps_all. Qed.

#[local] Hint Resolve keeps_command keeps_checkResponse : keeps.

Lemma keeps_read_extensions (fuel : nat) (response : SftpPacketReader) :
  keeps (read_extensions fuel response).
Proof.
  revert response.
  induction fuel as [|fuel IH]; intros response; cbn [read_extensions];
    keeps_all.
Qed.

#[local] Hint Resolve keeps_read_extensions : keeps.

Lemma keeps_run_parser (p : parser) (response : SftpPacketReader)
    (info : SftpCommandInfo) (cb : callback) :
  keeps (run_parser p response info cb).
Proof.
  destruct p; cbn [run_parser];
    unfold parseInit, parseStatus, parseAttribs, parseHandle, parsePath,
      parseItems, parseHash, parseData;
    keeps_all.
Qed.

Lemma keeps_fail_each (code : Z) (msg : string) (requests : list SftpRequest) :
  keeps (fail_each code msg requests).
Proof.
  induction requests as [|request requests IH]; cbn [fail_each]; keeps_all.
Qed.

#[local] Hint Resolve keeps_run_parser keeps_fail_each : keeps.

(** Every call on a session keeps the feature names known. *)
Lemma method_keeps (OVERWRITE : Z)
    (Path_check : string -> string -> result string) (m : M unit) :
  method OVERWRITE Path_check m -> keeps m.
Proof.
  destruct 1;
    unfold _init, _process, end_, failRequests, open, close, read, write,
      lstat, fstat, setstat, fsetstat, opendir, readdir, unlink, mkdir, rmdir,
      realpath, stat, rename, readlink, symlink, link, fcopy, fhash;
    keeps_all.
Qed.

(** On every reachable state the features are registered under the four
    names of [SftpFeature] that the handshake uses; in particular none is
    registered under "undefined". *)
Lemma reachable_features (OVERWRITE : Z)
    (Path_check : string -> string -> result string) (w : world) :
  reachable OVERWRITE Path_check w -> features_known (core w).
Proof.
  induction 1 as [sid | m w w' _ IH Hm Hrun | m msg w w' _ IH Hm Hrun
                  | w w' _ IH Hrun].
  - intros name [value Hvalue]. cbn in Hvalue.
    rewrite lookup_empty in Hvalue. discriminate Hvalue.
  - pose proof (method_keeps _ _ _ Hm w IH) as Hkeep.
    now rewrite Hrun in Hkeep.
  - pose proof (method_keeps _ _ _ Hm w IH) as Hkeep.
    now rewrite Hrun in Hkeep.
  - pose proof (keeps_run_ticks w IH) as Hkeep.
    now rewrite Hrun in Hkeep.
Qed.

Lemma reachable_no_undefined (OVERWRITE : Z)
    (Path_check : string -> string -> result string) (w : world) :
  reachable OVERWRITE Path_check w -> _features (core w) !! "undefined" = None.
Proof.
  intros Hw. apply reachable_features in Hw.
  destruct (_features (core w) !! "undefined") as [value|] eqn:E;
    [|reflexivity].
  destruct (Hw "undefined") as [H|[H|[H|[H|[]]]]]; [now exists value | | | |];
    discriminate H.
Qed.

(** *** Rename *)

Lemma checkPath_run (pc : string -> string -> result string)
    (path name p : string) (w : world) :
  pc path name = Return p -> checkPath pc path name w = Done (tilde p) w.
Proof.
  intros H. unfold checkPath. rewrite run_bind. unfold lift. now rewrite H.
Qed.

(** C9.  A call of [rename] with valid paths, a function as callback and
    flags that are neither 0 nor OVERWRITE returns normally having queued
    two deferred calls of the callback, the first from the [default] branch
    of the [switch], the second from [command] run with an undefined
    command; both carry an OP_UNSUPPORTED (ENOSYS, 35) error.  Nothing else
    changes: no request id is taken, nothing is sent, and the callback is
    not called before the deferred calls run, which then call it twice. *)
Theorem rename_unsupported_flags_twice (OVERWRITE : Z)
    (Path_check : string -> string -> result string) (w : world)
    (oldPath newPath p1 p2 : string) (flags : Z) (cb : callback) :
  reachable OVERWRITE Path_check w ->
  Path_check oldPath "oldPath" = Return p1 ->
  Path_check newPath "newPath" = Return p2 ->
  flags <> OVERWRITE -> flags <> 0 ->
  let info := rename_info (tilde p1) (tilde p2) flags in
  let e1 :=
    createError SftpStatusCode.OP_UNSUPPORTED "Unsupported rename flags" info in
  let e2 :=
    createError SftpStatusCode.OP_UNSUPPORTED "Operation not supported" info in
  let w' :=
    mkWorld (core w) (sent w) (closed w)
      (ticks w ++ [fail_with cb e1; fail_with cb e2]) (calls w) in
  rename OVERWRITE Path_check oldPath newPath flags (Some cb) w = Done tt w'
  /\ run_ticks w'
     = Done tt (mkWorld (core w) (sent w) (closed w) []
                  (calls w ++ ticks w ++ [fail_with cb e1; fail_with cb e2]))
  /\ (code e1 = "ENOSYS" /\ errno e1 = 35)
  /\ (code e2 = "ENOSYS" /\ errno e2 = 35).
Proof.
  intros Hw H1 H2 Hover Hzero info e1 e2 w'.
  pose proof (reachable_no_undefined _ _ _ Hw) as Hfeat.
  split; [|split; [reflexivity | split; split; reflexivity]].
  unfold rename. pass_callback.
  rewrite (run_done _ _ _ _ _ (checkPath_run _ _ _ _ _ H1)).
  rewrite (run_done _ _ _ _ _ (checkPath_run _ _ _ _ _ H2)).
  destruct (Z.eqb_spec flags OVERWRITE) as [|_]; [contradiction|].
  destruct (Z.eqb_spec flags 0) as [|_]; [contradiction|].
  rewrite !run_bind. cbn [nextTick mret M_ret].
  unfold command. rewrite run_bind. cbn [this core].
  rewrite Hfeat. cbn [mbind option_bind nextTick].
  subst w' e1 e2 info. unfold nextTick. cbn [core sent closed ticks calls].
  now rewrite <- app_assoc.
Qed.

Lemma rename_unsupported_flags_twice_witness :
  reachable 1 nonempty_path (new_world 1)
  /\ nonempty_path "a" "oldPath" = Return "a"
  /\ nonempty_path "b" "newPath" = Return "b"
  /\ 4 <> 1 /\ 4 <> 0
  /\ rename 1 nonempty_path "a" "b" 4 (Some 5%nat) (new_world 1)
     = Done tt
         (mkWorld (core (new_world 1)) [] []
            [fail_with 5%nat
               (createError SftpStatusCode.OP_UNSUPPORTED
                  "Unsupported rename flags" (rename_info "a" "b" 4));
             fail_with 5%nat
               (createError SftpStatusCode.OP_UNSUPPORTED
                  "Operation not supported" (rename_info "a" "b" 4))]
            []).
Proof.
  assert (Hover : 4 <> 1) by lia.
  assert (Hzero : 4 <> 0) by lia.
  repeat (split; [first [apply reachable_new | reflexivity | assumption]|]).
  exact (proj1 (rename_unsupported_flags_twice 1 nonempty_path (new_world 1)
                  "a" "b" "a" "b" 4 5%nat (reachable_new _ _ 1) eq_refl eq_refl
                  Hover Hzero)).
Defined.

(** *** Request ids *)

(** [getRequest] for anything but INIT: the request takes the current value
    of the counter as its id and the counter advances by one, wrapped to a
    signed 32-bit integer. *)
Lemma getRequest_next (w : world) (n : Z) (type : packet_type) :
  _id (core w) = Some n -> is_init type = false ->
  getRequest type w
  = Done (start (set_id (Some n)
                   (set_type type
                      (new_writer (_maxWriteBlockLength (core w) + 1024)))))
         (with_core (set_next_id (Some (Js.to_int32 (n + 1)))) w).
Proof.
  intros Hid Htype. unfold getRequest. rewrite run_bind. cbn [this].
  rewrite Hid. fold (is_init type). rewrite Htype.
  rewrite run_bind. unfold update. cbn [default mret M_ret].
  now rewrite JsFacts.land_all_ones.
Qed.

Lemma allocate_from (types : list packet_type) (w : world) (n : Z) :
  _id (core w) = Some (Js.to_int32 n) ->
  forallb (fun type => negb (is_init type)) types = true ->
  exists w',
    allocate types w
    = Done (map (fun k => Some (Js.to_int32 (n + Z.of_nat k)))
              (seq 0 (List.length types))) w'.
Proof.
  revert w n. induction types as [|type types IH]; intros w n Hid Htypes.
  - exists w. reflexivity.
  - cbn [forallb] in Htypes. apply andb_true_iff in Htypes as [Htype Htypes].
    apply negb_true_iff in Htype.
    cbn [allocate].
    rewrite (run_done _ _ _ _ _ (getRequest_next _ _ _ Hid Htype)).
    destruct (IH (with_core
                    (set_next_id (Some (Js.to_int32 (Js.to_int32 n + 1)))) w)
                (n + 1)) as [w' Hw'].
    { cbn. now rewrite JsFacts.to_int32_succ. }
    { exact Htypes. }
    exists w'. rewrite (run_done _ _ _ _ _ Hw').
    cbn [mret M_ret w_id start set_id].
    cbn [List.length seq map]. rewrite Z.add_0_r. do 2 f_equal.
    rewrite <- seq_shift, map_map. apply map_ext. intros k. do 2 f_equal. lia.
Qed.

Lemma init_new_world (sid : Z) (host : channel) (cb : callback) :
  _init host cb (new_world sid) = Done tt (handshake_sent sid host cb).
Proof. reflexivity. Qed.

Lemma is_init_false (type : packet_type) :
  type <> TypeNum SftpPacketType.INIT -> is_init type = false.
Proof.
  destruct type as [n|name]; [|reflexivity]. intros H. cbn.
  destruct (Z.eqb_spec n SftpPacketType.INIT); [congruence | reflexivity].
Qed.

(** C2, as stated, fails: the OPEN frame of the first [open] after [_init]
    carries request id 1, not 2. *)
Lemma first_request_id_counterexample :
  exists w,
    init_then_open (new_world 1) = Done tt w
    /\ sent w
       = [(0%nat, [0; 0; 0; 5; 1; 0; 0; 0; 3]);
          (0%nat, [0; 0; 0; 19; 3; 0; 0; 0; 1; 0; 0; 0; 2; 47; 97;
                   0; 0; 0; 1; 0; 0; 0; 0])]
    /\ (request_id <$> (snd <$> last (sent w))) = Some (Some 1)
    /\ (request_id <$> (snd <$> last (sent w))) <> Some (Some 2).
Proof.
  eexists. split; [vm_compute; reflexivity|].
  split; [reflexivity|]. split; [reflexivity | intros [=]].
Qed.

(** C2, amended.  On a new session the INIT request carries no id: it is
    parked under the [null] key and its frame [00 00 00 05 01 00 00 00 03]
    has no id field; it leaves the counter at 1.  Every later request takes
    the current counter as its id and advances the counter by one, wrapped
    to a signed 32-bit integer (so modulo 2^32, and without skipping 0): the
    k-th request after the handshake, counting from 0, carries id
    [to_int32 (1 + k)], the first one id 1. *)
Theorem request_ids_after_init (sid : Z) (host : channel) (cb : callback)
    (types : list packet_type) :
  Forall (fun type => type <> TypeNum SftpPacketType.INIT) types ->
  exists w1 w2,
    _init host cb (new_world sid) = Done tt w1
    /\ sent w1 = [(host, [0; 0; 0; 5; 1; 0; 0; 0; 3])]
    /\ _requests (core w1) !! None
       = Some (mkRequest cb (ParseInit host (info_of "init")) (info_of "init"))
    /\ _id (core w1) = Some 1
    /\ allocate types w1
       = Done (map (fun k => Some (Js.to_int32 (1 + Z.of_nat k)))
                 (seq 0 (List.length types))) w2
    /\ (forall z, int32 (Js.to_int32 z)
                  /\ Js.to_int32 z mod 2 ^ 32 = z mod 2 ^ 32).
Proof.
  intros Htypes.
  destruct (allocate_from types (handshake_sent sid host cb) 1) as [w2 Hw2].
  - reflexivity.
  - apply forallb_forall. intros type Hin.
    rewrite Forall_forall in Htypes. apply negb_true_iff, is_init_false, Htypes.
    now apply list_elem_of_In.
  - exists (handshake_sent sid host cb), w2.
    split; [apply init_new_world|]. split; [reflexivity|].
    split; [apply lookup_singleton_eq|]. split; [reflexivity|].
    split; [exact Hw2|].
    intros z. split; [apply JsFacts.to_int32_range | apply JsFacts.to_int32_congr].
Qed.

Lemma request_ids_after_init_witness :
  Forall (fun type => type <> TypeNum SftpPacketType.INIT)
    [TypeNum SftpPacketType.OPEN; TypeNum SftpPacketType.CLOSE]
  /\ exists w1 w2,
       _init 0%nat 0%nat (new_world 1) = Done tt w1
       /\ sent w1 = [(0%nat, [0; 0; 0; 5; 1; 0; 0; 0; 3])]
       /\ _requests (core w1) !! None
          = Some (mkRequest 0%nat (ParseInit 0%nat (info_of "init"))
                    (info_of "init"))
       /\ _id (core w1) = Some 1
       /\ allocate [TypeNum SftpPacketType.OPEN; TypeNum SftpPacketType.CLOSE] w1
          = Done [Some 1; Some 2] w2
       /\ (forall z, int32 (Js.to_int32 z)
                     /\ Js.to_int32 z mod 2 ^ 32 = z mod 2 ^ 32).
Proof.
  assert (H : Forall (fun type => type <> TypeNum SftpPacketType.INIT)
                [TypeNum SftpPacketType.OPEN; TypeNum SftpPacketType.CLOSE])
    by (repeat constructor; intros [=]).
  split; [exact H|].
  exact (request_ids_after_init 1 0%nat 0%nat _ H).
Defined.

(** *** The handshake *)

(** [contains] itself behaves as C1 says on the joined value. *)
Lemma contains_joined :
  SftpExtensions.contains "1,2" "1" = true
  /\ SftpExtensions.contains "1,2" "2" = true
  /\ SftpExtensions.contains "1,2" "3" = false.
Proof. repeat split. Qed.

(** C1 fails on the code.  After a handshake whose VERSION packet carries
    [hardlink@openssh.com] with "1" and then with "2", the value stored for
    that name is "2", the second value alone: the loop computes the joined
    value in [val] and then stores [value].  [contains] finds "2" in it and
    not "1", and the hard-link feature is not enabled. *)
Theorem handshake_stores_last_value :
  exists w,
    handshake (new_world 1) = Done tt w
    /\ _extensions (core w) !! SftpExtensions.HARDLINK
       = Some (SftpExtensions.ExtString "2")
    /\ SftpExtensions.contains
         (SftpExtensions.to_string
            (_extensions (core w) !! SftpExtensions.HARDLINK)) "1" = false
    /\ SftpExtensions.contains
         (SftpExtensions.to_string
            (_extensions (core w) !! SftpExtensions.HARDLINK)) "2" = true
    /\ _features (core w) !! "LINK" = None
    /\ calls w = [mkCall 0%nat None []].
Proof.
  eexists. split; [vm_compute; reflexivity|].
  repeat split.
Qed.

(** *** Teardown *)

(** [execute] on a session without a channel: the callback is deferred with
    a NO_CONNECTION error; the request is neither parked nor sent. *)
Lemma execute_detached (w : world) (request : SftpPacketWriter) (cb : callback)
    (p : parser) (info : SftpCommandInfo) :
  _host (core w) = None ->
  execute request cb p info w
  = Done tt (mkWorld (core w) (sent w) (closed w)
               (ticks w ++ [fail_with cb
                              (createError SftpStatusCode.NO_CONNECTION
                                 "Not connected" info)])
               (calls w)).
Proof.
  intros H. unfold execute. rewrite run_bind. cbn [this]. now rewrite H.
Qed.

Lemma fail_each_core (code : Z) (msg : string) (requests : list SftpRequest)
    (w : world) :
  exists w', fail_each code msg requests w = Done tt w'
             /\ core w' = core w /\ sent w' = sent w /\ ticks w' = ticks w
             /\ calls w'
                = calls w
                  ++ map (fun r => fail_with (req_callback r)
                                     (createError code msg (req_info r)))
                       requests.
Proof.
  revert w. induction requests as [|r requests IH]; intros w.
  - exists w. cbn. now rewrite app_nil_r.
  - cbn [fail_each]. rewrite run_bind. unfold invoke at 1.
    destruct (IH (mkWorld (core w) (sent w) (closed w) (ticks w)
                    (calls w ++ [fail_with (req_callback r)
                                   (createError code msg (req_info r))])))
      as (w' & Hrun & Hcore & Hsent & Hticks & Hcalls).
    exists w'. rewrite Hrun. repeat split; try assumption.
    rewrite Hcalls. cbn [calls map]. now rewrite <- app_assoc.
Qed.

Lemma end_run (w : world) :
  end_ w
  = fail_each SftpStatusCode.CONNECTION_LOST "Connection closed"
      (array_elements (_requests (core w)))
      (mkWorld
         (set_requests ∅
            (match _host (core w) with
             | Some _ => set_host None (core w)
             | None => core w
             end))
         (sent w)
         (match _host (core w) with
          | Some host => closed w ++ [(host, None)]
          | None => closed w
          end)
         (ticks w) (calls w)).
Proof.
  unfold end_, failRequests. rewrite run_bind. cbn [this].
  destruct (_host (core w)); reflexivity.
Qed.

(** [end] always returns, leaving the session detached and the table empty,
    after calling back the array elements of the table. *)
Lemma end_detaches (w : world) :
  exists w',
    end_ w = Done tt w'
    /\ _host (core w') = None
    /\ _requests (core w') = ∅
    /\ sent w' = sent w /\ ticks w' = ticks w
    /\ calls w'
       = calls w
         ++ map (fun r => fail_with (req_callback r)
                            (createError SftpStatusCode.CONNECTION_LOST
                               "Connection closed" (req_info r)))
              (array_elements (_requests (core w))).
Proof.
  rewrite end_run.
  match goal with
  | |- context [fail_each ?c ?m ?l ?w0] =>
    destruct (fail_each_core c m l w0)
      as (w' & -> & Hcore & Hsent & Hticks & Hcalls)
  end.
  exists w'. rewrite Hcore, Hsent, Hticks, Hcalls.
  cbn [core sent ticks calls]. repeat split.
  destruct (_host (core w)) eqn:E; [reflexivity | exact E].
Qed.

(** When every parked request is an array element, [forEach] visits each of
    them exactly once. *)
Lemma array_elements_all (requests : gmap (option Z) SftpRequest) :
  (forall key request,
     requests !! key = Some request -> is_Some (array_index key)) ->
  array_elements requests ≡ₚ (map_to_list requests).*2.
Proof.
  intros Hall. unfold array_elements.
  rewrite merge_sort_Permutation.
  assert (Hlist : forall e, e ∈ map_to_list requests -> is_Some (array_index e.1)).
  { intros [key request] Hin. apply elem_of_map_to_list in Hin. eauto. }
  induction (map_to_list requests) as [|[key request] l IH]; [reflexivity|].
  cbn [omap list_omap fmap list_fmap fst snd].
  destruct (Hlist (key, request)) as [k Hk]; [left|].
  cbn [fst] in Hk. rewrite Hk. cbn [mbind option_bind fmap list_fmap snd].
  constructor. apply IH. intros e He. apply Hlist. now right.
Qed.

(** C5 fails on the code.  A session whose handshake is in flight has one
    parked continuation, under the [null] id.  [end] closes the channel and
    empties the table, but its [forEach] visits array elements only: the
    parked callback (7 here) is never called, neither at once nor
    deferred. *)
Theorem end_skips_parked_handshake :
  exists w1 w2,
    _init 0%nat 7%nat (new_world 1) = Done tt w1
    /\ map_to_list (_requests (core w1))
       = [(None, mkRequest 7%nat (ParseInit 0%nat (info_of "init"))
                   (info_of "init"))]
    /\ end_ w1 = Done tt w2
    /\ _requests (core w2) = ∅
    /\ _host (core w2) = None
    /\ closed w2 = [(0%nat, None)]
    /\ calls w2 = []
    /\ ticks w2 = [].
Proof.
  eexists _, _. split; [apply init_new_world|].
  split; [vm_compute; reflexivity|].
  split; [vm_compute; reflexivity|].
  repeat split.
Qed.

End ClientFacts.

(** ** Zero-byte DATA and the retry of a read *)

Module ReadFacts.
Import Packet CodecSpec PacketFacts Client SessionSpec ClientFacts ReadSpec.

Section Retry.

Context (host : channel) (cb : callback) (h : buffer) (buf : option buffer)
  (offset pos : Z) (info : SftpCommandInfo).

Lemma finish_read_request (id capacity length : Z) :
  finish (read_request h pos id capacity length) = read_frame id h pos length.
Proof.
  unfold finish, read_request, read_frame, frame.
  cbn [append start set_id set_type new_writer w_type w_id w_bytes header_tail
       is_handshake default].
  change (SftpPacketType.READ =? SftpPacketType.INIT) with false.
  change (SftpPacketType.READ =? SftpPacketType.VERSION) with false.
  cbn [orb]. change (SftpPacketType.READ mod 256) with SftpPacketType.READ.
  cbn [app]. now rewrite <- !app_assoc.
Qed.

Lemma build_read_request (id capacity length : Z) :
  Z.of_nat (List.length h) + 25 <= capacity ->
  let w0 := start (set_id (Some id)
                     (set_type (TypeNum SftpPacketType.READ)
                        (new_writer capacity))) in
  let w1 := append (be 4 (Z.of_nat (List.length h)) ++ h) w0 in
  let w2 := append (be 8 pos) w1 in
  writeData h w0 = Return w1
  /\ writeInt64 pos w1 = Return w2
  /\ writeInt32 length w2 = Return (read_request h pos id capacity length).
Proof.
  intros Hfits w0 w1 w2. unfold writeData, writeInt64, writeInt32, read_request.
  assert (Hpos : position w0 = 9) by reflexivity.
  assert (Hcap : w_capacity w0 = capacity) by reflexivity.
  subst w1 w2. unfold w0 in *. clear w0.
  repeat split; apply write_raw_fits;
    rewrite ?capacity_append, ?position_append, Hpos, Hcap, ?length_app,
      ?length_be; lia.
Qed.

(** [parseData] on a zero-byte DATA response, at most four retries made so
    far: the READ is sent again, with length 0, and parked with one more
    retry. *)
Lemma parseData_retry (response : SftpPacketReader) (w : world)
    (id retries length : Z) :
  r_type response = Some SftpPacketType.DATA ->
  unread response (be 4 (Z.of_nat (List.length (@nil Z))) ++ []) ->
  _host (core w) = Some host ->
  _id (core w) = Some id ->
  _requests (core w) !! Some id = None ->
  Z.of_nat (List.length h) + 25 <= _maxWriteBlockLength (core w) + 1024 ->
  retries <= 4 -> 0 <= length ->
  parseData response info cb retries h buf offset length pos w
  = Done tt
      (mkWorld
         (set_requests
            (<[Some id := read_entry cb h buf offset pos info (retries + 1) 0]>
               (_requests (core w)))
            (set_bytesSent
               (_bytesSent (core w)
                + Z.of_nat (List.length (read_frame id h pos 0)))
               (set_next_id (Some (Js.to_int32 (id + 1))) (core w))))
         (sent w ++ [(host, read_frame id h pos 0)])
         (closed w) (ticks w) (calls w)).
Proof.
  intros Htype Hun Hhost Hid Hfree Hfits Hretries Hlength.
  unfold parseData, has_type. rewrite Htype.
  change (SftpPacketType.DATA =? SftpPacketType.STATUS) with false.
  rewrite run_bind. cbn [mret M_ret].
  rewrite run_bind. unfold lift at 1. rewrite (readData_empty _ Hun).
  cbn [List.length]. change (Z.of_nat 0) with 0.
  destruct (Z.gtb_spec 0 length) as [|_]; [lia|].
  change (0 =? 0) with true. cbn iota.
  destruct (Z.gtb_spec retries 4) as [|_]; [lia|].
  rewrite (run_done _ _ _ _ _
             (getRequest_next w id (TypeNum SftpPacketType.READ) Hid eq_refl)).
  cbv beta.
  destruct (build_read_request id _ 0 Hfits) as (E1 & E2 & E3).
  rewrite run_bind. unfold lift at 1. rewrite E1.
  rewrite run_bind. unfold lift at 1. rewrite E2.
  rewrite run_bind. unfold lift at 1. rewrite E3.
  unfold execute. rewrite run_bind. cbn [this core with_core set_next_id _host].
  rewrite Hhost. cbn [_requests set_next_id].
  change (w_id (read_request h pos id (_maxWriteBlockLength (core w) + 1024) 0))
    with (Some id).
  rewrite Hfree. rewrite finish_read_request.
  reflexivity.
Qed.

(** [parseData] on a zero-byte DATA response once more than four retries
    were made: the callback is called with the EIO error. *)
Lemma parseData_exhausted (response : SftpPacketReader) (w : world)
    (retries length : Z) :
  r_type response = Some SftpPacketType.DATA ->
  unread response (be 4 (Z.of_nat (List.length (@nil Z))) ++ []) ->
  4 < retries -> 0 <= length ->
  parseData response info cb retries h buf offset length pos w
  = Done tt
      (mkWorld (core w) (sent w) (closed w) (ticks w)
         (calls w
          ++ [mkCall cb (Some (SftpErr (eio info))) [VNull; VNumber 0]])).
Proof.
  intros Htype Hun Hretries Hlength.
  unfold parseData, has_type. rewrite Htype.
  change (SftpPacketType.DATA =? SftpPacketType.STATUS) with false.
  rewrite run_bind. cbn [mret M_ret].
  rewrite run_bind. unfold lift at 1. rewrite (readData_empty _ Hun).
  cbn [List.length]. change (Z.of_nat 0) with 0.
  destruct (Z.gtb_spec 0 length) as [|_]; [lia|].
  change (0 =? 0) with true. cbn iota.
  destruct (Z.gtb_spec retries 4) as [_|]; [|lia].
  reflexivity.
Qed.

(** [_process] once the frame is decoded and its request found. *)
Lemma process_run (packet : buffer) (w : world) (response : SftpPacketReader)
    (request : SftpRequest) :
  new_reader packet = Return response ->
  _requests (core w) !! r_id response = Some request ->
  _process packet w
  = run_parser (responseParser request) response (req_info request)
      (req_callback request)
      (with_core
         (fun c => set_requests (delete (r_id response) (_requests c)) c)
         (with_core
            (fun c => set_bytesReceived
                        (_bytesReceived c + Z.of_nat (List.length packet)) c)
            w)).
Proof.
  intros Hreader Hrequest. unfold _process.
  rewrite run_bind. cbn [update]. rewrite run_bind. unfold lift at 1.
  rewrite Hreader. rewrite run_bind.
  cbn [this core with_core _requests set_bytesReceived].
  rewrite Hrequest. rewrite run_bind. reflexivity.
Qed.

Lemma process_empty_retry (base : gmap (option Z) SftpRequest)
    (id retries length : Z) (w : world) :
  parked host cb h buf offset pos info base id retries length w ->
  int32 id ->
  base !! Some id = None ->
  base !! Some (next_id id) = None ->
  retries <= 4 -> 0 <= length ->
  exists w',
    _process (data_frame id []) w = Done tt w'
    /\ parked host cb h buf offset pos info base (next_id id) (retries + 1) 0 w'
    /\ sent w' = sent w ++ [(host, read_frame (next_id id) h pos 0)]
    /\ closed w' = closed w /\ ticks w' = ticks w /\ calls w' = calls w.
Proof.
  intros [Hhost Hnext Hreq Hfits] Hid Hfree Hfree' Hretries Hlength.
  destruct (new_reader_data id [] Hid)
    as (response & Hreader & Htype & Hrid & Hun).
  assert (Hlookup : _requests (core w) !! r_id response
                    = Some (read_entry cb h buf offset pos info retries length)).
  { rewrite Hrid, Hreq. apply lookup_insert_eq. }
  rewrite (process_run _ _ _ _ Hreader Hlookup).
  cbn [read_entry responseParser req_info req_callback run_parser].
  rewrite (parseData_retry response _ (next_id id) retries length Htype Hun).
  - eexists. split; [reflexivity|].
    split; [|repeat split].
    constructor; cbn [core with_core set_requests set_bytesSent set_next_id
                      set_bytesReceived _host _id _requests _maxWriteBlockLength].
    + exact Hhost.
    + reflexivity.
    + rewrite Hrid, Hreq. now rewrite delete_insert_eq, delete_id.
    + exact Hfits.
  - exact Hhost.
  - exact Hnext.
  - cbn [core with_core set_requests set_bytesReceived _requests].
    rewrite Hrid, Hreq. now rewrite delete_insert_eq, delete_id.
  - exact Hfits.
  - exact Hretries.
  - exact Hlength.
Qed.

Lemma process_empty_exhausted (base : gmap (option Z) SftpRequest)
    (id retries length : Z) (w : world) :
  parked host cb h buf offset pos info base id retries length w ->
  int32 id -> 4 < retries -> 0 <= length ->
  exists w',
    _process (data_frame id []) w = Done tt w'
    /\ _requests (core w') = delete (Some id) (_requests (core w))
    /\ sent w' = sent w /\ closed w' = closed w /\ ticks w' = ticks w
    /\ calls w'
       = calls w ++ [mkCall cb (Some (SftpErr (eio info))) [VNull; VNumber 0]].
Proof.
  intros [Hhost Hnext Hreq Hfits] Hid Hretries Hlength.
  destruct (new_reader_data id [] Hid)
    as (response & Hreader & Htype & Hrid & Hun).
  assert (Hlookup : _requests (core w) !! r_id response
                    = Some (read_entry cb h buf offset pos info retries length)).
  { rewrite Hrid, Hreq. apply lookup_insert_eq. }
  rewrite (process_run _ _ _ _ Hreader Hlookup).
  cbn [read_entry responseParser req_info req_callback run_parser].
  rewrite (parseData_exhausted response _ retries length Htype Hun Hretries
             Hlength).
  eexists. split; [reflexivity|].
  cbn [core with_core set_requests set_bytesReceived _requests sent closed
       ticks calls].
  rewrite Hrid. repeat split.
Qed.

(** [read] sends the READ request and parks its continuation. *)
Lemma read_parks (w : world) (tok : SftpHandle) (id length : Z) :
  _handle tok = h -> _this tok = _sessionId (core w) ->
  info = info_handle "read" (HandleToken tok) ->
  _host (core w) = Some host ->
  _id (core w) = Some id ->
  _requests (core w) !! Some id = None ->
  Z.of_nat (List.length h) + 25 <= _maxWriteBlockLength (core w) + 1024 ->
  buffer_ok buf offset length ->
  0 <= pos <= 0x7FFFFFFFFFFFFFFF ->
  exists w',
    read (HandleToken tok) buf offset length pos (Some cb) w = Done tt w'
    /\ parked host cb h buf offset pos info (_requests (core w)) id 0
         (clamp w length) w'
    /\ sent w' = sent w ++ [(host, read_frame id h pos (clamp w length))]
    /\ closed w' = closed w /\ ticks w' = ticks w /\ calls w' = calls w.
Proof.
  intros Hh Hthis Hinfo Hhost Hid Hfree Hfits Hbuf Hpos.
  unfold read. pass_callback.
  rewrite run_bind. unfold toHandle at 1. rewrite run_bind. cbn [this].
  rewrite Hthis, Z.eqb_refl. cbn [mret M_ret]. rewrite Hh.
  rewrite run_bind.
  assert (Hcheck : match buf with
                   | Some _ => checkBuffer buf offset length
                   | None => mret tt
                   end w = Done tt w).
  { unfold buffer_ok in Hbuf. destruct buf as [b|]; [|reflexivity].
    unfold checkBuffer. destruct Hbuf as (Ho & Hl & Hol).
    destruct (Z.ltb_spec offset 0); [lia|].
    destruct (Z.ltb_spec length 0); [lia|].
    destruct (Z.gtb_spec (offset + length) (Z.of_nat (List.length b))); [lia|].
    reflexivity. }
  rewrite Hcheck. rewrite run_bind. unfold checkPosition.
  destruct (Z.ltb_spec pos 0); [lia|].
  destruct (Z.gtb_spec pos MAX_POSITION); [unfold MAX_POSITION in *; lia|].
  cbn [orb mret M_ret]. rewrite run_bind. cbn [this].
  fold (clamp w length).
  rewrite (run_done _ _ _ _ _
             (getRequest_next w id (TypeNum SftpPacketType.READ) Hid eq_refl)).
  cbv beta.
  destruct (build_read_request id _ (clamp w length) Hfits) as (E1 & E2 & E3).
  rewrite run_bind. unfold lift at 1. rewrite E1.
  rewrite run_bind. unfold lift at 1. rewrite E2.
  rewrite run_bind. unfold lift at 1. rewrite E3.
  unfold execute. rewrite run_bind. cbn [this core with_core set_next_id _host].
  rewrite Hhost. cbn [_requests set_next_id].
  change (w_id (read_request h pos id (_maxWriteBlockLength (core w) + 1024)
                  (clamp w length)))
    with (Some id).
  rewrite Hfree. rewrite finish_read_request.
  eexists. split; [reflexivity|].
  split; [|repeat split].
  constructor; cbn [core with_core set_requests set_bytesSent set_next_id
                    _host _id _requests _maxWriteBlockLength].
  - exact Hhost.
  - reflexivity.
  - now rewrite <- Hinfo.
  - exact Hfits.
Qed.

Lemma next_id_int32 (id : Z) : int32 (next_id id).
Proof. apply JsFacts.to_int32_range. Qed.

(** [n] zero-byte replies in a row, while the guard [retries > 4] lets the
    read be sent again. *)
Lemma empty_replies_retry (n : nat) (base : gmap (option Z) SftpRequest)
    (id retries length : Z) (w : world) :
  parked host cb h buf offset pos info base id retries length w ->
  int32 id -> 0 <= length ->
  retries + Z.of_nat n <= 5 ->
  Forall (fun k => base !! Some k = None) (ids_from (S n) id) ->
  exists w',
    empty_replies (ids_from n id) w = Done tt w'
    /\ parked host cb h buf offset pos info base (last_id n id)
         (retries + Z.of_nat n) (match n with O => length | S _ => 0 end) w'
    /\ sent w'
       = sent w ++ map (fun k => (host, read_frame k h pos 0))
                     (ids_from n (next_id id))
    /\ closed w' = closed w /\ ticks w' = ticks w /\ calls w' = calls w.
Proof.
  revert id retries length w.
  induction n as [|n IH];
    intros id retries length w Hparked Hid Hlength Hretries Hfree.
  - exists w. cbn [ids_from empty_replies last_id map].
    rewrite Z.add_0_r, app_nil_r.
    split; [reflexivity|]. split; [exact Hparked|]. repeat split.
  - cbn [ids_from] in Hfree.
    apply Forall_cons in Hfree as [Hfree0 Hfree].
    pose proof Hfree as Hfree'. cbn [ids_from] in Hfree'.
    apply Forall_cons in Hfree' as [Hfree1 _].
    destruct (process_empty_retry base id retries length w Hparked Hid Hfree0
                Hfree1)
      as (w1 & Hrun1 & Hparked1 & Hsent1 & Hclosed1 & Hticks1 & Hcalls1);
      [lia | exact Hlength |].
    destruct (IH (next_id id) (retries + 1) 0 w1 Hparked1 (next_id_int32 id))
      as (w' & Hrun & Hparked' & Hsent & Hclosed & Hticks & Hcalls);
      [lia | lia | exact Hfree |].
    exists w'. cbn [ids_from empty_replies last_id].
    rewrite (run_done _ _ _ _ _ Hrun1), Hrun.
    split; [reflexivity|]. split.
    { replace (retries + Z.of_nat (S n)) with (retries + 1 + Z.of_nat n) by lia.
      destruct n; exact Hparked'. }
    rewrite Hsent, Hsent1, Hclosed, Hclosed1, Hticks, Hticks1, Hcalls, Hcalls1.
    cbn [map]. rewrite <- app_assoc. repeat split.
Qed.

End Retry.

(** C10.  Whenever a zero-byte DATA response makes [parseData] retry a read
    (the read is parked under [id] with at most four retries made, whatever
    length it asked for, and whatever the request counter [next] has come
    to since: other requests may have been issued and may be in flight),
    the READ request that is sent again, under the id [next], asks for 0
    bytes, and so will every later retry: the continuation is parked anew
    with length 0.  The frame ends with the four zero bytes of that
    length.  The slot of [next] must be free, or [execute] throws. *)
Theorem retry_reads_zero_bytes (host : channel) (cb : callback) (h : buffer)
    (buf : option buffer) (offset pos : Z) (info : SftpCommandInfo)
    (id next retries length : Z) (w : world) :
  _host (core w) = Some host ->
  _requests (core w) !! Some id
  = Some (mkRequest cb (ParseData retries h buf offset length pos) info) ->
  _id (core w) = Some next ->
  (next <> id -> _requests (core w) !! Some next = None) ->
  Z.of_nat (List.length h) + 25 <= _maxWriteBlockLength (core w) + 1024 ->
  int32 id -> retries <= 4 -> 0 <= length ->
  exists w',
    _process (data_frame id []) w = Done tt w'
    /\ sent w' = sent w ++ [(host, read_frame next h pos 0)]
    /\ _requests (core w') !! Some next
       = Some (mkRequest cb (ParseData (retries + 1) h buf offset 0 pos) info)
    /\ (exists front, read_frame next h pos 0 = front ++ [0; 0; 0; 0])
    /\ _host (core w') = Some host
    /\ _id (core w') = Some (next_id next)
    /\ calls w' = calls w.
Proof.
  intros Hhost Hreq Hnext Hfree Hfits Hid Hretries Hlength.
  destruct (new_reader_data id [] Hid)
    as (response & Hreader & Htype & Hrid & Hun).
  assert (Hlookup : _requests (core w) !! r_id response
                    = Some (mkRequest cb (ParseData retries h buf offset length
                                            pos) info))
    by (rewrite Hrid; exact Hreq).
  rewrite (process_run _ _ _ _ Hreader Hlookup).
  cbn [responseParser req_info req_callback run_parser].
  rewrite (parseData_retry host cb h buf offset pos info response _ next
             retries length Htype Hun).
  - eexists. split; [reflexivity|].
    cbn [core with_core set_requests set_bytesSent set_next_id
         set_bytesReceived _host _id _requests sent calls].
    split; [reflexivity|].
    split; [apply lookup_insert_eq|].
    split; [|split; [exact Hhost | split; reflexivity]].
    unfold read_frame, frame. eexists.
    change (be 4 0) with [0; 0; 0; 0].
    rewrite !app_assoc. reflexivity.
  - exact Hhost.
  - exact Hnext.
  - cbn [core with_core set_requests set_bytesReceived _requests].
    rewrite Hrid. destruct (Z.eq_dec next id) as [->|Hne].
    + apply lookup_delete_eq.
    + rewrite lookup_delete_ne by congruence. exact (Hfree Hne).
  - exact Hfits.
  - exact Hretries.
  - exact Hlength.
Qed.

Lemma retry_reads_zero_bytes_witness :
  (exists w',
     _process (data_frame 2 []) one_read_parked = Done tt w'
     /\ sent w' = sent one_read_parked ++ [(0%nat, read_frame 3 [171] 0 0)]
     /\ _requests (core w') !! Some 3
        = Some (mkRequest 1%nat (ParseData (0 + 1) [171] None 0 0 0)
                  (info_of "read"))
     /\ (exists front, read_frame 3 [171] 0 0 = front ++ [0; 0; 0; 0])
     /\ _host (core w') = Some 0%nat
     /\ _id (core w') = Some (next_id 3)
     /\ calls w' = calls one_read_parked)
  /\ (exists w',
        _process (data_frame 1 []) two_reads_parked = Done tt w'
        /\ sent w' = sent two_reads_parked ++ [(0%nat, read_frame 3 [171] 0 0)]
        /\ _requests (core w') !! Some 3
           = Some (mkRequest 1%nat (ParseData (0 + 1) [171] None 0 0 0)
                     (info_of "read"))
        /\ (exists front, read_frame 3 [171] 0 0 = front ++ [0; 0; 0; 0])
        /\ _host (core w') = Some 0%nat
        /\ _id (core w') = Some (next_id 3)
        /\ calls w' = calls two_reads_parked).
Proof.
  split.
  - refine (retry_reads_zero_bytes 0%nat 1%nat [171] None 0 0 (info_of "read")
              2 3 0 1024 one_read_parked eq_refl eq_refl eq_refl
              (fun _ => eq_refl) _ _ _ _);
      vm_compute; repeat split; congruence.
  - refine (retry_reads_zero_bytes 0%nat 1%nat [171] None 0 0 (info_of "read")
              1 3 0 1024 two_reads_parked eq_refl eq_refl eq_refl
              (fun _ => eq_refl) _ _ _ _);
      vm_compute; repeat split; congruence.
Defined.

(** C3, amended.  A read is issued on a bound session and every response
    to it is a zero-byte DATA packet.  The first five of them each make the
    engine send the READ again (retries 0 to 4 pass the guard [retries > 4]),
    without calling the callback; the sixth completes the callback with an
    error whose code is EIO and errno 55. *)
Theorem empty_data_retried_five_times (w : world) (host : channel)
    (tok : SftpHandle) (buf : option buffer) (offset length pos : Z)
    (cb : callback) (id : Z) :
  _host (core w) = Some host ->
  _id (core w) = Some id -> int32 id ->
  _this tok = _sessionId (core w) ->
  buffer_ok buf offset length -> 0 <= length ->
  0 <= _maxReadBlockLength (core w) ->
  0 <= pos <= 0x7FFFFFFFFFFFFFFF ->
  Z.of_nat (List.length (_handle tok)) + 25
  <= _maxWriteBlockLength (core w) + 1024 ->
  Forall (fun k => _requests (core w) !! Some k = None) (ids_from 6 id) ->
  let error := eio (info_handle "read" (HandleToken tok)) in
  exists w5 w6,
    (_ ← read (HandleToken tok) buf offset length pos (Some cb);
     empty_replies (ids_from 5 id)) w = Done tt w5
    /\ sent w5
       = sent w
         ++ (host, read_frame id (_handle tok) pos (clamp w length))
            :: map (fun k => (host, read_frame k (_handle tok) pos 0))
                 (ids_from 5 (next_id id))
    /\ calls w5 = calls w
    /\ _process (data_frame (last_id 5 id) []) w5 = Done tt w6
    /\ sent w6 = sent w5
    /\ calls w6
       = calls w ++ [mkCall cb (Some (SftpErr error)) [VNull; VNumber 0]]
    /\ code error = "EIO" /\ errno error = 55.
Proof.
  intros Hhost Hid Hint Hthis Hbuf Hlength Hmax Hpos Hfits Hfree error.
  pose proof Hfree as Hfree0. cbn [ids_from] in Hfree0.
  apply Forall_cons in Hfree0 as [Hfree0 _].
  destruct (read_parks host cb (_handle tok) buf offset pos
              (info_handle "read" (HandleToken tok)) w tok id length
              eq_refl Hthis eq_refl Hhost Hid Hfree0 Hfits Hbuf Hpos)
    as (w0 & Hrun0 & Hparked0 & Hsent0 & _ & _ & Hcalls0).
  assert (Hclamp : 0 <= clamp w length).
  { unfold clamp. destruct (length >? _maxReadBlockLength (core w)); lia. }
  destruct (empty_replies_retry host cb (_handle tok) buf offset pos
              (info_handle "read" (HandleToken tok)) 5 (_requests (core w)) id 0
              (clamp w length) w0 Hparked0 Hint Hclamp)
    as (w5 & Hrun5 & Hparked5 & Hsent5 & _ & _ & Hcalls5);
    [lia | exact Hfree |].
  destruct (process_empty_exhausted host cb (_handle tok) buf offset pos
              (info_handle "read" (HandleToken tok)) (_requests (core w))
              (last_id 5 id) (0 + Z.of_nat 5) 0 w5 Hparked5)
    as (w6 & Hrun6 & _ & Hsent6 & _ & _ & Hcalls6);
    [apply next_id_int32 | lia | lia |].
  exists w5, w6.
  rewrite (run_done _ _ _ _ _ Hrun0).
  split; [exact Hrun5|].
  split; [rewrite Hsent5, Hsent0, <- app_assoc; reflexivity|].
  split; [now rewrite Hcalls5|].
  split; [exact Hrun6|]. split; [exact Hsent6|].
  split; [now rewrite Hcalls6, Hcalls5, Hcalls0|].
  split; reflexivity.
Qed.

Lemma empty_data_retried_five_times_witness :
  exists w5 w6,
    (_ ← read (HandleToken token) None 0 1024 0 (Some 1%nat);
     empty_replies (ids_from 5 1)) (handshake_sent 1 0%nat 0%nat) = Done tt w5
    /\ sent w5
       = sent (handshake_sent 1 0%nat 0%nat)
         ++ (0%nat,
             read_frame 1 [171] 0 (clamp (handshake_sent 1 0%nat 0%nat) 1024))
            :: map (fun k => (0%nat, read_frame k [171] 0 0))
                 (ids_from 5 (next_id 1))
    /\ calls w5 = calls (handshake_sent 1 0%nat 0%nat)
    /\ _process (data_frame (last_id 5 1) []) w5 = Done tt w6
    /\ sent w6 = sent w5
    /\ calls w6
       = calls (handshake_sent 1 0%nat 0%nat)
         ++ [mkCall 1%nat
               (Some (SftpErr (eio (info_handle "read" (HandleToken token)))))
               [VNull; VNumber 0]]
    /\ code (eio (info_handle "read" (HandleToken token))) = "EIO"
    /\ errno (eio (info_handle "read" (HandleToken token))) = 55.
Proof.
  apply (empty_data_retried_five_times (handshake_sent 1 0%nat 0%nat) 0%nat
           token None 0 1024 0 1%nat 1).
  - reflexivity.
  - reflexivity.
  - unfold int32. lia.
  - reflexivity.
  - exact I.
  - lia.
  - vm_compute. discriminate.
  - lia.
  - vm_compute. discriminate.
  - repeat constructor.
Defined.

(** C3, as stated, fails: after [_init], a read of 1024 bytes and five
    zero-byte replies, the READ has been sent again five times, not at most
    four, and the callback has not been called. *)
Lemma fifth_retry_counterexample :
  exists w,
    five_empty_replies (new_world 1) = Done tt w
    /\ drop 2 (sent w)
       = map (fun k => (0%nat, read_frame k [171] 0 0)) [2; 3; 4; 5; 6]
    /\ ~ (List.length (drop 2 (sent w)) <= 4)%nat
    /\ calls w = [].
Proof.
  eexists. split; [vm_compute; reflexivity|].
  split; [reflexivity|]. split; [cbn; lia | reflexivity].
Qed.

End ReadFacts.

(** * Further properties *)

(** ** The flags translator, from bitmask to string and back *)

Module ModeFacts.
Import SftpOpenFlags SftpFlags ModeSpec.

Lemma canonical_ok_low (m : Z) : 0 <= m < 64 -> canonical_ok m = true.
Proof.
  intros Hm.
  assert (Hall : forallb canonical_ok (map Z.of_nat (seq 0 64)) = true)
    by (vm_compute; reflexivity).
  rewrite forallb_forall in Hall. apply Hall.
  apply in_map_iff. exists (Z.to_nat m). split; [lia | apply in_seq; lia].
Qed.

Lemma canonical_ok_mask (flags : Z) :
  canonical_ok flags = canonical_ok (flags mod 2 ^ 6).
Proof.
  unfold canonical_ok, fromNumber.
  now rewrite <- (SftpFlagsFacts.normalize_mask flags).
Qed.

Lemma accepted_sound (s : string) :
  accepted s = true -> exists m, toNumber (FlagsStr s) = Return m.
Proof.
  unfold accepted. destruct (toNumber (FlagsStr s)) as [m|msg] eqn:E;
    [intros _; now exists m | intros H; discriminate H].
Qed.

Lemma canonical_ok_sound (flags : Z) :
  canonical_ok flags = true ->
  exists first others m others',
    fromNumber flags = Return (first :: others)
    /\ Forall (fun s => exists k, toNumber (FlagsStr s) = Return k)
         (first :: others)
    /\ toNumber (FlagsStr first) = Return m
    /\ Z.land m (normalize flags) = normalize flags
    /\ fromNumber m = Return (first :: others').
Proof.
  unfold canonical_ok.
  destruct (fromNumber flags) as [[|first others]|] eqn:E;
    [intros H; discriminate H | | intros H; discriminate H].
  intros [Hall H]%andb_true_iff.
  destruct (toNumber (FlagsStr first)) as [m|] eqn:Em; [|discriminate H].
  apply andb_true_iff in H as [Hbits H]. apply Z.eqb_eq in Hbits.
  destruct (fromNumber m) as [[|again others']|] eqn:E';
    [discriminate H | | discriminate H].
  apply String.eqb_eq in H. subst again.
  exists first, others, m, others'.
  split; [reflexivity|]. split; [|repeat split; assumption].
  apply Forall_forall. intros s Hs. apply accepted_sound.
  rewrite forallb_forall in Hall. apply Hall. now apply list_elem_of_In.
Qed.

(** X1.  For every bitmask, [fromNumber] returns strings that [toNumber]
    all accepts; the first of them, converted back, asks for every bit of
    the normalized bitmask (it may add some: 10 gives "wx", which adds
    EXCL), and [fromNumber] of that bitmask starts with the same string
    again. *)
Theorem fromNumber_first_stable (flags : Z) :
  exists first others m others',
    fromNumber flags = Return (first :: others)
    /\ Forall (fun s => exists k, toNumber (FlagsStr s) = Return k)
         (first :: others)
    /\ toNumber (FlagsStr first) = Return m
    /\ Z.land m (normalize flags) = normalize flags
    /\ fromNumber m = Return (first :: others').
Proof.
  apply canonical_ok_sound. rewrite canonical_ok_mask.
  apply canonical_ok_low. pose proof (Z.mod_pos_bound flags (2 ^ 6)). lia.
Qed.

End ModeFacts.

(** ** Strings *)

Module StringFacts.

Lemma append_nil_l (s : string) : "" +:+ s = s.
Proof. reflexivity. Qed.

Lemma append_cons (c : ascii) (s t : string) :
  String c s +:+ t = String c (s +:+ t).
Proof. reflexivity. Qed.

Ltac unfold_append := rewrite ?append_cons, ?append_nil_l.
Ltac unfold_append_in H := rewrite ?append_cons, ?append_nil_l in H.

Lemma append_nil_r (s : string) : s +:+ "" = s.
Proof.
  induction s as [|c s IH]; unfold_append; [reflexivity | now rewrite IH].
Qed.

Lemma append_assoc (a b c : string) : (a +:+ b) +:+ c = a +:+ (b +:+ c).
Proof.
  induction a as [|x a IH]; unfold_append; [reflexivity | now rewrite IH].
Qed.

Lemma prefix_append (p t : string) :
  String.prefix p t = true <-> exists post, t = p +:+ post.
Proof.
  revert t. induction p as [|c p IH]; intros t.
  - split; [intros _; now exists t | intros _; destruct t; reflexivity].
  - destruct t as [|c' t]; cbn [String.prefix].
    + split; [intros H; discriminate H | intros [post H]; discriminate H].
    + destruct (ascii_dec c c') as [<-|Hne].
      * rewrite IH. split; intros [post H]; exists post; unfold_append;
          [now rewrite H | unfold_append_in H; now injection H].
      * split; [intros H; discriminate H|].
        intros [post H]. unfold_append_in H. injection H as H _. congruence.
Qed.

(** [t.indexOf(p) >= 0] says that [p] occurs in [t]. *)
Lemma index_occurs (p t : string) :
  p <> "" ->
  is_Some (String.index 0 p t) <-> exists pre post, t = pre +:+ p +:+ post.
Proof.
  intros Hp. induction t as [|c t IH].
  - cbn [String.index]. destruct p as [|k p]; [contradiction|]. split.
    + intros [n H]. discriminate H.
    + intros (pre & post & H). destruct pre; discriminate H.
  - cbn [String.index].
    destruct (String.prefix p (String c t)) eqn:E.
    + split; [intros _ | intros _; now eexists].
      apply prefix_append in E as [post E]. exists "", post. exact E.
    + split.
      * intros [n H]. destruct (String.index 0 p t) as [k|]; [|discriminate H].
        destruct IH as [IH _]. destruct IH as (pre & post & ->); [now eexists|].
        now exists (String c pre), post.
      * intros (pre & post & H). destruct pre as [|k pre].
        -- assert (String.prefix p (String c t) = true) as E'
             by (apply prefix_append; now exists post).
           congruence.
        -- unfold_append_in H. injection H as _ H.
           destruct IH as [_ IH]. destruct IH as [n Hn]; [now exists pre, post|].
           rewrite Hn. now eexists.
Qed.

End StringFacts.

(** ** The extension registry *)

Module ExtensionsFacts.
Import SftpExtensions ExtensionsSpec StringFacts.

Lemma contains_occurs (values value : string) :
  contains values value = true
  <-> exists pre post,
        "," +:+ values +:+ "," = pre +:+ ("," +:+ value +:+ ",") +:+ post.
Proof.
  unfold contains. rewrite <- index_occurs by discriminate.
  destruct (String.index 0 ("," +:+ value +:+ ",") ("," +:+ values +:+ ","))
    as [n|].
  - split; [intros _; now exists n | reflexivity].
  - split; [intros H; discriminate H | intros [n H]; discriminate H].
Qed.

Lemma delimited_join (items : list string) :
  items <> [] -> "," +:+ join items +:+ "," = delimited items.
Proof.
  induction items as [|item rest IH]; [contradiction|]. intros _.
  destruct rest as [|item' rest]; [reflexivity|].
  cbn [join delimited] in *. rewrite <- IH by discriminate.
  unfold_append. now rewrite !append_assoc.
Qed.

Lemma delimited_comma (items : list string) :
  exists rest, delimited items = String "," rest.
Proof. destruct items; cbn [delimited]; unfold_append; now eexists. Qed.

(** A comma-free string ends where the first comma stands. *)
Lemma comma_free_cut (a x pre y : string) :
  comma_free a = true ->
  a +:+ x = pre +:+ String "," y ->
  exists c, pre = a +:+ c /\ x = c +:+ String "," y.
Proof.
  revert pre. induction a as [|k a IH]; intros pre Ha H.
  - exists pre. split; [reflexivity | exact H].
  - cbn [comma_free] in Ha. apply andb_true_iff in Ha as [Hk Ha].
    destruct pre as [|k' pre]; unfold_append_in H; injection H as -> H.
    + discriminate Hk.
    + destruct (IH pre Ha H) as (c & -> & ->). now exists c.
Qed.

Lemma comma_free_append (a y : string) :
  comma_free (a +:+ String "," y) = false.
Proof.
  induction a as [|k a IH]; unfold_append; cbn [comma_free].
  - reflexivity.
  - rewrite IH. apply andb_false_r.
Qed.

Lemma comma_free_eq (a b x y : string) :
  comma_free a = true -> comma_free b = true ->
  a +:+ String "," x = b +:+ String "," y -> a = b.
Proof.
  intros Ha Hb H.
  destruct (comma_free_cut a _ b y Ha H) as (c & -> & Hc).
  destruct c as [|k c]; [now rewrite append_nil_r|].
  unfold_append_in Hc. injection Hc as <- _.
  rewrite comma_free_append in Hb. discriminate Hb.
Qed.

Lemma pattern_append (value post : string) :
  ("," +:+ value +:+ ",") +:+ post = String "," (value +:+ String "," post).
Proof. unfold_append. rewrite append_assoc. now unfold_append. Qed.

Lemma delimited_occurs (items : list string) (value : string) :
  Forall (fun item => comma_free item = true) items ->
  comma_free value = true ->
  (exists pre post, delimited items = pre +:+ ("," +:+ value +:+ ",") +:+ post)
  <-> In value items.
Proof.
  intros Hitems Hvalue. split.
  - intros (pre & post & H). rewrite pattern_append in H. revert pre H.
    induction Hitems as [|item rest Hitem Hrest IH]; intros pre H.
    + cbn [delimited] in H.
      destruct pre as [|k pre]; unfold_append_in H.
      * injection H as H. destruct value; discriminate H.
      * injection H as _ H. destruct pre; discriminate H.
    + cbn [delimited] in H. destruct (delimited_comma rest) as [tail Htail].
      unfold_append_in H.
      destruct pre as [|k pre]; unfold_append_in H.
      * injection H as H. left. rewrite Htail in H.
        exact (comma_free_eq item value _ _ Hitem Hvalue H).
      * injection H as _ H. right.
        destruct (comma_free_cut item _ pre _ Hitem H) as (c & -> & Hc).
        exact (IH c Hc).
  - intros Hin. clear Hitems Hvalue.
    induction items as [|item rest IH]; [contradiction|].
    destruct Hin as [->|Hin].
    + destruct (delimited_comma rest) as [tail Htail].
      exists "", tail. rewrite pattern_append. cbn [delimited]. rewrite Htail.
      now unfold_append.
    + destruct (IH Hin) as (pre & post & H).
      exists ("," +:+ item +:+ pre), post. cbn [delimited]. rewrite H.
      unfold_append. now rewrite !append_assoc.
Qed.

(** X2.  [contains] tests membership in a comma-separated list: for a
    non-empty list of comma-free items joined with commas, and a comma-free
    value, it answers whether the value is one of the items. *)
Theorem contains_member (items : list string) (value : string) :
  items <> [] ->
  Forall (fun item => comma_free item = true) items ->
  comma_free value = true ->
  contains (join items) value = true <-> In value items.
Proof.
  intros Hne Hitems Hvalue.
  rewrite contains_occurs, delimited_join by exact Hne.
  now apply delimited_occurs.
Qed.

Lemma contains_member_witness :
  ["1"; "2"] <> []
  /\ Forall (fun item => comma_free item = true) ["1"; "2"]
  /\ comma_free "2" = true
  /\ (contains (join ["1"; "2"]) "2" = true <-> In "2" ["1"; "2"]).
Proof.
  assert (Hitems : ["1"; "2"] <> []) by discriminate.
  assert (Hfree : Forall (fun item => comma_free item = true) ["1"; "2"])
    by (repeat (apply List.Forall_cons; [reflexivity|]); apply List.Forall_nil).
  repeat split; [exact Hitems|exact Hfree|..];
    apply (contains_member ["1"; "2"] "2" Hitems Hfree eq_refl).
Defined.

End ExtensionsFacts.

(** ** Strings and frames on the wire *)

Module WireFacts.
Import Packet CodecSpec PacketFacts ReplySpec.

Lemma length_bytes_of_string (s : string) :
  List.length (bytes_of_string s) = String.length s.
Proof.
  unfold bytes_of_string. rewrite length_map.
  induction s as [|c s IH]; [reflexivity | cbn; now rewrite IH].
Qed.

Lemma string_of_bytes_of_string (s : string) :
  string_of_bytes (bytes_of_string s) = s.
Proof.
  unfold string_of_bytes, bytes_of_string. rewrite map_map.
  rewrite (map_ext _ (fun a => a)).
  - rewrite map_id. apply string_of_list_ascii_of_string.
  - intros a. rewrite N2Z.id. apply ascii_N_embedding.
Qed.

Lemma read_prefixed_unread (r : SftpPacketReader) (data rest : buffer) :
  Z.of_nat (List.length data) < 2 ^ 32 ->
  unread r (be 4 (Z.of_nat (List.length data)) ++ data ++ rest) ->
  read_prefixed r
  = Return (data, advance (List.length data) (advance 4 r))
  /\ unread (advance (List.length data) (advance 4 r)) rest.
Proof.
  intros Hlen Hun. unfold read_prefixed.
  destruct (readUint32_unread _ _ _ Hun) as [-> Hun1]. cbn [mbind result_bind].
  rewrite Z.mod_small by lia. rewrite Nat2Z.id.
  exact (read_raw_unread _ _ _ Hun1).
Qed.

Lemma readString_unread (r : SftpPacketReader) (s : string) (rest : buffer) :
  Z.of_nat (String.length s) < 2 ^ 32 ->
  unread r (wire_string s ++ rest) ->
  readString r
  = Return (s, advance (String.length s) (advance 4 r))
  /\ unread (advance (String.length s) (advance 4 r)) rest.
Proof.
  intros Hlen Hun. unfold wire_string in Hun.
  rewrite <- length_bytes_of_string in Hlen, Hun |- *.
  rewrite <- app_assoc in Hun.
  destruct (read_prefixed_unread _ _ _ Hlen Hun) as [E Hun1].
  unfold readString. rewrite E. cbn [mbind result_bind].
  now rewrite string_of_bytes_of_string.
Qed.

(** Decoding the header of a reply. *)
Lemma new_reader_reply (type id : Z) (body : buffer) :
  0 <= type < 256 -> is_handshake (TypeNum type) = false -> int32 id ->
  exists response,
    new_reader (reply_frame type id body) = Return response
    /\ r_type response = Some type
    /\ r_id response = Some id
    /\ unread response body.
Proof.
  intros Htype Hhs Hid. unfold new_reader, reply_frame, frame.
  match goal with
  | |- context [mkReader None None ?b 0] =>
    pose proof (unread_fresh None None b) as Hun
  end.
  destruct (readUint32_unread _ _ _ Hun) as [-> Hun1]. cbn [mbind result_bind].
  rewrite <- ?app_assoc in Hun1.
  destruct (readByte_unread _ _ _ Hun1) as [-> Hun2]. cbn [mbind result_bind].
  rewrite Hhs.
  destruct (readInt32_unread _ _ _ Hun2) as [-> Hun3]. cbn [mbind result_bind].
  rewrite signed32_mod by exact Hid.
  eexists. split; [reflexivity|]. split; [reflexivity|]. split; [reflexivity|].
  exact Hun3.
Qed.

(** Decoding the header of a VERSION packet: it has no request id. *)
Lemma new_reader_version (version : Z) (extensions : buffer) :
  exists response,
    new_reader (version_frame version extensions) = Return response
    /\ r_type response = Some SftpPacketType.VERSION
    /\ r_id response = None
    /\ unread response (be 4 version ++ extensions).
Proof.
  unfold new_reader, version_frame, frame.
  match goal with
  | |- context [mkReader None None ?b 0] =>
    pose proof (unread_fresh None None b) as Hun
  end.
  destruct (readUint32_unread _ _ _ Hun) as [-> Hun1]. cbn [mbind result_bind].
  rewrite <- ?app_assoc in Hun1.
  destruct (readByte_unread _ _ _ Hun1) as [-> Hun2]. cbn [mbind result_bind].
  change (is_handshake (TypeNum SftpPacketType.VERSION)) with true. cbn iota.
  eexists. split; [reflexivity|]. split; [reflexivity|]. split; [reflexivity|].
  exact Hun2.
Qed.

(** The frame that [SftpStatus.write] and [finish] produce. *)
Lemma status_reply_frame (capacity id code : Z) (message : string) :
  21 + Z.of_nat (String.length message) <= capacity ->
  status_reply capacity id code message
  = Return (reply_frame SftpPacketType.STATUS id
              (be 4 code ++ wire_string message ++ be 4 0)).
Proof.
  intros Hcap. unfold status_reply, SftpStatus.write, writeInt32, writeString.
  cbv zeta.
  set (w0 := start (set_type (TypeNum SftpPacketType.STATUS)
                      (set_id (Some id) (new_writer capacity)))).
  assert (Hpos : position w0 = 9) by reflexivity.
  assert (Hc : w_capacity w0 = capacity) by reflexivity.
  rewrite write_raw_fits by (rewrite Hpos, Hc, length_be; lia).
  cbn [mbind result_bind].
  rewrite write_raw_fits
    by (rewrite capacity_append, position_append, Hpos, Hc, length_app,
          !length_be, length_bytes_of_string; lia).
  cbn [mbind result_bind].
  rewrite write_raw_fits
    by (rewrite !capacity_append, !position_append, Hpos, Hc, length_app,
          !length_be, length_bytes_of_string; lia).
  cbn [mbind result_bind]. unfold finish, reply_frame, frame, wire_string.
  cbn [append w_type w_id w_bytes w0 start set_type set_id new_writer
       header_tail default].
  change (is_handshake (TypeNum SftpPacketType.STATUS)) with false.
  cbn iota. change (SftpPacketType.STATUS mod 256) with SftpPacketType.STATUS.
  cbn [app]. now rewrite <- !app_assoc.
Qed.

End WireFacts.

(** ** What the methods keep *)

Module InvariantFacts.
Import Packet CodecSpec PacketFacts Client SessionSpec ClientFacts InvariantSpec.

Section Preserved.

Context (P : world -> Prop).

Lemma preserved_ret {A} (a : A) : preserved P (mret a).
Proof. intros w H. exact H. Qed.

Lemma preserved_throw {A} (msg : string) : preserved P (@throw A msg).
Proof. intros w H. exact H. Qed.

Lemma preserved_this : preserved P this.
Proof. intros w H. exact H. Qed.

Lemma preserved_lift {A} (r : result A) : preserved P (lift r).
Proof. intros w H. unfold lift. destruct r; exact H. Qed.

Lemma preserved_bind {A B} (m : M A) (k : A -> M B) :
  preserved P m -> (forall a, preserved P (k a)) -> preserved P (m ≫= k).
Proof.
  intros Hm Hk w H. rewrite run_bind. specialize (Hm w H).
  destruct (m w) as [a w'|msg w']; [apply Hk, Hm | exact Hm].
Qed.

End Preserved.

Create HintDb preserved discriminated.

#[export] Hint Resolve preserved_ret preserved_throw preserved_this
  preserved_lift : preserved.

Ltac world_simpl :=
  cbn [core sent closed ticks calls with_core send close_host nextTick invoke
       update _sessionId _host _id _requests _ready _extensions _features
       _maxReadBlockLength _maxWriteBlockLength _bytesReceived _bytesSent
       set_host set_next_id set_requests set_ready set_extensions set_features
       set_bytesReceived set_bytesSent] in *.

(** A primitive step that does not touch what the property is about. *)
Ltac untouched :=
  let w := fresh "w" in
  let H := fresh "H" in
  intros w H;
  unfold calls_are, detached, sent_accounted, requests_are in *;
  world_simpl; exact H.

Ltac preserved_step :=
  cbv beta zeta;
  match goal with
  | |- preserved _ (match ?x with _ => _ end) => destruct x
  | |- preserved _ (mbind _ _) => apply preserved_bind; [|intros ?]
  | |- preserved _ _ => solve [auto with preserved]
  | |- preserved _ _ => solve [untouched]
  end.

Ltac preserved_all := repeat preserved_step.

Ltac unfold_helpers :=
  unfold checkCallback, toHandle, checkBuffer, checkPath, checkPosition,
    writeStats, command, getRequest.

Ltac unfold_operations :=
  unfold open, close, read, write, lstat, fstat, setstat, fsetstat, opendir,
    readdir, unlink, mkdir, rmdir, realpath, stat, rename, readlink, symlink,
    link, fcopy, fhash.

(** *** Callbacks are never called from within an operation *)

Lemma execute_calls (c : list invocation) (request : SftpPacketWriter)
    (cb : callback) (p : parser) (info : SftpCommandInfo) :
  preserved (calls_are c) (execute request cb p info).
Proof. unfold execute. preserved_all. Qed.

#[export] Hint Resolve execute_calls : preserved.

(** X3.  No operation of the file system interface calls a callback before
    it returns: whatever the arguments and the state, and whether the
    operation returns or throws, the callbacks invoked are those invoked
    before.  Results and errors reach the caller from the event loop or
    from a later response only. *)
Theorem operation_defers_callbacks (OVERWRITE : Z)
    (Path_check : string -> string -> result string) (m : M unit) (w : world) :
  operation OVERWRITE Path_check m ->
  match m w with
  | Done _ w' | Raise _ w' => calls w' = calls w
  end.
Proof.
  intros Hm.
  assert (H : preserved (calls_are (calls w)) m).
  { destruct Hm; unfold_operations; unfold_helpers; preserved_all. }
  exact (H w eq_refl).
Qed.

Lemma operation_defers_callbacks_witness :
  match read (HandleToken token) None 0 1024 0 (Some 1%nat)
          (handshake_sent 1 0%nat 0%nat) with
  | Done _ w' | Raise _ w' => calls w' = calls (handshake_sent 1 0%nat 0%nat)
  end.
Proof.
  exact (operation_defers_callbacks 1 nonempty_path _
           (handshake_sent 1 0%nat 0%nat)
           (op_read 1 nonempty_path (HandleToken token) None 0 1024 0
              (Some 1%nat))).
Defined.

(** *** A detached session *)

Lemma execute_detached_keeps (s : list (channel * buffer))
    (r : gmap (option Z) SftpRequest) (request : SftpPacketWriter)
    (cb : callback) (p : parser) (info : SftpCommandInfo) :
  preserved (detached s r) (execute request cb p info).
Proof.
  intros w (Hhost & Hsent & Hreq).
  rewrite (execute_detached _ _ _ _ _ Hhost). now repeat split.
Qed.

#[export] Hint Resolve execute_detached_keeps : preserved.

(** X4.  A session that is not bound to a channel (before [_init], after
    [end]) never sends or parks anything: every operation leaves it
    detached, with the same frames sent and the same table. *)
Theorem detached_operation_is_quiet (OVERWRITE : Z)
    (Path_check : string -> string -> result string) (m : M unit) (w : world) :
  operation OVERWRITE Path_check m ->
  _host (core w) = None ->
  match m w with
  | Done _ w' | Raise _ w' =>
    _host (core w') = None /\ sent w' = sent w
    /\ _requests (core w') = _requests (core w)
  end.
Proof.
  intros Hm Hhost.
  assert (H : preserved (detached (sent w) (_requests (core w))) m).
  { destruct Hm; unfold_operations; unfold_helpers; preserved_all. }
  exact (H w (conj Hhost (conj eq_refl eq_refl))).
Qed.

Lemma detached_operation_is_quiet_witness :
  match fstat (HandleToken token) (Some 1%nat) (new_world 1) with
  | Done _ w' | Raise _ w' =>
    _host (core w') = None /\ sent w' = sent (new_world 1)
    /\ _requests (core w') = _requests (core (new_world 1))
  end.
Proof.
  exact (detached_operation_is_quiet 1 nonempty_path _ (new_world 1)
           (op_fstat 1 nonempty_path (HandleToken token) (Some 1%nat))
           eq_refl).
Defined.

(** *** The count of bytes sent *)

Lemma bytes_out_app (frames : list (channel * buffer)) (host : channel)
    (packet : buffer) :
  bytes_out (frames ++ [(host, packet)])
  = bytes_out frames + Z.of_nat (List.length packet).
Proof.
  unfold bytes_out. induction frames as [|f frames IH]; cbn [fold_right app].
  - cbn. lia.
  - rewrite IH. lia.
Qed.

Lemma execute_accounted (request : SftpPacketWriter) (cb : callback)
    (p : parser) (info : SftpCommandInfo) :
  preserved sent_accounted (execute request cb p info).
Proof.
  intros w H. unfold execute. rewrite run_bind. cbn [this].
  destruct (_host (core w)) as [host|]; [|exact H].
  destruct (_requests (core w) !! w_id request); [exact H|].
  unfold sent_accounted in *. repeat (rewrite run_bind; world_simpl).
  rewrite bytes_out_app, H. reflexivity.
Qed.

#[export] Hint Resolve execute_accounted : preserved.

Lemma read_extensions_accounted (fuel : nat) (response : SftpPacketReader) :
  preserved sent_accounted (read_extensions fuel response).
Proof.
  revert response.
  induction fuel as [|fuel IH]; intros response; cbn [read_extensions];
    preserved_all.
Qed.

Lemma fail_each_accounted (code : Z) (msg : string)
    (requests : list SftpRequest) :
  preserved sent_accounted (fail_each code msg requests).
Proof.
  induction requests as [|request requests IH]; cbn [fail_each];
    preserved_all.
Qed.

#[export] Hint Resolve read_extensions_accounted fail_each_accounted : preserved.

Lemma method_accounted (OVERWRITE : Z)
    (Path_check : string -> string -> result string) (m : M unit) :
  method OVERWRITE Path_check m -> preserved sent_accounted m.
Proof.
  destruct 1;
    unfold _init, _process, end_, failRequests; unfold_operations;
    unfold_helpers;
    try (destruct (responseParser _));
    preserved_all.
  all: unfold run_parser, parseInit, parseStatus, parseAttribs, parseHandle,
         parsePath, parseItems, parseHash, parseData, checkResponse;
       unfold_helpers; preserved_all.
Qed.

(** X5.  In every reachable state of a session, [_bytesSent] is the total
    length of the frames handed to the channel: every frame is counted,
    once, and nothing else is. *)
Theorem bytes_sent_accounted (OVERWRITE : Z)
    (Path_check : string -> string -> result string) (w : world) :
  reachable OVERWRITE Path_check w ->
  _bytesSent (core w) = bytes_out (sent w).
Proof.
  induction 1 as [sid | m w w' _ IH Hm Hrun | m msg w w' _ IH Hm Hrun
                  | w w' _ IH Hrun].
  - reflexivity.
  - pose proof (method_accounted _ _ _ Hm w IH) as Hkeep.
    now rewrite Hrun in Hkeep.
  - pose proof (method_accounted _ _ _ Hm w IH) as Hkeep.
    now rewrite Hrun in Hkeep.
  - injection Hrun as <-. exact IH.
Qed.

Lemma bytes_sent_accounted_witness :
  reachable 1 nonempty_path (handshake_sent 1 0%nat 0%nat)
  /\ _bytesSent (core (handshake_sent 1 0%nat 0%nat))
     = bytes_out (sent (handshake_sent 1 0%nat 0%nat)).
Proof.
  assert (H : reachable 1 nonempty_path (handshake_sent 1 0%nat 0%nat)).
  { exact (reachable_done _ _ _ _ _ (reachable_new _ _ 1)
             (method_init _ _ 0%nat 0%nat) (init_new_world 1 0%nat 0%nat)). }
  split; [exact H|].
  exact (bytes_sent_accounted 1 nonempty_path (handshake_sent 1 0%nat 0%nat) H).
Defined.

End InvariantFacts.

(** ** Responses *)

Module ResponseFacts.
Import Packet CodecSpec PacketFacts Client SessionSpec ClientFacts.
Import InvariantSpec InvariantFacts ReplySpec WireFacts.

Lemma process_taken (packet : buffer) (w : world) (response : SftpPacketReader)
    (request : SftpRequest) :
  new_reader packet = Return response ->
  _requests (core w) !! r_id response = Some request ->
  _process packet w
  = run_parser (responseParser request) response (req_info request)
      (req_callback request) (taken (r_id response) packet w).
Proof. exact (ReadFacts.process_run packet w response request). Qed.

Lemma run_lift {A B} (r : result A) (k : A -> M B) (w : world) :
  (lift r ≫= k) w
  = match r with
    | Return a => k a w
    | Throw msg => Raise msg w
    end.
Proof. now destruct r. Qed.

(** *** Every response is dispatched once *)

Lemma read_extensions_table (r : gmap (option Z) SftpRequest) (fuel : nat)
    (response : SftpPacketReader) :
  preserved (requests_are r) (read_extensions fuel response).
Proof.
  revert response.
  induction fuel as [|fuel IH]; intros response; cbn [read_extensions];
    preserved_all.
Qed.

#[export] Hint Resolve read_extensions_table : preserved.

Lemma one_shot_table (r : gmap (option Z) SftpRequest) (p : parser)
    (response : SftpPacketReader) (info : SftpCommandInfo) (cb : callback) :
  one_shot p = true -> preserved (requests_are r) (run_parser p response info cb).
Proof.
  destruct p; intros Hp; try discriminate Hp; cbn [run_parser];
    unfold parseInit, parseStatus, parseAttribs, parseHandle, parsePath,
      parseItems, parseHash, checkResponse;
    preserved_all.
Qed.

Lemma process_unknown (packet : buffer) (w : world)
    (response : SftpPacketReader) :
  new_reader packet = Return response ->
  _requests (core w) !! r_id response = None ->
  _process packet w
  = Raise "Unknown response ID"
      (with_core
         (fun c => set_bytesReceived
                     (_bytesReceived c + Z.of_nat (List.length packet)) c)
         w).
Proof.
  intros Hreader Hnone. unfold _process.
  rewrite run_bind. cbn [update]. rewrite run_bind. unfold lift at 1.
  rewrite Hreader. rewrite run_bind.
  cbn [this core with_core _requests set_bytesReceived].
  now rewrite Hnone.
Qed.

(** X6.  A response is dispatched at most once.  When a packet arrives for
    a parked request (any but a read, which may park itself again), the
    request is taken out of the table before its parser runs, and stays
    out whether the parser returns or throws; the same packet delivered
    again throws "Unknown response ID" and calls no callback. *)
Theorem response_dispatched_once (packet : buffer) (w : world)
    (response : SftpPacketReader) (request : SftpRequest) :
  new_reader packet = Return response ->
  _requests (core w) !! r_id response = Some request ->
  one_shot (responseParser request) = true ->
  match _process packet w with
  | Done _ w' | Raise _ w' =>
    _requests (core w') = delete (r_id response) (_requests (core w))
    /\ exists w'',
         _process packet w' = Raise "Unknown response ID" w''
         /\ calls w'' = calls w'
  end.
Proof.
  intros Hreader Hrequest Hp.
  rewrite (process_taken _ _ _ _ Hreader Hrequest).
  pose proof (one_shot_table (delete (r_id response) (_requests (core w)))
                _ response (req_info request) (req_callback request) Hp
                (taken (r_id response) packet w) eq_refl) as Hkeep.
  destruct (run_parser _ _ _ _ _) as [[] w'|msg w'];
    unfold requests_are in Hkeep;
    (split; [exact Hkeep|]);
    (eexists; split;
     [apply (process_unknown _ _ _ Hreader); rewrite Hkeep;
      apply lookup_delete_eq
     | reflexivity]).
Qed.

Lemma response_dispatched_once_witness :
  match
    _process (reply_frame SftpPacketType.STATUS 1 (be 4 0 ++ wire_string "OK"))
      (awaiting ParseStatus)
  with
  | Done _ w' | Raise _ w' =>
    _requests (core w')
    = delete (Some 1) (_requests (core (awaiting ParseStatus)))
    /\ exists w'',
         _process
           (reply_frame SftpPacketType.STATUS 1 (be 4 0 ++ wire_string "OK")) w'
         = Raise "Unknown response ID" w''
         /\ calls w'' = calls w'
  end.
Proof.
  exact (response_dispatched_once
           (reply_frame SftpPacketType.STATUS 1 (be 4 0 ++ wire_string "OK"))
           (awaiting ParseStatus)
           (mkReader (Some SftpPacketType.STATUS) (Some 1)
              (reply_frame SftpPacketType.STATUS 1 (be 4 0 ++ wire_string "OK"))
              9)
           (mkRequest 1%nat ParseStatus (info_of "request"))
           eq_refl eq_refl eq_refl).
Defined.

(** *** STATUS replies *)

Lemma nativeCode_createError (code : Z) (message : string)
    (info : SftpCommandInfo) :
  nativeCode (createError code message info) = code.
Proof.
  unfold createError.
  repeat match goal with
  | |- context [if ?b then _ else _] => destruct b
  end; reflexivity.
Qed.

Lemma readStatus_unread (response : SftpPacketReader) (info : SftpCommandInfo)
    (code : Z) (message : string) (rest : buffer) :
  int32 code -> Z.of_nat (String.length message) < 2 ^ 32 ->
  unread response (be 4 code ++ wire_string message ++ rest) ->
  exists response',
    readStatus response info
    = Return (if code =? SftpStatusCode.OK then None
              else Some (createError code message info), response')
    /\ unread response' rest
    /\ r_type response' = r_type response.
Proof.
  intros Hcode Hlen Hun. unfold readStatus.
  destruct (readInt32_unread _ _ _ Hun) as [-> Hun1]. cbn [mbind result_bind].
  destruct (readString_unread _ _ _ Hlen Hun1) as [-> Hun2].
  cbn [mbind result_bind]. rewrite signed32_mod by exact Hcode.
  eexists. split; [|split; [exact Hun2 | reflexivity]].
  now destruct (code =? SftpStatusCode.OK).
Qed.

Section Status.

Context (w : world) (id code : Z) (message : string) (capacity : Z)
  (request : SftpRequest).

Hypothesis Hparked : _requests (core w) !! Some id = Some request.
Hypothesis Hid : int32 id.
Hypothesis Hcode : int32 code.
Hypothesis Hmessage : Z.of_nat (String.length message) < 2 ^ 32.
Hypothesis Hcapacity : 21 + Z.of_nat (String.length message) <= capacity.

Let packet : buffer :=
  reply_frame SftpPacketType.STATUS id
    (be 4 code ++ wire_string message ++ be 4 0).

Lemma status_dispatch :
  exists response response',
    status_reply capacity id code message = Return packet
    /\ _process packet w
       = run_parser (responseParser request) response (req_info request)
           (req_callback request) (taken (Some id) packet w)
    /\ r_type response = Some SftpPacketType.STATUS
    /\ readStatus response (req_info request)
       = Return (if code =? SftpStatusCode.OK then None
                 else Some (createError code message (req_info request)),
                 response')
    /\ r_type response' = Some SftpPacketType.STATUS
    /\ unread response' (be 4 0).
Proof.
  destruct (new_reader_reply SftpPacketType.STATUS id
              (be 4 code ++ wire_string message ++ be 4 0))
    as (response & Hreader & Htype & Hrid & Hun);
    [unfold SftpPacketType.STATUS; lia | reflexivity | exact Hid |].
  rewrite <- (app_nil_r (be 4 0)) in Hun. rewrite !app_assoc in Hun.
  rewrite <- !app_assoc in Hun.
  destruct (readStatus_unread response (req_info request) code message _
              Hcode Hmessage Hun) as (response' & Hstatus & Hun' & Htype').
  exists response, response'.
  split; [exact (status_reply_frame _ _ _ _ Hcapacity)|].
  split.
  { rewrite <- Hrid. apply process_taken; [exact Hreader|].
    rewrite Hrid. exact Hparked. }
  split; [exact Htype|]. split; [exact Hstatus|].
  split; [now rewrite Htype' | now rewrite app_nil_r in Hun'].
Qed.

End Status.

Ltac run_status Htype Hstatus :=
  unfold checkResponse, has_type; rewrite Htype;
  change (SftpPacketType.STATUS =? SftpPacketType.STATUS) with true;
  cbn iota; rewrite !run_bind; unfold lift at 1; rewrite Hstatus;
  cbn [mbind M_bind mret M_ret invoke].

(** X7.  An error status completes the caller, whatever the operation: when
    the server answers a parked request with the STATUS reply that
    [SftpStatus.write] builds for a code other than OK (and other than EOF
    for a read or a directory listing), [_process] calls the request's
    callback once, with the error that [createError] makes of the code,
    the message and the command's info, takes the request out of the table
    and sends nothing. *)
Theorem error_status_completes (w : world) (id code : Z) (message : string)
    (capacity : Z) (request : SftpRequest) :
  _requests (core w) !! Some id = Some request ->
  of_operation (responseParser request) = true ->
  int32 id -> int32 code ->
  code <> SftpStatusCode.OK ->
  (reads_to_end (responseParser request) = true -> code <> SftpStatusCode.EOF) ->
  Z.of_nat (String.length message) < 2 ^ 32 ->
  21 + Z.of_nat (String.length message) <= capacity ->
  exists packet,
    status_reply capacity id code message = Return packet
    /\ _process packet w
       = Done tt
           (called
              (mkCall (req_callback request)
                 (Some (SftpErr (createError code message (req_info request))))
                 (error_args (responseParser request)))
              (taken (Some id) packet w)).
Proof.
  intros Hparked Hop Hid Hcode Hok Heof Hmessage Hcapacity.
  destruct (status_dispatch w id code message capacity request Hparked Hid
              Hcode Hmessage Hcapacity)
    as (response & response' & Hreply & Hrun & Htype & Hstatus & _ & _).
  eexists. split; [exact Hreply|]. rewrite Hrun. clear Hrun Hreply.
  destruct (Z.eqb_spec code SftpStatusCode.OK) as [|_]; [contradiction|].
  destruct (responseParser request) eqn:Hparser;
    try discriminate Hop; cbn [run_parser error_args];
    unfold parseStatus, parseAttribs, parseHandle, parsePath, parseItems,
      parseHash, parseData;
    try (run_status Htype Hstatus; reflexivity).
  - unfold has_type. rewrite Htype.
    change (SftpPacketType.STATUS =? SftpPacketType.STATUS) with true.
    cbn iota. rewrite !run_bind. unfold lift at 1. rewrite Hstatus.
    rewrite nativeCode_createError.
    destruct (Z.eqb_spec code SftpStatusCode.EOF) as [E|_];
      [now apply Heof in E|].
    reflexivity.
  - unfold has_type. rewrite Htype.
    change (SftpPacketType.STATUS =? SftpPacketType.STATUS) with true.
    cbn iota. rewrite !run_bind. unfold lift at 1. rewrite Hstatus.
    rewrite nativeCode_createError.
    destruct (Z.eqb_spec code SftpStatusCode.EOF) as [E|_];
      [now apply Heof in E|].
    reflexivity.
Qed.

Lemma error_status_completes_witness :
  exists packet,
    status_reply 64 1 SftpStatusCode.NO_SUCH_FILE "No such file" = Return packet
    /\ _process packet (awaiting ParseStatus)
       = Done tt
           (called
              (mkCall 1%nat
                 (Some (SftpErr (createError SftpStatusCode.NO_SUCH_FILE
                                   "No such file" (info_of "request"))))
                 [])
              (taken (Some 1) packet (awaiting ParseStatus))).
Proof.
  refine (error_status_completes (awaiting ParseStatus) 1
            SftpStatusCode.NO_SUCH_FILE "No such file" 64
            (mkRequest 1%nat ParseStatus (info_of "request"))
            eq_refl eq_refl _ _ _ _ _ _);
    try discriminate; vm_compute; repeat split; congruence.
Defined.

(** X8.  The success reply of [SftpStatus.writeSuccess] completes an
    operation that expects a status (close, write, setstat, remove, mkdir,
    rename, ...) with no error.  An operation that expects another reply
    (attributes, a handle, a path, names, a hash) throws "Unexpected packet
    received" instead: its callback is not called, and the request is
    already out of the table. *)
Theorem success_status (w : world) (id capacity : Z) (request : SftpRequest) :
  _requests (core w) !! Some id = Some request ->
  int32 id -> 23 <= capacity ->
  exists packet,
    success_reply capacity id = Return packet
    /\ (responseParser request = ParseStatus ->
        _process packet w
        = Done tt (called (mkCall (req_callback request) None [])
                     (taken (Some id) packet w)))
    /\ (expects_reply (responseParser request) = true ->
        _process packet w
        = Raise "Unexpected packet received" (taken (Some id) packet w)).
Proof.
  intros Hparked Hid Hcapacity.
  destruct (status_dispatch w id SftpStatusCode.OK "OK" capacity request
              Hparked Hid)
    as (response & response' & Hreply & Hrun & Htype & Hstatus & Htype' & _);
    [unfold int32, SftpStatusCode.OK; lia | cbn; lia | cbn; lia |].
  change (SftpStatusCode.OK =? SftpStatusCode.OK) with true in Hstatus.
  eexists. split; [exact Hreply|]. rewrite Hrun. clear Hrun Hreply.
  split.
  - intros ->. cbn [run_parser]. unfold parseStatus.
    run_status Htype Hstatus. rewrite Htype'.
    change (SftpPacketType.STATUS =? SftpPacketType.STATUS) with true.
    reflexivity.
  - intros Hp.
    destruct (responseParser request); try discriminate Hp;
      cbn [run_parser];
      unfold parseAttribs, parseHandle, parsePath, parseItems, parseHash.
    1-3, 5: run_status Htype Hstatus; rewrite Htype'; reflexivity.
    unfold has_type. rewrite Htype.
    change (SftpPacketType.STATUS =? SftpPacketType.STATUS) with true.
    cbn iota. rewrite !run_bind. unfold lift at 1. rewrite Hstatus.
    cbn [mbind M_bind mret M_ret]. rewrite Htype'. reflexivity.
Qed.

Lemma success_status_witness :
  exists packet,
    success_reply 64 1 = Return packet
    /\ (ParseStatus = ParseStatus ->
        _process packet (awaiting ParseStatus)
        = Done tt (called (mkCall 1%nat None [])
                     (taken (Some 1) packet (awaiting ParseStatus))))
    /\ (expects_reply ParseStatus = true ->
        _process packet (awaiting ParseStatus)
        = Raise "Unexpected packet received"
            (taken (Some 1) packet (awaiting ParseStatus))).
Proof.
  refine (success_status (awaiting ParseStatus) 1 64
            (mkRequest 1%nat ParseStatus (info_of "request")) eq_refl _ _);
    vm_compute; repeat split; congruence.
Defined.

(** X9.  The EOF status is not an error for a read or a directory listing:
    a read completes with no error, an empty buffer and 0 bytes, a
    directory listing with no error and [false]. *)
Theorem eof_status (w : world) (id : Z) (message : string) (capacity : Z)
    (request : SftpRequest) :
  _requests (core w) !! Some id = Some request ->
  int32 id ->
  Z.of_nat (String.length message) < 2 ^ 32 ->
  21 + Z.of_nat (String.length message) <= capacity ->
  exists packet,
    status_reply capacity id SftpStatusCode.EOF message = Return packet
    /\ (forall retries h buf offset length pos,
          responseParser request = ParseData retries h buf offset length pos ->
          0 <= offset ->
          _process packet w
          = Done tt (called (mkCall (req_callback request) None
                               [VBuffer []; VNumber 0])
                       (taken (Some id) packet w)))
    /\ (responseParser request = ParseItems ->
        _process packet w
        = Done tt (called (mkCall (req_callback request) None [VFalse])
                     (taken (Some id) packet w))).
Proof.
  intros Hparked Hid Hmessage Hcapacity.
  destruct (status_dispatch w id SftpStatusCode.EOF message capacity request
              Hparked Hid)
    as (response & response' & Hreply & Hrun & Htype & Hstatus & _ & _);
    [unfold int32, SftpStatusCode.EOF; lia | assumption | assumption |].
  change (SftpStatusCode.EOF =? SftpStatusCode.OK) with false in Hstatus.
  eexists. split; [exact Hreply|]. rewrite Hrun. clear Hrun Hreply.
  split.
  - intros retries h buf offset length pos -> Hoffset.
    cbn [run_parser]. unfold parseData, has_type. rewrite Htype.
    change (SftpPacketType.STATUS =? SftpPacketType.STATUS) with true.
    cbn iota. rewrite !run_bind. unfold lift at 1. rewrite Hstatus.
    rewrite nativeCode_createError, Z.eqb_refl.
    assert (Hempty : match buf with
                     | Some b => slice b offset 0
                     | None => []
                     end = []).
    { destruct buf as [b|]; [|reflexivity]. unfold slice.
      replace (Z.to_nat (0 - offset)) with 0%nat by lia. reflexivity. }
    cbv zeta. rewrite Hempty. reflexivity.
  - intros ->. cbn [run_parser]. unfold parseItems, has_type. rewrite Htype.
    change (SftpPacketType.STATUS =? SftpPacketType.STATUS) with true.
    cbn iota. rewrite !run_bind. unfold lift at 1. rewrite Hstatus.
    rewrite nativeCode_createError, Z.eqb_refl. reflexivity.
Qed.

Lemma eof_status_witness :
  exists packet,
    status_reply 64 1 SftpStatusCode.EOF "End of file" = Return packet
    /\ (forall retries h buf offset length pos,
          ParseItems = ParseData retries h buf offset length pos ->
          0 <= offset ->
          _process packet (awaiting ParseItems)
          = Done tt (called (mkCall 1%nat None [VBuffer []; VNumber 0])
                       (taken (Some 1) packet (awaiting ParseItems))))
    /\ (ParseItems = ParseItems ->
        _process packet (awaiting ParseItems)
        = Done tt (called (mkCall 1%nat None [VFalse])
                     (taken (Some 1) packet (awaiting ParseItems)))).
Proof.
  refine (eof_status (awaiting ParseItems) 1 "End of file" 64
            (mkRequest 1%nat ParseItems (info_of "request")) eq_refl _ _ _);
    vm_compute; repeat split; congruence.
Defined.

(** *** DATA replies to a read *)

Lemma copy_into_splice (data b : buffer) (offset : Z) :
  0 <= offset ->
  copy_into data b offset (Z.of_nat (List.length data))
  = take (Z.to_nat offset) b ++ data
    ++ drop (Z.to_nat offset + List.length data) b.
Proof.
  intros Hoffset. unfold copy_into.
  now rewrite Nat2Z.id, firstn_all.
Qed.

Section Data.

Context (w : world) (id : Z) (cb : callback) (retries : Z) (h : buffer)
  (buf : option buffer) (offset length pos : Z) (info : SftpCommandInfo)
  (data : buffer).

Hypothesis Hparked :
  _requests (core w) !! Some id
  = Some (mkRequest cb (ParseData retries h buf offset length pos) info).
Hypothesis Hid : int32 id.
Hypothesis Hdata : Z.of_nat (List.length data) < 2 ^ 32.

Lemma data_dispatch :
  exists response response',
    _process (data_frame id data) w
    = parseData response info cb retries h buf offset length pos
        (taken (Some id) (data_frame id data) w)
    /\ r_type response = Some SftpPacketType.DATA
    /\ readData false response = Return (data, response').
Proof.
  destruct (new_reader_data id data Hid)
    as (response & Hreader & Htype & Hrid & Hun).
  rewrite <- (app_nil_r data) in Hun at 2.
  destruct (read_prefixed_unread _ _ _ Hdata Hun) as [Hread _].
  exists response. eexists. split; [|split; [exact Htype | exact Hread]].
  rewrite <- Hrid.
  rewrite (process_taken _ _ _ (mkRequest cb (ParseData retries h buf offset
                                                 length pos) info) Hreader);
    [reflexivity | now rewrite Hrid].
Qed.

End Data.

(** X10.  A DATA reply with at least one byte and no more than the read
    asked for completes the read with no error, the data and their count;
    when the caller gave a buffer, the data are copied into it at the
    offset. *)
Theorem data_completes_read (w : world) (id : Z) (cb : callback)
    (retries : Z) (h : buffer) (buf : option buffer) (offset length pos : Z)
    (info : SftpCommandInfo) (data : buffer) :
  _requests (core w) !! Some id
  = Some (mkRequest cb (ParseData retries h buf offset length pos) info) ->
  int32 id -> ReadSpec.buffer_ok buf offset length ->
  data <> [] ->
  Z.of_nat (List.length data) <= length ->
  Z.of_nat (List.length data) < 2 ^ 32 ->
  _process (data_frame id data) w
  = Done tt
      (called
         (mkCall cb None
            [VBuffer
               match buf with
               | None => data
               | Some b =>
                 take (Z.to_nat offset) b ++ data
                 ++ drop (Z.to_nat offset + List.length data) b
               end;
             VNumber (Z.of_nat (List.length data))])
         (taken (Some id) (data_frame id data) w)).
Proof.
  intros Hparked Hid Hoffset Hne Hle Hlen.
  destruct (data_dispatch w id cb retries h buf offset length pos info data
              Hparked Hid Hlen)
    as (response & response' & -> & Htype & Hread).
  unfold parseData, has_type. rewrite Htype.
  change (SftpPacketType.DATA =? SftpPacketType.STATUS) with false.
  cbn iota. rewrite run_bind. cbn [mret M_ret]. rewrite run_bind.
  unfold lift at 1. rewrite Hread. cbn beta iota.
  destruct (Z.gtb_spec (Z.of_nat (List.length data)) length) as [|_]; [lia|].
  cbv zeta.
  destruct (Z.eqb_spec (Z.of_nat (List.length data)) 0) as [E|_].
  { destruct data; [contradiction | cbn in E; lia]. }
  destruct buf as [b|]; [|reflexivity].
  rewrite copy_into_splice; [reflexivity | apply Hoffset].
Qed.

Lemma data_completes_read_witness :
  _process (data_frame 1 [7; 8]) (awaiting (ParseData 0 [171] None 0 4 0))
  = Done tt
      (called (mkCall 1%nat None [VBuffer [7; 8]; VNumber 2])
         (taken (Some 1) (data_frame 1 [7; 8])
            (awaiting (ParseData 0 [171] None 0 4 0)))).
Proof.
  refine (data_completes_read (awaiting (ParseData 0 [171] None 0 4 0)) 1
            1%nat 0 [171] None 0 4 0 (info_of "request") [7; 8]
            eq_refl _ _ _ _ _);
    try discriminate; vm_compute; repeat split; congruence.
Defined.

(** X11.  A DATA reply with more bytes than the read asked for makes
    [_process] throw "Received too much data": the callback is not called,
    and the request is already out of the table. *)
Theorem data_exceeds_read (w : world) (id : Z) (cb : callback)
    (retries : Z) (h : buffer) (buf : option buffer) (offset length pos : Z)
    (info : SftpCommandInfo) (data : buffer) :
  _requests (core w) !! Some id
  = Some (mkRequest cb (ParseData retries h buf offset length pos) info) ->
  int32 id ->
  length < Z.of_nat (List.length data) ->
  Z.of_nat (List.length data) < 2 ^ 32 ->
  _process (data_frame id data) w
  = Raise "Received too much data" (taken (Some id) (data_frame id data) w).
Proof.
  intros Hparked Hid Hgt Hlen.
  destruct (data_dispatch w id cb retries h buf offset length pos info data
              Hparked Hid Hlen)
    as (response & response' & -> & Htype & Hread).
  unfold parseData, has_type. rewrite Htype.
  change (SftpPacketType.DATA =? SftpPacketType.STATUS) with false.
  cbn iota. rewrite run_bind. cbn [mret M_ret]. rewrite run_bind.
  unfold lift at 1. rewrite Hread. cbn beta iota.
  destruct (Z.gtb_spec (Z.of_nat (List.length data)) length) as [_|]; [|lia].
  reflexivity.
Qed.

Lemma data_exceeds_read_witness :
  _process (data_frame 1 [7; 8]) (awaiting (ParseData 0 [171] None 0 1 0))
  = Raise "Received too much data"
      (taken (Some 1) (data_frame 1 [7; 8])
         (awaiting (ParseData 0 [171] None 0 1 0))).
Proof.
  refine (data_exceeds_read (awaiting (ParseData 0 [171] None 0 1 0)) 1
            1%nat 0 [171] None 0 1 0 (info_of "request") [7; 8]
            eq_refl _ _ _);
    vm_compute; repeat split; congruence.
Defined.

(** *** Other replies *)

Section Reply.

Context (w : world) (type id : Z) (body : buffer) (request : SftpRequest).

Hypothesis Hparked : _requests (core w) !! Some id = Some request.
Hypothesis Hid : int32 id.
Hypothesis Htype : 2 < type < 256.

Lemma reply_dispatch :
  exists response,
    _process (reply_frame type id body) w
    = run_parser (responseParser request) response (req_info request)
        (req_callback request) (taken (Some id) (reply_frame type id body) w)
    /\ r_type response = Some type
    /\ unread response body.
Proof.
  destruct (new_reader_reply type id body)
    as (response & Hreader & Hrtype & Hrid & Hun); [lia | | exact Hid |].
  { cbn. destruct (Z.eqb_spec type SftpPacketType.INIT) as [E|];
      [unfold SftpPacketType.INIT in E; lia|].
    destruct (Z.eqb_spec type SftpPacketType.VERSION) as [E|];
      [unfold SftpPacketType.VERSION in E; lia | reflexivity]. }
  exists response. split; [|split; [exact Hrtype | exact Hun]].
  rewrite <- Hrid. apply process_taken; [exact Hreader|].
  rewrite Hrid. exact Hparked.
Qed.

End Reply.

Ltac expect_reply type Hrtype :=
  unfold checkResponse, has_type; rewrite !run_bind;
  repeat (rewrite Hrtype;
          try change (type =? SftpPacketType.STATUS) with false;
          try change (type =? type) with true;
          cbn [negb mret M_ret]).

(** X12.  A NAME reply to [realpath] or [readlink] must carry exactly one
    name: the callback then receives it, with no error; with any other
    count [_process] throws "Invalid response" and the callback is not
    called. *)
Theorem name_reply_has_one_name (w : world) (id count : Z) (path : string)
    (rest : buffer) (request : SftpRequest) :
  _requests (core w) !! Some id = Some request ->
  responseParser request = ParsePath ->
  int32 id -> int32 count ->
  Z.of_nat (String.length path) < 2 ^ 32 ->
  let packet :=
    reply_frame SftpPacketType.NAME id (be 4 count ++ wire_string path ++ rest) in
  _process packet w
  = if count =? 1 then
      Done tt (called (mkCall (req_callback request) None [VString path])
                 (taken (Some id) packet w))
    else Raise "Invalid response" (taken (Some id) packet w).
Proof.
  intros Hparked Hparser Hid Hcount Hpath packet. subst packet.
  destruct (reply_dispatch w SftpPacketType.NAME id
              (be 4 count ++ wire_string path ++ rest) request Hparked Hid)
    as (response & -> & Hrtype & Hun); [unfold SftpPacketType.NAME; lia|].
  rewrite Hparser. cbn [run_parser]. unfold parsePath.
  expect_reply SftpPacketType.NAME Hrtype.
  destruct (readInt32_unread _ _ _ Hun) as [Hread Hun1].
  rewrite signed32_mod in Hread by exact Hcount.
  rewrite run_lift, Hread. cbn beta iota.
  destruct (count =? 1); [|reflexivity]. cbn [negb].
  destruct (readString_unread _ _ _ Hpath Hun1) as [Hread1 _].
  rewrite run_lift, Hread1. reflexivity.
Qed.

Lemma name_reply_has_one_name_witness :
  _process
    (reply_frame SftpPacketType.NAME 1 (be 4 1 ++ wire_string "/home" ++ []))
    (awaiting ParsePath)
  = Done tt
      (called (mkCall 1%nat None [VString "/home"])
         (taken (Some 1)
            (reply_frame SftpPacketType.NAME 1
               (be 4 1 ++ wire_string "/home" ++ []))
            (awaiting ParsePath))).
Proof.
  refine (name_reply_has_one_name (awaiting ParsePath) 1 1 "/home" []
            (mkRequest 1%nat ParsePath (info_of "request"))
            eq_refl eq_refl _ _ _);
    vm_compute; repeat split; congruence.
Defined.

(** X13.  A handle belongs to the session that received it.  The HANDLE
    reply to [open] or [opendir] carries the server's token as a
    length-prefixed byte string; it completes the caller with a handle
    that holds exactly this token (without its length, and without what
    may follow it in the packet) and records this session as its owner,
    so that the operations of this session accept the handle and give the
    token back. *)
Theorem handle_reply_is_owned (w : world) (id : Z) (token rest : buffer)
    (request : SftpRequest) :
  _requests (core w) !! Some id = Some request ->
  responseParser request = ParseHandle ->
  int32 id ->
  Z.of_nat (List.length token) < 2 ^ 32 ->
  _process
    (reply_frame SftpPacketType.HANDLE id
       (be 4 (Z.of_nat (List.length token)) ++ token ++ rest)) w
  = Done tt
      (called
         (mkCall (req_callback request) None
            [VHandle (mkHandle token (_sessionId (core w)))])
         (taken (Some id)
            (reply_frame SftpPacketType.HANDLE id
               (be 4 (Z.of_nat (List.length token)) ++ token ++ rest)) w))
  /\ forall w',
       _sessionId (core w') = _sessionId (core w) ->
       toHandle (HandleToken (mkHandle token (_sessionId (core w)))) w'
       = Done token w'.
Proof.
  intros Hparked Hparser Hid Hlen.
  destruct (reply_dispatch w SftpPacketType.HANDLE id
              (be 4 (Z.of_nat (List.length token)) ++ token ++ rest) request
              Hparked Hid)
    as (response & -> & Hrtype & Hun); [unfold SftpPacketType.HANDLE; lia|].
  rewrite Hparser. cbn [run_parser]. unfold parseHandle.
  expect_reply SftpPacketType.HANDLE Hrtype.
  destruct (read_prefixed_unread _ _ _ Hlen Hun) as [Hread _].
  split.
  - rewrite run_lift. unfold readData. rewrite Hread. reflexivity.
  - intros w' Hsame. unfold toHandle. rewrite run_bind. cbn [this _this].
    now rewrite Hsame, Z.eqb_refl.
Qed.

Lemma handle_reply_is_owned_witness :
  _process (reply_frame SftpPacketType.HANDLE 1 [0; 0; 0; 1; 171])
    (awaiting ParseHandle)
  = Done tt
      (called (mkCall 1%nat None [VHandle (mkHandle [171] 1)])
         (taken (Some 1) (reply_frame SftpPacketType.HANDLE 1 [0; 0; 0; 1; 171])
            (awaiting ParseHandle)))
  /\ forall w',
       _sessionId (core w') = 1 ->
       toHandle (HandleToken (mkHandle [171] 1)) w' = Done [171] w'.
Proof.
  refine (handle_reply_is_owned (awaiting ParseHandle) 1 [171] []
            (mkRequest 1%nat ParseHandle (info_of "request"))
            eq_refl eq_refl _ _);
    vm_compute; repeat split; congruence.
Defined.

End ResponseFacts.

(** ** The handshake *)

Module HandshakeFacts.
Import Packet CodecSpec PacketFacts Client SessionSpec ClientFacts.
Import InvariantSpec InvariantFacts ReplySpec WireFacts ResponseFacts.
Import HandshakeSpec.

Lemma read_extensions_extends (w0 : world) (fuel : nat)
    (response : SftpPacketReader) :
  preserved (extended_from w0) (read_extensions fuel response).
Proof.
  revert response.
  induction fuel as [|fuel IH]; intros response; cbn [read_extensions];
    preserved_all.
  intros w1 [e1 ->]. cbn [update]. now eexists.
Qed.

Section Version.

Context (w : world) (host : channel) (cb : callback)
  (info info' : SftpCommandInfo) (version : Z) (extensions : buffer).

Hypothesis Hparked :
  _requests (core w) !! None = Some (mkRequest cb (ParseInit host info) info').
Hypothesis Hversion : int32 version.

Lemma version_dispatch :
  exists response response',
    _process (version_frame version extensions) w
    = parseInit host info response cb
        (taken None (version_frame version extensions) w)
    /\ r_type response = Some SftpPacketType.VERSION
    /\ readInt32 response = Return (version, response').
Proof.
  destruct (new_reader_version version extensions)
    as (response & Hreader & Htype & Hrid & Hun).
  destruct (readInt32_unread _ _ _ Hun) as [Hread _].
  rewrite signed32_mod in Hread by exact Hversion.
  exists response. eexists. split; [|split; [exact Htype | exact Hread]].
  rewrite <- Hrid.
  rewrite (process_taken _ _ _ (mkRequest cb (ParseInit host info) info')
             Hreader);
    [reflexivity | now rewrite Hrid].
Qed.

End Version.

(** X14.  The end of the handshake.  When the VERSION packet for a parked
    INIT announces version 3, [_process] either returns, and then the
    session is ready, the init callback was called once, with no error,
    nothing was sent or closed, and the features "COPY_DATA" and
    "CHECK_FILE_HANDLE" are registered whatever the server advertised,
    "LINK" and "POSIX_RENAME" when the stored value of their extension
    contains "1"; or it throws while reading the extensions, and then the
    callback was not called and the session is not made ready. *)
Theorem version_completes_handshake (w : world) (host : channel)
    (cb : callback) (info info' : SftpCommandInfo) (extensions : buffer) :
  _requests (core w) !! None = Some (mkRequest cb (ParseInit host info) info') ->
  match _process (version_frame 3 extensions) w with
  | Done _ w' =>
    _ready (core w') = true
    /\ calls w' = calls w ++ [mkCall cb None []]
    /\ sent w' = sent w /\ closed w' = closed w
    /\ _features (core w') !! "COPY_DATA" = Some SftpExtensions.COPY_DATA
    /\ _features (core w') !! "CHECK_FILE_HANDLE"
       = Some SftpExtensions.CHECK_FILE_HANDLE
    /\ (SftpExtensions.contains
          (SftpExtensions.to_string
             (_extensions (core w') !! SftpExtensions.HARDLINK)) "1" = true ->
        _features (core w') !! "LINK" = Some SftpExtensions.HARDLINK)
    /\ (SftpExtensions.contains
          (SftpExtensions.to_string
             (_extensions (core w') !! SftpExtensions.POSIX_RENAME)) "1" = true ->
        _features (core w') !! "POSIX_RENAME"
        = Some SftpExtensions.POSIX_RENAME)
  | Raise _ w' =>
    calls w' = calls w /\ _ready (core w') = _ready (core w)
    /\ _features (core w') = _features (core w)
    /\ _requests (core w') !! None = None
  end.
Proof.
  intros Hparked.
  destruct (version_dispatch w host cb info info' 3 extensions Hparked)
    as (response & response' & -> & Htype & Hread);
    [unfold int32; lia|].
  unfold parseInit, has_type. rewrite Htype.
  change (SftpPacketType.VERSION =? SftpPacketType.VERSION) with true.
  cbn [negb]. rewrite run_bind. unfold lift at 1. rewrite Hread.
  cbn beta iota. change (3 =? 3) with true. cbn [negb]. rewrite run_bind.
  pose proof (read_extensions_extends
                (taken None (version_frame 3 extensions) w)
                (remaining response') response' _
                (ex_intro _ (_extensions (core w)) eq_refl))
    as Hkeep.
  cbn [taken with_core core set_extensions set_requests set_bytesReceived
       _extensions _requests] in Hkeep.
  destruct (read_extensions _ _ _) as [r w1|msg w1]; destruct Hkeep as [e ->].
  - rewrite run_bind. cbn [this core with_core set_extensions _extensions].
    destruct (SftpExtensions.contains
                (SftpExtensions.to_string (e !! SftpExtensions.HARDLINK)) "1")
      eqn:Ehard;
      destruct (SftpExtensions.contains
                  (SftpExtensions.to_string
                     (e !! SftpExtensions.POSIX_RENAME)) "1") eqn:Eposix;
      (repeat (rewrite run_bind; world_simpl));
      cbn [mret M_ret invoke];
      repeat split; cbn [taken]; world_simpl;
      try reflexivity;
      try (intros H; rewrite ?Ehard, ?Eposix in H; try discriminate H);
      repeat first [ rewrite lookup_insert_eq
                   | rewrite lookup_insert_ne by (intros [=]) ];
      reflexivity.
  - world_simpl. repeat split. apply lookup_delete_eq.
Qed.

Lemma version_completes_handshake_witness :
  match _process (version_frame 3 []) (handshake_sent 1 0%nat 0%nat) with
  | Done _ w' =>
    _ready (core w') = true
    /\ calls w' = calls (handshake_sent 1 0%nat 0%nat) ++ [mkCall 0%nat None []]
    /\ sent w' = sent (handshake_sent 1 0%nat 0%nat)
    /\ closed w' = closed (handshake_sent 1 0%nat 0%nat)
    /\ _features (core w') !! "COPY_DATA" = Some SftpExtensions.COPY_DATA
    /\ _features (core w') !! "CHECK_FILE_HANDLE"
       = Some SftpExtensions.CHECK_FILE_HANDLE
    /\ (SftpExtensions.contains
          (SftpExtensions.to_string
             (_extensions (core w') !! SftpExtensions.HARDLINK)) "1" = true ->
        _features (core w') !! "LINK" = Some SftpExtensions.HARDLINK)
    /\ (SftpExtensions.contains
          (SftpExtensions.to_string
             (_extensions (core w') !! SftpExtensions.POSIX_RENAME)) "1" = true ->
        _features (core w') !! "POSIX_RENAME"
        = Some SftpExtensions.POSIX_RENAME)
  | Raise _ w' =>
    calls w' = calls (handshake_sent 1 0%nat 0%nat)
    /\ _ready (core w') = _ready (core (handshake_sent 1 0%nat 0%nat))
    /\ _features (core w') = _features (core (handshake_sent 1 0%nat 0%nat))
    /\ _requests (core w') !! None = None
  end.
Proof.
  exact (version_completes_handshake (handshake_sent 1 0%nat 0%nat) 0%nat
           0%nat (info_of "init") (info_of "init") [] eq_refl).
Defined.

(** X15.  A VERSION packet announcing any version but 3 ends the handshake
    in failure: the channel is closed with code 3002 and the init callback
    is called once, with an EFAILURE error; the session is not made ready,
    and the engine itself does not detach from the channel. *)
Theorem version_mismatch_fails (w : world) (host : channel) (cb : callback)
    (info info' : SftpCommandInfo) (version : Z) (extensions : buffer) :
  _requests (core w) !! None = Some (mkRequest cb (ParseInit host info) info') ->
  int32 version -> version <> 3 ->
  let error :=
    createError SftpStatusCode.BAD_MESSAGE "Unexpected protocol version" info in
  _process (version_frame version extensions) w
  = Done tt
      (called (fail_with cb error)
         (hung_up host (Some 3002)
            (taken None (version_frame version extensions) w)))
  /\ code error = "EFAILURE" /\ errno error = -2.
Proof.
  intros Hparked Hversion Hne error.
  split; [|split; reflexivity].
  destruct (version_dispatch w host cb info info' version extensions Hparked
              Hversion)
    as (response & response' & -> & Htype & Hread).
  unfold parseInit, has_type. rewrite Htype.
  change (SftpPacketType.VERSION =? SftpPacketType.VERSION) with true.
  cbn [negb]. rewrite run_bind. unfold lift at 1. rewrite Hread.
  cbn beta iota.
  destruct (Z.eqb_spec version 3) as [|_]; [contradiction|].
  reflexivity.
Qed.

Lemma version_mismatch_fails_witness :
  _process (version_frame 4 []) (handshake_sent 1 0%nat 0%nat)
  = Done tt
      (called
         (fail_with 0%nat
            (createError SftpStatusCode.BAD_MESSAGE
               "Unexpected protocol version" (info_of "init")))
         (hung_up 0%nat (Some 3002)
            (taken None (version_frame 4 []) (handshake_sent 1 0%nat 0%nat))))
  /\ code (createError SftpStatusCode.BAD_MESSAGE
             "Unexpected protocol version" (info_of "init")) = "EFAILURE"
  /\ errno (createError SftpStatusCode.BAD_MESSAGE
              "Unexpected protocol version" (info_of "init")) = -2.
Proof.
  refine (version_mismatch_fails (handshake_sent 1 0%nat 0%nat) 0%nat 0%nat
            (info_of "init") (info_of "init") 4 [] eq_refl _ _);
    vm_compute; repeat split; congruence.
Defined.

(** X16.  A session object serves one handshake.  Once [_init] has run,
    a second [_init] throws and sends nothing: "Already bound" while the
    session is attached, leaving the state as it was, and "Already
    initialized" after [end], when it has already attached the session to
    the new channel and emptied the extension table. *)
Theorem init_only_once (w : world) (host : channel) (cb : callback) (n : Z) :
  _id (core w) = Some n ->
  match _host (core w) with
  | Some _ => _init host cb w = Raise "Already bound" w
  | None =>
    _init host cb w
    = Raise "Already initialized"
        (with_core (fun c => set_extensions ∅ (set_host (Some host) c)) w)
  end.
Proof.
  intros Hid. unfold _init. rewrite run_bind. cbn [this].
  destruct (_host (core w)) as [h|] eqn:Hhost; [reflexivity|].
  do 2 (rewrite run_bind; cbn [update]). rewrite run_bind.
  unfold getRequest. rewrite run_bind. cbn [this]. world_simpl.
  rewrite Hid. change (SftpPacketType.INIT =? SftpPacketType.INIT) with true.
  reflexivity.
Qed.

Lemma init_only_once_witness :
  _init 1%nat 1%nat (handshake_sent 1 0%nat 0%nat)
  = Raise "Already bound" (handshake_sent 1 0%nat 0%nat)
  /\ _init 1%nat 1%nat ended
     = Raise "Already initialized"
         (with_core (fun c => set_extensions ∅ (set_host (Some 1%nat) c)) ended).
Proof.
  split.
  - exact (init_only_once (handshake_sent 1 0%nat 0%nat) 1%nat 1%nat 1 eq_refl).
  - exact (init_only_once ended 1%nat 1%nat 1 eq_refl).
Defined.

End HandshakeFacts.

(** ** Operations *)

Module OperationFacts.
Import Packet CodecSpec PacketFacts Client SessionSpec ClientFacts.
Import InvariantSpec InvariantFacts ReplySpec WireFacts OperationSpec.

Lemma getRequest_id_taken (w : world) (type : packet_type) :
  is_init type = false ->
  getRequest type w
  = Done (start (set_id (_id (core w))
                   (set_type type
                      (new_writer (_maxWriteBlockLength (core w) + 1024)))))
         (id_taken w).
Proof.
  intros Htype. unfold getRequest. rewrite run_bind. cbn [this].
  fold (is_init type). rewrite Htype. reflexivity.
Qed.

(** The frame of a request with a numeric type. *)
Lemma finish_request (request : SftpPacketWriter) (type id : Z) :
  w_type request = Some (TypeNum type) -> w_id request = Some id ->
  is_handshake (TypeNum type) = false -> 0 <= type < 256 ->
  finish request = reply_frame type id (w_bytes request).
Proof.
  intros Ht Hi Hhs Hrange. unfold finish, reply_frame, frame.
  rewrite Ht, Hi. cbn [header_tail default]. rewrite Hhs.
  rewrite Z.mod_small by exact Hrange. reflexivity.
Qed.

(** X17.  [open] takes its request id before it converts the flags: a call
    with a mode that [SftpFlags.toNumber] rejects throws, sends nothing and
    parks nothing, but the id is spent. *)
Theorem open_invalid_flags (Path_check : string -> string -> result string)
    (w : world) (path p : string) (flags : SftpFlags.flags_arg)
    (attrs : option IStats) (cb : callback) (msg : string) :
  Path_check path "path" = Return p ->
  SftpFlags.toNumber flags = Throw msg ->
  exists msg',
    open Path_check path flags attrs (Some cb) w = Raise msg' (id_taken w).
Proof.
  intros Hpath Hflags. unfold open. pass_callback.
  rewrite (run_done _ _ _ _ _ (checkPath_run _ _ _ _ _ Hpath)).
  rewrite (run_done _ _ _ _ _
             (getRequest_id_taken w (TypeNum SftpPacketType.OPEN) eq_refl)).
  rewrite run_bind. unfold lift at 1.
  destruct (writeString _ _) as [request|msg']; [|now exists msg'].
  rewrite run_bind. unfold lift at 1. rewrite Hflags. now exists msg.
Qed.

Lemma open_invalid_flags_witness :
  exists msg',
    open nonempty_path "/a" (SftpFlags.FlagsStr "q") None (Some 0%nat)
      (new_world 1)
    = Raise msg' (id_taken (new_world 1)).
Proof.
  destruct (SftpFlags.toNumber (SftpFlags.FlagsStr "q")) as [n|msg] eqn:Hflags;
    [discriminate|].
  exact (open_invalid_flags nonempty_path (new_world 1) "/a" "/a"
           (SftpFlags.FlagsStr "q") None 0%nat msg eq_refl Hflags).
Defined.



(** X19.  [write] on a bound session, with acceptable arguments and a free
    request id, sends one WRITE frame, made of the handle, the 64-bit
    position and the bytes of the buffer from the offset on, and parks the
    callback under the id to wait for a status; no callback is called. *)
Theorem write_sends_slice (w : world) (host : channel) (tok : SftpHandle)
    (b : buffer) (offset length pos : Z) (cb : callback) (id : Z) :
  _host (core w) = Some host ->
  _id (core w) = Some id ->
  _requests (core w) !! Some id = None ->
  _this tok = _sessionId (core w) ->
  write_arguments_ok w (Some b) offset length pos ->
  Z.of_nat (List.length (_handle tok)) + 25 <= 1024 ->
  exists w',
    write (HandleToken tok) (Some b) offset length pos (Some cb) w
    = Done tt w'
    /\ sent w'
       = sent w
         ++ [(host,
              reply_frame SftpPacketType.WRITE id
                (be 4 (Z.of_nat (List.length (_handle tok))) ++ _handle tok
                 ++ be 8 pos
                 ++ be 4 length ++ slice b offset (offset + length)))]
    /\ _requests (core w')
       = <[Some id := mkRequest cb ParseStatus
                        (info_handle "write" (HandleToken tok))]>
           (_requests (core w))
    /\ _id (core w') = Some (Js.to_int32 (id + 1))
    /\ calls w' = calls w /\ ticks w' = ticks w.
Proof.
  intros Hhost Hid Hfree Hthis (b' & [= <-] & Ho & Hl & Hol & Hp & Hmax) Hfits.
  unfold write. pass_callback.
  rewrite run_bind. unfold toHandle at 1. rewrite run_bind. cbn [this].
  rewrite Hthis, Z.eqb_refl. cbn [mret M_ret].
  rewrite run_bind. unfold checkBuffer.
  destruct (Z.ltb_spec offset 0); [lia|].
  destruct (Z.ltb_spec length 0); [lia|].
  destruct (Z.gtb_spec (offset + length) (Z.of_nat (List.length b))); [lia|].
  cbn [mret M_ret]. rewrite run_bind. unfold checkPosition.
  destruct (Z.ltb_spec pos 0); [lia|].
  destruct (Z.gtb_spec pos MAX_POSITION); [unfold MAX_POSITION in *; lia|].
  cbn [orb mret M_ret]. rewrite run_bind. cbn [this].
  destruct (Z.gtb_spec length (_maxWriteBlockLength (core w))); [lia|].
  rewrite (run_done _ _ _ _ _
             (getRequest_next w id (TypeNum SftpPacketType.WRITE) Hid eq_refl)).
  cbv beta.
  set (w0 := start (set_id (Some id)
                      (set_type (TypeNum SftpPacketType.WRITE)
                         (new_writer (_maxWriteBlockLength (core w) + 1024))))).
  assert (Hpos : position w0 = 9) by reflexivity.
  assert (Hcap : w_capacity w0 = _maxWriteBlockLength (core w) + 1024)
    by reflexivity.
  assert (Hchunk : List.length (slice b offset (offset + length))
                   = Z.to_nat length).
  { unfold slice. rewrite length_take, length_drop.
    replace (offset + length - offset) with length by lia. lia. }
  change (default [] (Some b)) with b.
  unfold writeData, writeInt64, writeDataSlice, writeData.
  fold (slice b offset (offset + length)).
  rewrite run_bind. unfold lift at 1.
  rewrite write_raw_fits by (rewrite Hpos, Hcap, length_app, length_be; lia).
  rewrite run_bind. unfold lift at 1.
  rewrite write_raw_fits
    by (rewrite capacity_append, position_append, Hpos, Hcap, length_app,
          !length_be; lia).
  rewrite run_bind. unfold lift at 1.
  rewrite write_raw_fits
    by (rewrite !capacity_append, !position_append, Hpos, Hcap, !length_app,
          !length_be, Hchunk; lia).
  unfold execute. rewrite run_bind. cbn [this core with_core set_next_id _host].
  rewrite Hhost. cbn [_requests set_next_id].
  change (w_id (append _ (append _ (append _ w0)))) with (Some id).
  rewrite Hfree.
  match goal with
  | |- context [finish ?request] =>
    rewrite (finish_request request SftpPacketType.WRITE id eq_refl eq_refl
               eq_refl)
      by (unfold SftpPacketType.WRITE; lia)
  end.
  cbn [w_bytes append w0 start app]. rewrite <- !app_assoc.
  rewrite Hchunk, Z2Nat.id by lia.
  eexists. split; [reflexivity|]. repeat split.
Qed.

Lemma write_sends_slice_witness :
  exists w',
    write (HandleToken token) (Some [1; 2; 3; 4]) 1 2 0 (Some 3%nat)
      (awaiting ParseStatus)
    = Done tt w'
    /\ sent w'
       = sent (awaiting ParseStatus)
         ++ [(0%nat,
              reply_frame SftpPacketType.WRITE 2
                (be 4 (Z.of_nat (List.length (_handle token))) ++ _handle token
                 ++ be 8 0
                 ++ be 4 2 ++ slice [1; 2; 3; 4] 1 (1 + 2)))]
    /\ _requests (core w')
       = <[Some 2 := mkRequest 3%nat ParseStatus
                       (info_handle "write" (HandleToken token))]>
           (_requests (core (awaiting ParseStatus)))
    /\ _id (core w') = Some (Js.to_int32 (2 + 1))
    /\ calls w' = calls (awaiting ParseStatus)
    /\ ticks w' = ticks (awaiting ParseStatus).
Proof.
  refine (write_sends_slice (awaiting ParseStatus) 0%nat token [1; 2; 3; 4]
            1 2 0 3%nat 2 eq_refl eq_refl eq_refl eq_refl _ _).
  - exists [1; 2; 3; 4]. vm_compute. repeat split; congruence.
  - vm_compute. congruence.
Defined.

(** X20.  An operation that goes through an extension fails before any
    packet when the feature is not registered: [link] without "LINK", and
    [rename] with the OVERWRITE flag without "POSIX_RENAME", take no
    request id, send nothing, and defer one call of the callback, with an
    ENOSYS error. *)
Theorem missing_feature_is_unsupported (OVERWRITE : Z)
    (Path_check : string -> string -> result string) (w : world)
    (oldPath newPath p1 p2 : string) (cb : callback) :
  Path_check oldPath "oldPath" = Return p1 ->
  Path_check newPath "newPath" = Return p2 ->
  let unsupported info :=
    fail_with cb
      (createError SftpStatusCode.OP_UNSUPPORTED "Operation not supported"
         info) in
  (_features (core w) !! "LINK" = None ->
   link Path_check oldPath newPath (Some cb) w
   = Done tt (deferred (unsupported (link_info (tilde p1) (tilde p2))) w))
  /\ (_features (core w) !! "POSIX_RENAME" = None ->
      rename OVERWRITE Path_check oldPath newPath OVERWRITE (Some cb) w
      = Done tt
          (deferred
             (unsupported (rename_info (tilde p1) (tilde p2) OVERWRITE)) w))
  /\ forall info, code (createError SftpStatusCode.OP_UNSUPPORTED
                          "Operation not supported" info) = "ENOSYS".
Proof.
  intros H1 H2 unsupported. split; [|split; [|reflexivity]].
  - intros Hfeature. unfold link. pass_callback.
    rewrite (run_done _ _ _ _ _ (checkPath_run _ _ _ _ _ H1)).
    rewrite (run_done _ _ _ _ _ (checkPath_run _ _ _ _ _ H2)).
    unfold command. rewrite run_bind. cbn [this].
    rewrite Hfeature. reflexivity.
  - intros Hfeature. unfold rename. pass_callback.
    rewrite (run_done _ _ _ _ _ (checkPath_run _ _ _ _ _ H1)).
    rewrite (run_done _ _ _ _ _ (checkPath_run _ _ _ _ _ H2)).
    rewrite Z.eqb_refl. rewrite run_bind. cbn [mret M_ret].
    unfold command. rewrite run_bind. cbn [this].
    rewrite Hfeature. reflexivity.
Qed.

Lemma missing_feature_is_unsupported_witness :
  (_features (core (new_world 1)) !! "LINK" = None ->
   link nonempty_path "a" "b" (Some 0%nat) (new_world 1)
   = Done tt
       (deferred
          (fail_with 0%nat
             (createError SftpStatusCode.OP_UNSUPPORTED
                "Operation not supported" (link_info (tilde "a") (tilde "b"))))
          (new_world 1)))
  /\ (_features (core (new_world 1)) !! "POSIX_RENAME" = None ->
      rename 1 nonempty_path "a" "b" 1 (Some 0%nat) (new_world 1)
      = Done tt
          (deferred
             (fail_with 0%nat
                (createError SftpStatusCode.OP_UNSUPPORTED
                   "Operation not supported"
                   (rename_info (tilde "a") (tilde "b") 1)))
             (new_world 1)))
  /\ forall info, code (createError SftpStatusCode.OP_UNSUPPORTED
                          "Operation not supported" info) = "ENOSYS".
Proof.
  exact (missing_feature_is_unsupported 1 nonempty_path (new_world 1)
           "a" "b" "a" "b" 0%nat eq_refl eq_refl).
Defined.

(** *** Operations on one path *)

Section Command.

Context (w : world) (type : Z) (path : string) (cb : callback) (p : parser)
  (info : SftpCommandInfo).

Hypothesis Htype : 2 < type < 256.
Hypothesis Hfits :
  13 + Z.of_nat (String.length path) <= _maxWriteBlockLength (core w) + 1024.

Lemma command_request :
  exists request,
    command (CmdType type) [path] cb p info w
    = execute request cb p info (id_taken w)
    /\ finish request
       = reply_frame type (default 0 (_id (core w))) (wire_string path)
    /\ w_id request = _id (core w).
Proof.
  unfold command. rewrite run_bind. cbn [this].
  destruct (Z.eqb_spec type 0) as [|_]; [lia|].
  assert (Hinit : is_init (TypeNum type) = false).
  { cbn. destruct (Z.eqb_spec type SftpPacketType.INIT) as [E|];
      [unfold SftpPacketType.INIT in E; lia | reflexivity]. }
  assert (Hhs : is_handshake (TypeNum type) = false).
  { cbn. destruct (Z.eqb_spec type SftpPacketType.INIT) as [E|];
      [unfold SftpPacketType.INIT in E; lia|].
    destruct (Z.eqb_spec type SftpPacketType.VERSION) as [E|];
      [unfold SftpPacketType.VERSION in E; lia | reflexivity]. }
  rewrite (run_done _ _ _ _ _ (getRequest_id_taken w (TypeNum type) Hinit)).
  set (w0 := start (set_id (_id (core w))
                      (set_type (TypeNum type)
                         (new_writer (_maxWriteBlockLength (core w) + 1024))))).
  assert (Hpos : position w0 = 9).
  { unfold position, w0, start. cbn [w_reserved w_bytes w_type w_id set_id
                                       set_type new_writer header_tail].
    rewrite Hhs. cbn [List.length]. rewrite length_be. reflexivity. }
  assert (Hcap : w_capacity w0 = _maxWriteBlockLength (core w) + 1024)
    by reflexivity.
  rewrite run_bind. unfold lift at 1. cbn [write_strings]. unfold writeString.
  rewrite write_raw_fits
    by (rewrite Hpos, Hcap, length_app, length_be, length_bytes_of_string; lia).
  cbn [mbind result_bind].
  eexists. split; [reflexivity|]. split; [|reflexivity].
  unfold finish, reply_frame, frame, wire_string.
  cbn [append w_type w_id w_bytes w0 start set_type set_id new_writer
       header_tail app].
  rewrite Hhs. rewrite Z.mod_small by lia. reflexivity.
Qed.

End Command.

Ltac run_path_operation Hpath Htype :=
  pass_callback;
  rewrite (run_done _ _ _ _ _ (checkPath_run _ _ _ _ _ Hpath));
  match goal with
  | |- command (CmdType ?type) [?path] ?cb ?p ?info ?w = _ =>
    destruct (command_request w type path cb p info Htype)
      as (request & -> & Hframe & Hrid); [assumption|]
  end.

(** X21.  The operations made of one path ([lstat], [opendir], [unlink],
    [rmdir], [realpath], [stat], [readlink]) on a bound session, with a
    free request id: each sends one frame of its packet type that carries
    the id and the checked path as a string, and parks the callback under
    the id with the parser of its reply.  No callback is called. *)
Theorem path_operation_submits
    (Path_check : string -> string -> result string) (w : world)
    (host : channel) (id : Z) (path p : string) (cb : callback) :
  _host (core w) = Some host ->
  _id (core w) = Some id ->
  _requests (core w) !! Some id = None ->
  Path_check path "path" = Return p ->
  13 + Z.of_nat (String.length (tilde p))
  <= _maxWriteBlockLength (core w) + 1024 ->
  Forall
    (fun '(operation, type, name, parser) =>
       operation path (Some cb) w
       = Done tt
           (submitted host id (reply_frame type id (wire_string (tilde p)))
              (mkRequest cb parser (info_path name (tilde p))) w))
    (path_operations Path_check).
Proof.
  intros Hhost Hid Hfree Hpath Hfits.
  unfold path_operations.
  repeat (apply List.Forall_cons; [cbv beta iota|]);
    [..|apply List.Forall_nil];
    unfold lstat, opendir, unlink, rmdir, realpath, stat, readlink;
    pass_callback;
    rewrite (run_done _ _ _ _ _ (checkPath_run _ _ _ _ _ Hpath));
    match goal with
    | |- command (CmdType ?type) [?path'] ?cb' ?parser ?info w = _ =>
      destruct (command_request w type path' cb' parser info)
        as (request & -> & Hframe & Hrid);
        [vm_compute; split; reflexivity | exact Hfits |]
    end;
    unfold execute; rewrite run_bind; cbn [this]; unfold id_taken;
    world_simpl; rewrite Hhost, Hrid, Hid, Hfree, Hframe;
    cbv [default from_option Datatypes.id];
    repeat (rewrite run_bind; world_simpl); unfold update; world_simpl;
    unfold submitted; rewrite JsFacts.land_all_ones, ?Hid; reflexivity.
Qed.

Lemma path_operation_submits_witness :
  Forall
    (fun '(operation, type, name, parser) =>
       operation "/a" (Some 3%nat) (awaiting ParseStatus)
       = Done tt
           (submitted 0%nat 2 (reply_frame type 2 (wire_string (tilde "/a")))
              (mkRequest 3%nat parser (info_path name (tilde "/a")))
              (awaiting ParseStatus)))
    (path_operations nonempty_path).
Proof.
  refine (path_operation_submits nonempty_path (awaiting ParseStatus) 0%nat 2
            "/a" "/a" 3%nat eq_refl eq_refl eq_refl eq_refl _).
  vm_compute. congruence.
Defined.

(** X22.  On a session without a channel the same operations take a
    request id and defer one call of the callback, with an ENOTCONN error;
    nothing is sent and nothing is parked. *)
Theorem detached_path_operation_fails
    (Path_check : string -> string -> result string) (w : world)
    (path p : string) (cb : callback) :
  _host (core w) = None ->
  Path_check path "path" = Return p ->
  13 + Z.of_nat (String.length (tilde p))
  <= _maxWriteBlockLength (core w) + 1024 ->
  Forall
    (fun '(operation, type, name, parser) =>
       operation path (Some cb) w
       = Done tt
           (deferred
              (fail_with cb
                 (createError SftpStatusCode.NO_CONNECTION "Not connected"
                    (info_path name (tilde p))))
              (id_taken w)))
    (path_operations Path_check)
  /\ forall info,
       code (createError SftpStatusCode.NO_CONNECTION "Not connected" info)
       = "ENOTCONN".
Proof.
  intros Hhost Hpath Hfits. split; [|reflexivity].
  unfold path_operations.
  repeat (apply List.Forall_cons; [cbv beta iota|]);
    [..|apply List.Forall_nil];
    unfold lstat, opendir, unlink, rmdir, realpath, stat, readlink;
    pass_callback;
    rewrite (run_done _ _ _ _ _ (checkPath_run _ _ _ _ _ Hpath));
    match goal with
    | |- command (CmdType ?type) [?path'] ?cb' ?parser ?info w = _ =>
      destruct (command_request w type path' cb' parser info)
        as (request & -> & _ & _);
        [vm_compute; split; reflexivity | exact Hfits |]
    end;
    apply execute_detached; exact Hhost.
Qed.

Lemma detached_path_operation_fails_witness :
  Forall
    (fun '(operation, type, name, parser) =>
       operation "/a" (Some 3%nat) (new_world 1)
       = Done tt
           (deferred
              (fail_with 3%nat
                 (createError SftpStatusCode.NO_CONNECTION "Not connected"
                    (info_path name (tilde "/a"))))
              (id_taken (new_world 1))))
    (path_operations nonempty_path)
  /\ forall info,
       code (createError SftpStatusCode.NO_CONNECTION "Not connected" info)
       = "ENOTCONN".
Proof.
  refine (detached_path_operation_fails nonempty_path (new_world 1) "/a" "/a"
            3%nat eq_refl eq_refl _).
  vm_compute. congruence.
Defined.

End OperationFacts.

(** ** Stats and the attribute block *)

Module StatsFacts.
Import Packet CodecSpec PacketFacts SftpAttributeFlags SftpAttributes.
Import AttributesSpec SftpAttributesFacts StatsSpec.

Lemma lor_zero (v : Z) : Js.lor v 0 = Js.to_int32 v.
Proof.
  unfold Js.lor. change (Js.to_int32 0) with 0. rewrite Z.lor_0_r.
  apply JsFacts.to_int32_id, JsFacts.to_int32_range.
Qed.

Ltac decide_present :=
  repeat first
    [ rewrite bool_decide_eq_true_2
        by (first [left; eexists; reflexivity | right; eexists; reflexivity])
    | rewrite bool_decide_eq_false_2
        by (intros [[? H]|[? H]]; discriminate H) ].

(** [from], field by field. *)
Lemma from_fields (stats : IStats) :
  from (Some stats)
  = let ids := present (st_uid stats) || present (st_gid stats) in
    let dates := present (st_atime stats) || present (st_mtime stats) in
    mkAttrs (stats_flags stats)
      (Js.to_int32 <$> st_size stats)
      (if ids then Some (Js.to_int32 (default 0 (st_uid stats))) else None)
      (if ids then Some (Js.to_int32 (default 0 (st_gid stats))) else None)
      (Js.to_int32 <$> st_mode stats)
      (if dates then st_atime stats else None)
      (if dates then st_mtime stats else None)
      (st_nlink stats) (st_metadata stats).
Proof.
  destruct stats as [sz u g m a t nl md]. unfold from, stats_flags, number.
  cbn [st_size st_uid st_gid st_mode st_atime st_mtime st_nlink st_metadata].
  destruct sz, u, g, m, a, t; decide_present;
    cbn [present orb fmap option_fmap option_map default];
    rewrite ?lor_zero; reflexivity.
Qed.

Lemma stats_flags_basic (stats : IStats) :
  Js.truthy (Js.land (stats_flags stats) EXTENDED) = false
  /\ 0 <= stats_flags stats <= BASIC.
Proof.
  unfold stats_flags.
  destruct (present (st_size stats)),
    (present (st_uid stats) || present (st_gid stats)),
    (present (st_mode stats)),
    (present (st_atime stats) || present (st_mtime stats));
    (split; [vm_compute; reflexivity | vm_compute; split; discriminate]).
Qed.

Lemma write_basic (x : SftpAttributes) (nl : option Z)
    (md : option IMetadata) (response : SftpPacketWriter) :
  Js.truthy (Js.land (flags x) EXTENDED) = false ->
  write x response
  = write (mkAttrs (flags x) (size x) (uid x) (gid x) (mode x) (atime x)
             (mtime x) nl md) response.
Proof.
  intros E. unfold write.
  cbn [flags size uid gid mode atime mtime metadata]. now rewrite E.
Qed.

(** X23.  [from] sets one basic flag for each group of fields given and
    never the EXTENDED flag, so what [write] then emits does not depend on
    [nlink] or on the metadata of the stats: through [open], [setstat],
    [fsetstat] and [mkdir] they never reach the wire. *)
Theorem stats_extras_not_sent (stats : IStats) (response : SftpPacketWriter) :
  flags (from (Some stats)) = stats_flags stats
  /\ 0 <= stats_flags stats <= BASIC
  /\ write (from (Some stats)) response
     = write (from (Some (basic_stats stats))) response.
Proof.
  pose proof (stats_flags_basic stats) as [E Hrange].
  split; [now rewrite from_fields|]. split; [exact Hrange|].
  rewrite !from_fields. cbv zeta.
  rewrite (write_basic _ None None) by exact E. reflexivity.
Qed.

Lemma from_received (stats : IStats) :
  sendable stats ->
  mkAttrs (flags (from (Some stats))) (size (from (Some stats)))
    (uid (from (Some stats))) (gid (from (Some stats)))
    (mode (from (Some stats))) (atime (from (Some stats)))
    (mtime (from (Some stats))) None None
  = received stats.
Proof.
  intros [Hsz Hu Hg Hm Ha Ht Hd]. rewrite from_fields. unfold received.
  destruct stats as [sz u g m a t nl md].
  cbn [st_size st_uid st_gid st_mode st_atime st_mtime flags size uid gid mode
       atime mtime] in *.
  destruct sz as [sz|], u as [u|], g as [g|], m as [m|], a as [a|], t as [t|];
    try discriminate Hd;
    cbn [present orb fmap option_fmap option_map default within] in *;
    rewrite ?JsFacts.to_int32_id
      by (first [assumption | unfold int32 in *; lia]);
    reflexivity.
Qed.

Ltac flag_test := vm_compute; reflexivity.

Ltac gated_field range :=
  lazymatch goal with
  | |- _ /\ _ => split; [flag_test | range]
  | |- _ = _ => flag_test
  end.

Lemma received_representable (stats : IStats) :
  sendable stats -> representable (received stats).
Proof.
  intros [Hsz Hu Hg Hm Ha Ht Hd].
  destruct stats as [sz u g m a t nl md].
  cbn [st_size st_uid st_gid st_mode st_atime st_mtime] in *.
  unfold received, stats_flags.
  cbn [st_size st_uid st_gid st_mode st_atime st_mtime].
  destruct sz as [sz|], u as [u|], g as [g|], m as [m|], a as [a|], t as [t|];
    try discriminate Hd;
    cbn [present orb default within] in *;
    (constructor;
     cbn [flags size uid gid mode atime mtime nlink metadata gated];
     cbv [default from_option Datatypes.id];
     [ unfold uint32; split; [discriminate | reflexivity]
     | gated_field ltac:(unfold int64, int32 in *; lia)
     | gated_field ltac:(unfold int32 in *; lia)
     | gated_field ltac:(unfold int32 in *; lia)
     | gated_field ltac:(unfold uint32; lia)
     | gated_field ltac:(assumption)
     | gated_field ltac:(assumption)
     | reflexivity | reflexivity ]).
Qed.

(** X24.  What the client sends for stats can be read back.  For stats
    with numbers of 32 bits and both dates or none, in whole seconds, the
    block that [from] and [write] produce decodes to the same numbers and
    dates; when only one of [uid] and [gid] was given, the other is
    received as 0. *)
Theorem stats_round_trip (capacity : Z) (stats : IStats) :
  sendable stats -> 36 <= capacity ->
  exists b,
    encode capacity (from (Some stats)) = Return b
    /\ decode b = Return (received stats).
Proof.
  intros Hstats Hcap.
  pose proof (stats_flags_basic stats) as [E _].
  destruct (decode_encode_observed capacity (received stats)
              (received_representable stats Hstats) Hcap) as (b & Hb & Hd).
  exists b. split.
  - rewrite <- Hb. unfold encode. rewrite <- (from_received stats Hstats).
    rewrite <- write_basic; [reflexivity|].
    now rewrite from_fields.
  - rewrite Hd. apply f_equal, observed_plain. exact E.
Qed.

Lemma stats_round_trip_witness :
  sendable stats_sample
  /\ exists b,
       encode 64 (from (Some stats_sample)) = Return b
       /\ decode b = Return (received stats_sample).
Proof.
  assert (H : sendable stats_sample).
  { constructor; cbn [stats_sample within st_size st_uid st_gid st_mode
                        st_atime st_mtime present];
      try exact I; try reflexivity; try (unfold int32; lia).
    - exists 1. lia.
    - exists 2. lia. }
  split; [exact H|].
  refine (stats_round_trip 64 stats_sample H _). lia.
Defined.

(** X25.  Stats with only one of the two dates cannot be written: [from]
    sets the flag of the dates when either is given, and [write] then asks
    the missing one for its time.  [writeStats] throws, whatever the
    packet. *)
Theorem one_date_throws (stats : IStats) (packet : SftpPacketWriter)
    (w : Client.world) :
  present (st_atime stats) <> present (st_mtime stats) ->
  exists msg, Client.writeStats packet (Some stats) w = Client.Raise msg w.
Proof.
  intros Hdates. unfold Client.writeStats, Client.lift.
  rewrite from_fields. cbv zeta.
  assert (Hdate : Js.truthy (Js.land (stats_flags stats) ACMODTIME) = true).
  { unfold stats_flags.
    destruct (present (st_atime stats)), (present (st_mtime stats));
      try contradiction;
      destruct (present (st_size stats)),
        (present (st_uid stats) || present (st_gid stats)),
        (present (st_mode stats)); vm_compute; reflexivity. }
  unfold write. cbn [flags size uid gid mode atime mtime metadata].
  rewrite Hdate.
  repeat match goal with
  | |- context [mbind _ (writeInt32 ?v ?r)] =>
    destruct (writeInt32 v r); cbn [mbind result_bind]; [|now eexists]
  | |- context [mbind _ (writeInt64 ?v ?r)] =>
    destruct (writeInt64 v r); cbn [mbind result_bind]; [|now eexists]
  | |- context [mbind _ (if ?c then _ else _)] => destruct c
  | |- context [mbind _ (Return ?r)] => cbn [mbind result_bind]
  end.
  all: destruct (st_atime stats), (st_mtime stats);
    cbn [present orb seconds mbind result_bind] in *;
    try contradiction; try (now eexists).
  all: repeat match goal with
  | |- context [mbind _ (writeInt32 ?v ?r)] =>
    destruct (writeInt32 v r); cbn [mbind result_bind]; [|now eexists]
  end; now eexists.
Qed.

Lemma one_date_throws_witness :
  exists msg,
    Client.writeStats (new_writer 64)
      (Some (mkStats None None None None (Some 1000) None None None))
      (Client.new_world 1)
    = Client.Raise msg (Client.new_world 1).
Proof.
  refine (one_date_throws (mkStats None None None None (Some 1000) None None None)
            (new_writer 64) (Client.new_world 1) _).
  discriminate.
Defined.

End StatsFacts.

(** ** Extensions on the wire *)

Module ExtensionWireFacts.
Import Packet CodecSpec PacketFacts WireFacts SftpExtensions ExtensionsSpec.

(** X26.  An extension written by [SftpExtensions.write] is read back: for
    a known extension with a plain string value, the writer appends the
    name and the value as two strings, and a reader that finds these bytes
    reads the name and then, with [SftpExtensions.read], the value. *)
Theorem extension_round_trip (writer : SftpPacketWriter) (name value : string) :
  plain name = true ->
  Z.of_nat (String.length name) < 2 ^ 32 ->
  Z.of_nat (String.length value) < 2 ^ 32 ->
  position writer + 8 + Z.of_nat (String.length name)
  + Z.of_nat (String.length value) <= w_capacity writer ->
  exists writer',
    write writer name value = Return writer'
    /\ w_bytes writer'
       = w_bytes writer ++ wire_string name ++ wire_string value
    /\ forall reader rest,
         unread reader (wire_string name ++ wire_string value ++ rest) ->
         exists reader1 reader2,
           readString reader = Return (name, reader1)
           /\ read reader1 name = Return (ExtString value, reader2)
           /\ unread reader2 rest.
Proof.
  intros Hplain Hname Hvalue Hfits. unfold write, writeString.
  fold (wire_string name). fold (wire_string value).
  assert (Hlen : forall s, List.length (wire_string s)
                           = (4 + String.length s)%nat).
  { intros s. unfold wire_string.
    now rewrite length_app, length_be, length_bytes_of_string. }
  rewrite write_raw_fits by (rewrite Hlen; lia). cbn [mbind result_bind].
  rewrite write_raw_fits
    by (rewrite capacity_append, position_append, !Hlen; lia).
  eexists. split; [reflexivity|].
  split; [cbn [append w_bytes]; now rewrite <- app_assoc|].
  intros reader rest Hun.
  destruct (readString_unread _ _ _ Hname Hun) as [Hread1 Hun1].
  destruct (readString_unread _ _ _ Hvalue Hun1) as [Hread2 Hun2].
  do 2 eexists. split; [exact Hread1|]. split; [|exact Hun2].
  unfold plain in Hplain. apply andb_true_iff in Hplain as [Hknown Hplain].
  apply negb_true_iff in Hplain. cbn [existsb] in Hplain.
  repeat match type of Hplain with
  | (_ || _)%bool = false => apply orb_false_iff in Hplain as [? Hplain]
  end.
  unfold read.
  repeat match goal with
  | H : String.eqb name _ = false |- _ => rewrite H; clear H
  end.
  cbn [orb]. rewrite Hknown, Hread2. reflexivity.
Qed.

Lemma extension_round_trip_witness :
  exists writer',
    write (new_writer 64) HARDLINK "1" = Return writer'
    /\ w_bytes writer'
       = w_bytes (new_writer 64) ++ wire_string HARDLINK ++ wire_string "1"
    /\ forall reader rest,
         unread reader (wire_string HARDLINK ++ wire_string "1" ++ rest) ->
         exists reader1 reader2,
           readString reader = Return (HARDLINK, reader1)
           /\ read reader1 HARDLINK = Return (ExtString "1", reader2)
           /\ unread reader2 rest.
Proof.
  refine (extension_round_trip (new_writer 64) HARDLINK "1" eq_refl _ _ _);
    vm_compute; congruence.
Defined.

End ExtensionWireFacts.

(** ** Teardown *)

Module TeardownFacts.
Import Packet CodecSpec Client SessionSpec ClientFacts.

Lemma fail_each_run (code : Z) (msg : string) (requests : list SftpRequest)
    (w : world) :
  fail_each code msg requests w
  = Done tt
      (mkWorld (core w) (sent w) (closed w) (ticks w)
         (calls w
          ++ map (fun request =>
                    fail_with (req_callback request)
                      (createError code msg (req_info request)))
               requests)).
Proof.
  revert w. induction requests as [|request requests IH]; intros w.
  - cbn [fail_each map mret M_ret]. rewrite app_nil_r. now destruct w.
  - cbn [fail_each]. rewrite run_bind. unfold invoke at 1. rewrite IH.
    cbn [core sent closed ticks calls map]. now rewrite <- app_assoc.
Qed.

(** X27.  [end] fails the requests that are parked under a request id.
    It always returns; the session is then detached and its table empty,
    the channel, if there was one, was closed once, nothing was sent, and
    the callback of each request stored under an array index was called
    once, with an ESHUTDOWN error.  When every parked request is stored
    under such an index, these are all the parked requests. *)
Theorem end_fails_parked_requests (w : world) :
  let lost request :=
    createError SftpStatusCode.CONNECTION_LOST "Connection closed"
      (req_info request) in
  exists w',
    end_ w = Done tt w'
    /\ _host (core w') = None
    /\ _requests (core w') = ∅
    /\ sent w' = sent w /\ ticks w' = ticks w
    /\ closed w'
       = closed w ++ match _host (core w) with
                     | Some host => [(host, None)]
                     | None => []
                     end
    /\ calls w'
       = calls w
         ++ map (fun request => fail_with (req_callback request) (lost request))
              (array_elements (_requests (core w)))
    /\ (forall request, code (lost request) = "ESHUTDOWN")
    /\ ((forall key request,
           _requests (core w) !! key = Some request ->
           is_Some (array_index key)) ->
        array_elements (_requests (core w))
        ≡ₚ (map_to_list (_requests (core w))).*2).
Proof.
  intros lost. rewrite end_run, fail_each_run. eexists.
  split; [reflexivity|]. cbn [core sent ticks calls closed].
  split; [destruct (_host (core w)) eqn:E; [reflexivity | exact E]|].
  split; [destruct (_host (core w)); reflexivity|].
  split; [reflexivity|]. split; [reflexivity|].
  split; [destruct (_host (core w)); [reflexivity | now rewrite app_nil_r]|].
  split; [reflexivity|]. split; [reflexivity|].
  apply array_elements_all.
Qed.

End TeardownFacts.

(** ** Attributes in a reply *)

Module AttributeWireFacts.
Import Packet CodecSpec PacketFacts SftpAttributeFlags SftpAttributes.
Import AttributesSpec SftpAttributesFacts.

(** The round trip of the attribute block, for a reader that stands
    anywhere before the encoded bytes. *)
Lemma read_encoded (capacity : Z) (x : SftpAttributes) :
  representable x -> 36 <= capacity ->
  exists b,
    encode capacity x = Return b
    /\ forall reader,
         unread reader b ->
         exists reader', read reader = Return (observed x, reader').
Proof.
  destruct x as [fl sz u g m a t nl md].
  intros [Hfl Hsz Hu Hg Hm Ha Ht Hnl Hmd] Hcap.
  cbn [flags size uid gid mode atime mtime nlink metadata] in *. subst nl md.
  unfold gated in *.
  destruct sz as [sz|], u as [u|], g as [g|], m as [m|], a as [a|], t as [t|];
    repeat match goal with H : _ /\ _ |- _ => destruct H end;
    try congruence;
    destruct (Js.truthy (Js.land fl EXTENDED)) eqn:E5;
    unfold encode, write, observed, observed_flags;
    cbn [flags size uid gid mode atime mtime nlink metadata number seconds
         mbind result_bind];
    use_tests; cbn [mbind result_bind seconds];
    repeat write_step;
    (eexists; split; [reflexivity|]);
    intros reader Hunread;
    cbn [w_bytes append new_writer app] in Hunread;
    rewrite <- ?app_assoc in Hunread;
    eexists; unfold read;
    read_step Hunread; rewrite (Z.mod_small fl) by exact Hfl;
    use_tests; cbn [mbind result_bind];
    repeat (read_step Hunread; use_tests; cbn [mbind result_bind]);
    change (Z.to_nat (signed 32 (0 mod 2 ^ 32))) with 0%nat;
    cbn [read_extended mbind result_bind];
    rewrite ?signed32_mod, ?signed64_mod, ?seconds_whole by assumption;
    rewrite ?Z.mod_small by assumption;
    reflexivity.
Qed.

End AttributeWireFacts.

Module AttributeReplyFacts.
Import Packet CodecSpec PacketFacts AttributesSpec Client ClientFacts.
Import ReplySpec WireFacts ResponseFacts AttributeWireFacts.

(** X28.  Attributes survive the way from the server to the caller.  When
    the reply to [stat], [lstat] or [fstat] is an ATTRS packet whose body
    is a representable record written by [SftpAttributes.write], the
    callback receives, with no error, the fields of that record. *)
Theorem attributes_reply_delivers (w : world) (id capacity : Z)
    (x : SftpAttributes.SftpAttributes) (request : SftpRequest) :
  _requests (core w) !! Some id = Some request ->
  responseParser request = ParseAttribs ->
  int32 id -> representable x -> 36 <= capacity ->
  exists body,
    SftpAttributes.encode capacity x = Return body
    /\ _process (reply_frame SftpPacketType.ATTRS id body) w
       = Done tt
           (called
              (mkCall (req_callback request) None [VStats (SftpAttributes.to_stats x)])
              (taken (Some id) (reply_frame SftpPacketType.ATTRS id body) w)).
Proof.
  intros Hparked Hparser Hid Hx Hcap.
  destruct (read_encoded capacity x Hx Hcap) as (body & Hbody & Hread).
  exists body. split; [exact Hbody|].
  destruct (reply_dispatch w SftpPacketType.ATTRS id body request Hparked Hid)
    as (response & -> & Hrtype & Hun); [unfold SftpPacketType.ATTRS; lia|].
  rewrite Hparser. cbn [run_parser]. unfold parseAttribs.
  expect_reply SftpPacketType.ATTRS Hrtype.
  destruct (Hread response Hun) as [response' ->].
  reflexivity.
Qed.

Lemma sample_representable : representable sample.
Proof.
  constructor;
    cbn [sample SftpAttributes.flags SftpAttributes.size SftpAttributes.uid
         SftpAttributes.gid SftpAttributes.mode SftpAttributes.atime
         SftpAttributes.mtime SftpAttributes.nlink SftpAttributes.metadata
         gated];
    try reflexivity;
    try (split; [vm_compute; reflexivity|]);
    try (unfold uint32, int64; lia).
  - exists 1. lia.
  - exists 2. lia.
Qed.

Lemma attributes_reply_delivers_witness :
  exists body,
    SftpAttributes.encode 64 sample = Return body
    /\ _process (reply_frame SftpPacketType.ATTRS 1 body) (awaiting ParseAttribs)
       = Done tt
           (called
              (mkCall 1%nat None [VStats (SftpAttributes.to_stats sample)])
              (taken (Some 1) (reply_frame SftpPacketType.ATTRS 1 body)
                 (awaiting ParseAttribs))).
Proof.
  refine (attributes_reply_delivers (awaiting ParseAttribs) 1 64 sample
            (mkRequest 1%nat ParseAttribs (info_of "request"))
            eq_refl eq_refl _ sample_representable _);
    vm_compute; repeat split; congruence.
Defined.

End AttributeReplyFacts.
